(** * youtube-sync: a shallow embedding of [youtube-sync.py]

    The script mirrors a remote playlist into a folder.  Its persistent
    state lives in a dot folder [.sync] holding four files:
    [sync_config.conf], [ytdl_opts.conf], [sync_archive.json] (the
    title -> id ledger) and [archive.txt] (the download records the
    fetcher consults).  This file models the script's functions
    ([load_json], [write_json], [ArchiveCheckLogger.debug],
    [YoutubeSync.__init__], [init], [sync], [_update_files]) over an
    explicit file-system state and proves properties of them.

    Conventions.
    - The titles, the ids and the texts of the files of the folder are
      [string]s, one character per code point, so the folder model covers
      code points 0..255.  The JSON codec of the ledger is modelled on
      [ustr], the list of the code points of a Python [str], whatever
      they are; the folder model uses it through [code_points].
    - A file opened in text mode is read with its line endings CR LF and
      CR translated to the character 10.
    - The two [is not] tests of [sync] are tests of identity: a [pystr]
      carries the text of a string object and whether it is the interned
      object the literals of the script denote.
    - A Python [dict] is an association list in insertion order without
      repeated keys: the order is observable through [list(d.keys())],
      [list(d.values())] and [list.index].
    - Functions with effects live in the monad [M]: they read and update a
      [world], may raise a Python exception, and print lines. *)

From Stdlib Require Import String Ascii List Bool Arith NArith Lia.
Import ListNotations.
Local Open Scope list_scope.
Local Open Scope string_scope.

(* ================================================================== *)
(** ** Characters and strings *)

Definition nl : ascii := "010"%char.
Definition dquote : ascii := "034"%char.
Definition backslash : ascii := "092"%char.
Definition cr : ascii := "013"%char.

Definition str1 (c : ascii) : string := String c EmptyString.

(** [s.startswith(p)], returning what follows the prefix. *)
Fixpoint strip_prefix (p s : string) : option string :=
  match p with
  | EmptyString => Some s
  | String a p' =>
      match s with
      | EmptyString => None
      | String b s' => if Ascii.eqb a b then strip_prefix p' s' else None
      end
  end.

Fixpoint skip (n : nat) (s : string) : string :=
  match n with
  | 0 => s
  | S n' => match s with
            | EmptyString => EmptyString
            | String _ s' => skip n' s'
            end
  end.

Definition mem (x : string) (l : list string) : bool :=
  existsb (String.eqb x) l.

(** [l.index(x)]: position of the first element equal to [x]. *)
Fixpoint index (x : string) (l : list string) : nat :=
  match l with
  | [] => 0
  | y :: l' => if String.eqb y x then 0 else S (index x l')
  end.

(* ================================================================== *)
(** ** Python dictionaries with [str] keys *)

Section Dict.
Context {V : Type}.

Definition dict := list (string * V).

Definition keys (d : dict) : list string := map fst d.
Definition values (d : dict) : list V := map snd d.

(** [d.get(k)] *)
Fixpoint dict_get (k : string) (d : dict) : option V :=
  match d with
  | [] => None
  | (k', v) :: d' => if String.eqb k' k then Some v else dict_get k d'
  end.

(** [d[k] = v]: an existing key keeps its position. *)
Fixpoint dict_set (k : string) (v : V) (d : dict) : dict :=
  match d with
  | [] => [(k, v)]
  | (k', v') :: d' =>
      if String.eqb k' k then (k', v) :: d'
      else (k', v') :: dict_set k v d'
  end.

(** [d.pop(k, None)] *)
Fixpoint dict_pop (k : string) (d : dict) : dict :=
  match d with
  | [] => []
  | (k', v') :: d' =>
      if String.eqb k' k then d' else (k', v') :: dict_pop k d'
  end.
End Dict.

Arguments dict V : clear implicits.

(* ================================================================== *)
(** ** JSON text of a [str -> str] object

    [json.dump] escapes with [ensure_ascii]; [json.load] is the strict
    decoder.  Only objects whose members are strings are decoded: the
    ledger file is only ever written from such a dictionary.  The codec
    works on Python strings with any code point: a [ustr] lists the code
    points of a [str]. *)

Definition ustr := list N.
Definition udict := list (ustr * ustr).

Fixpoint ustr_eqb (a b : ustr) : bool :=
  match a, b with
  | [], [] => true
  | x :: a', y :: b' => N.eqb x y && ustr_eqb a' b'
  | _, _ => false
  end.

Definition ukeys (d : udict) : list ustr := map fst d.

(** [d[k] = v] *)
Fixpoint udict_set (k v : ustr) (d : udict) : udict :=
  match d with
  | [] => [(k, v)]
  | (k', v') :: d' =>
      if ustr_eqb k' k then (k', v) :: d'
      else (k', v') :: udict_set k v d'
  end.

Definition hex_digit (n : N) : ascii :=
  match n with
  | 0 => "0" | 1 => "1" | 2 => "2" | 3 => "3" | 4 => "4" | 5 => "5"
  | 6 => "6" | 7 => "7" | 8 => "8" | 9 => "9" | 10 => "a" | 11 => "b"
  | 12 => "c" | 13 => "d" | 14 => "e" | _ => "f"
  end%N%char.

(** The escape of [n] with four hexadecimal digits. *)
Definition u_escape (n : N) : string :=
  String backslash
    (String "u"
       (String (hex_digit (n / 4096))
          (String (hex_digit ((n / 256) mod 16))
             (String (hex_digit ((n / 16) mod 16))
                (str1 (hex_digit (n mod 16))))))).

(** [ESCAPE_DCT] and the fallbacks of [encode_basestring_ascii]: one
    escape for a code point below 0x10000, and above it the pair
    [0xd800 | ((v >> 10) & 0x3ff)], [0xdc00 | (v & 0x3ff)] for
    [v = n - 0x10000]. *)
Definition escape_char (n : N) : string :=
  if N.eqb n 34 then String backslash (str1 dquote)
  else if N.eqb n 92 then String backslash (str1 backslash)
  else if N.eqb n 8 then String backslash "b"
  else if N.eqb n 9 then String backslash "t"
  else if N.eqb n 10 then String backslash "n"
  else if N.eqb n 12 then String backslash "f"
  else if N.eqb n 13 then String backslash "r"
  else if (N.leb 32 n) && (N.leb n 126) then str1 (ascii_of_N n)
  else if N.ltb n 65536 then u_escape n
  else
    let v := (n - 65536)%N in
    u_escape (N.lor 55296 (N.land (N.shiftr v 10) 1023))
    ++ u_escape (N.lor 56320 (N.land v 1023)).

Fixpoint escape (s : ustr) : string :=
  match s with
  | [] => EmptyString
  | n :: s' => escape_char n ++ escape s'
  end.

Definition encode_str (s : ustr) : string :=
  String dquote (escape s ++ str1 dquote).

(** The members of an object, [isep] between items. *)
Fixpoint encode_members (isep : string) (d : udict) : string :=
  match d with
  | [] => EmptyString
  | [(k, v)] => encode_str k ++ ": " ++ encode_str v
  | (k, v) :: d' =>
      encode_str k ++ ": " ++ encode_str v ++ isep ++ encode_members isep d'
  end.

Definition indent4 : string := String nl "    ".

(** [json.dumps(d, indent=4)] when [pretty], [json.dumps(d)] otherwise. *)
Definition py_dumps (pretty : bool) (d : udict) : string :=
  match d with
  | [] => "{}"
  | _ =>
      if pretty
      then "{" ++ indent4 ++ encode_members ("," ++ indent4) d ++ str1 nl ++ "}"
      else "{" ++ encode_members ", " d ++ "}"
  end.

Definition is_json_ws (c : ascii) : bool :=
  let n := nat_of_ascii c in
  (Nat.eqb n 32) || (Nat.eqb n 9) || (Nat.eqb n 10) || (Nat.eqb n 13).

Fixpoint skip_ws (s : string) : string :=
  match s with
  | EmptyString => EmptyString
  | String c s' => if is_json_ws c then skip_ws s' else s
  end.

Definition hex_val (c : ascii) : option N :=
  let n := N_of_ascii c in
  if (N.leb 48 n) && (N.leb n 57) then Some (n - 48)%N
  else if (N.leb 97 n) && (N.leb n 102) then Some (n - 87)%N
  else if (N.leb 65 n) && (N.leb n 70) then Some (n - 55)%N
  else None.

Definition hex4 (a b c d : ascii) : option N :=
  match hex_val a, hex_val b, hex_val c, hex_val d with
  | Some x, Some y, Some z, Some t => Some (((x * 16 + y) * 16 + z) * 16 + t)%N
  | _, _, _, _ => None
  end.

(** [BACKSLASH] table of the decoder. *)
Definition unescape (e : ascii) : option N :=
  let n := N_of_ascii e in
  if N.eqb n 34 then Some 34%N
  else if N.eqb n 92 then Some 92%N
  else if N.eqb n 47 then Some 47%N
  else if N.eqb n 98 then Some 8%N
  else if N.eqb n 102 then Some 12%N
  else if N.eqb n 110 then Some 10%N
  else if N.eqb n 114 then Some 13%N
  else if N.eqb n 116 then Some 9%N
  else None.

Definition is_high_surrogate (n : N) : bool := N.leb 55296 n && N.leb n 56319.
Definition is_low_surrogate (n : N) : bool := N.leb 56320 n && N.leb n 57343.

(** [0x10000 + (((uni - 0xd800) << 10) | (uni2 - 0xdc00))] *)
Definition join_surrogates (uni uni2 : N) : N :=
  (65536 + N.lor (N.shiftl (uni - 55296) 10) (uni2 - 56320))%N.

Definition cons_code (n : N) (r : option (ustr * string))
  : option (ustr * string) :=
  match r with
  | Some (t, rest) => Some (n :: t, rest)
  | None => None
  end.

(** [scanstring], started after the opening quote: the decoded string and
    the text after the closing quote.  An escaped high surrogate that the
    escape of a low surrogate follows is decoded with it into one code
    point. *)
Fixpoint scanstring (s : string) : option (ustr * string) :=
  match s with
  | EmptyString => None
  | String c r =>
      if Ascii.eqb c dquote then Some ([], r)
      else if Ascii.eqb c backslash then
        match r with
        | EmptyString => None
        | String e r1 =>
            if Ascii.eqb e "u" then
              match r1 with
              | String h1 (String h2 (String h3 (String h4 r2))) =>
                  match hex4 h1 h2 h3 h4 with
                  | Some uni =>
                      if is_high_surrogate uni then
                        match r2 with
                        | String b1 (String b2
                            (String g1 (String g2 (String g3 (String g4 r3)))))
                          =>
                            if Ascii.eqb b1 backslash && Ascii.eqb b2 "u" then
                              match hex4 g1 g2 g3 g4 with
                              | Some uni2 =>
                                  if is_low_surrogate uni2
                                  then cons_code (join_surrogates uni uni2)
                                                 (scanstring r3)
                                  else cons_code uni (scanstring r2)
                              | None => None
                              end
                            else cons_code uni (scanstring r2)
                        | _ => cons_code uni (scanstring r2)
                        end
                      else cons_code uni (scanstring r2)
                  | None => None
                  end
              | _ => None
              end
            else
              match unescape e with
              | Some ch => cons_code ch (scanstring r1)
              | None => None
              end
        end
      else if N.ltb (N_of_ascii c) 32 then None
      else cons_code (N_of_ascii c) (scanstring r)
  end.

(** The member loop of [JSONObject], entered at the quote opening a key.
    [fuel] bounds the number of members. *)
Fixpoint parse_members (fuel : nat) (s : string) (acc : udict)
  : option udict :=
  match fuel with
  | 0 => None
  | S fuel' =>
      match s with
      | String q r =>
          if Ascii.eqb q dquote then
            match scanstring r with
            | Some (k, r1) =>
                match skip_ws r1 with
                | String ":" r2 =>
                    match skip_ws r2 with
                    | String q' r3 =>
                        if Ascii.eqb q' dquote then
                          match scanstring r3 with
                          | Some (v, r4) =>
                              let acc' := udict_set k v acc in
                              match skip_ws r4 with
                              | String "}" r5 =>
                                  match skip_ws r5 with
                                  | EmptyString => Some acc'
                                  | _ => None
                                  end
                              | String "," r5 =>
                                  parse_members fuel' (skip_ws r5) acc'
                              | _ => None
                              end
                          | None => None
                          end
                        else None
                    | EmptyString => None
                    end
                | _ => None
                end
            | None => None
            end
          else None
      | EmptyString => None
      end
  end.

(** Padding the decoder skips. *)
Definition pad_ok (pad : string) : Prop :=
  forall s, skip_ws (pad ++ s) = skip_ws s.

Definition set_pair (a : udict) (kv : ustr * ustr) : udict :=
  udict_set (fst kv) (snd kv) a.

(** [json.loads] on the text of an object of strings. *)
Definition py_loads (s : string) : option udict :=
  match skip_ws s with
  | String "{" r =>
      match skip_ws r with
      | String "}" r' =>
          match skip_ws r' with
          | EmptyString => Some []
          | _ => None
          end
      | r1 => parse_members (String.length s) r1 []
      end
  | _ => None
  end.

(** The strings of the folder model hold code points below 256: their
    code points, and the string with given code points. *)
Fixpoint code_points (s : string) : ustr :=
  match s with
  | EmptyString => []
  | String c s' => N_of_ascii c :: code_points s'
  end.

Fixpoint of_code_points (u : ustr) : option string :=
  match u with
  | [] => Some EmptyString
  | n :: u' =>
      if N.ltb n 256 then
        match of_code_points u' with
        | Some s => Some (String (ascii_of_N n) s)
        | None => None
        end
      else None
  end.

Definition code_points_dict (d : dict string) : udict :=
  map (fun kv => (code_points (fst kv), code_points (snd kv))) d.

Fixpoint of_code_points_dict (d : udict) : option (dict string) :=
  match d with
  | [] => Some []
  | (k, v) :: d' =>
      match of_code_points k, of_code_points v, of_code_points_dict d' with
      | Some k', Some v', Some r => Some ((k', v') :: r)
      | _, _, _ => None
      end
  end.

(** [json.dumps] and [json.loads] on the dictionaries of the folder
    model; a text that decodes to a code point above 255 is outside the
    model and rejected. *)
Definition json_dumps (pretty : bool) (d : dict string) : string :=
  py_dumps pretty (code_points_dict d).

Definition json_loads (s : string) : option (dict string) :=
  match py_loads s with
  | Some d => of_code_points_dict d
  | None => None
  end.

(** Code points of Python, and strings in which no high surrogate is
    followed at once by a low surrogate. *)
Definition valid_code (n : N) : Prop := (n < 1114112)%N.

Fixpoint no_surrogate_pair (s : ustr) : bool :=
  match s with
  | [] => true
  | a :: s' =>
      match s' with
      | b :: _ => negb (is_high_surrogate a && is_low_surrogate b)
      | [] => true
      end && no_surrogate_pair s'
  end.

Definition well_formed (s : ustr) : Prop :=
  Forall valid_code s /\ no_surrogate_pair s = true.

(** The strings of a dictionary are well formed. *)
Definition well_formed_dict (d : udict) : Prop :=
  forall k v, In (k, v) d -> well_formed k /\ well_formed v.

(** Whether the text starts with the escape of a low surrogate. *)
Definition low_escape_ahead (t : string) : bool :=
  match t with
  | String b1 t1 =>
      if Ascii.eqb b1 backslash then
        match t1 with
        | String b2 t2 =>
            if Ascii.eqb b2 "u" then
              match t2 with
              | String g1 (String g2 (String g3 (String g4 _))) =>
                  match hex4 g1 g2 g3 g4 with
                  | Some uni2 => is_low_surrogate uni2
                  | None => true
                  end
              | _ => false
              end
            else false
        | EmptyString => false
        end
      else false
  | EmptyString => false
  end.

(* ================================================================== *)
(** ** Text files: [readlines] and [str.split] *)

(** What a file opened in text mode hands to the program: the line
    endings CR LF and CR are read as the character 10. *)
Fixpoint universal_newlines (s : string) : string :=
  match s with
  | EmptyString => EmptyString
  | String c s' =>
      if Ascii.eqb c cr then
        String nl
          match s' with
          | String c' s'' =>
              if Ascii.eqb c' nl then universal_newlines s''
              else universal_newlines s'
          | EmptyString => EmptyString
          end
      else String c (universal_newlines s')
  end.

(** The lines of a text, each with the newline that ends it. *)
Fixpoint split_lines (s : string) : list string :=
  match s with
  | EmptyString => []
  | String c s' =>
      if Ascii.eqb c nl then str1 c :: split_lines s'
      else match split_lines s' with
           | [] => [str1 c]
           | l :: ls => String c l :: ls
           end
  end.

(** [file.readlines()] on a file opened in text mode: every line ends
    with the character 10, whichever line ending the file holds. *)
Definition readlines (s : string) : list string :=
  split_lines (universal_newlines s).

(** [str.isspace] on code points below 256. *)
Definition py_isspace (c : ascii) : bool :=
  let n := nat_of_ascii c in
  (Nat.leb 9 n && Nat.leb n 13) || (Nat.leb 28 n && Nat.leb n 32)
  || Nat.eqb n 133 || Nat.eqb n 160.

(** [s.split()]: the maximal runs of characters that are not spaces. *)
Fixpoint split (s : string) : list string :=
  match s with
  | EmptyString => []
  | String c r =>
      if py_isspace c then split r
      else match r with
           | EmptyString => [str1 c]
           | String c' _ =>
               if py_isspace c' then str1 c :: split r
               else match split r with
                    | f :: fs => String c f :: fs
                    | [] => [str1 c]
                    end
           end
  end.

(** What a file opened with ['r+'] holds when [written] was written from
    its start and it was closed without [truncate]; written back, the
    character 10 stays as it is. *)
Definition overwrite (written original : string) : string :=
  written ++ skip (String.length written) original.

(* ================================================================== *)
(** ** Values, exceptions, the world *)

(** Scalar values of the two configuration documents. *)
Inductive pyval :=
| PNone
| PBool (b : bool)
| PInt (n : nat)
| PStr (s : string).

(** [bool(v)] *)
Definition truthy (v : pyval) : bool :=
  match v with
  | PNone => false
  | PBool b => b
  | PInt n => negb (Nat.eqb n 0)
  | PStr s => negb (String.eqb s EmptyString)
  end.

Definition is_None (v : pyval) : bool :=
  match v with PNone => true | _ => false end.

(** [d.get(k, default)] *)
Definition dict_get_default {V} (k : string) (default : V) (d : dict V) : V :=
  match dict_get k d with
  | Some v => v
  | None => default
  end.

Inductive exn :=
| NoPlaylistLink
| NotYoutubePlaylist
| IndexError
| KeyError
| TypeError
| AttributeError
| ValueError
| FileNotFoundError
| FileExistsError
| JSONDecodeError.

Inductive res (A : Type) :=
| Ok (a : A)
| Raise (e : exn).
Arguments Ok {A} a.
Arguments Raise {A} e.

(** What the [%] operator does on a template and a mapping: the formatted
    string, or one of the three exceptions it raises. *)
Inductive format_result :=
| Formatted (s : string)
| FormatKeyError
| FormatTypeError
| FormatValueError.

Definition res_of_format (f : format_result) : res string :=
  match f with
  | Formatted s => Ok s
  | FormatKeyError => Raise KeyError
  | FormatTypeError => Raise TypeError
  | FormatValueError => Raise ValueError
  end.

(** The folder the tool runs in.  The two configuration files hold their
    decoded JSON document; the ledger and the download records hold their
    text.  [w_media] lists every other file, by the path [glob] reports,
    in directory order. *)
Record world := mkWorld {
  w_cwd : string;
  w_config_dir : bool;
  w_config_file : option (dict pyval);
  w_ytdl_opts_file : option (dict pyval);
  w_sync_file : option string;
  w_archive_file : option string;
  w_media : list string
}.

Definition set_config_dir (b : bool) (w : world) : world :=
  mkWorld (w_cwd w) b (w_config_file w) (w_ytdl_opts_file w)
          (w_sync_file w) (w_archive_file w) (w_media w).
Definition set_config_file (f : option (dict pyval)) (w : world) : world :=
  mkWorld (w_cwd w) (w_config_dir w) f (w_ytdl_opts_file w)
          (w_sync_file w) (w_archive_file w) (w_media w).
Definition set_ytdl_opts_file (f : option (dict pyval)) (w : world) : world :=
  mkWorld (w_cwd w) (w_config_dir w) (w_config_file w) f
          (w_sync_file w) (w_archive_file w) (w_media w).
Definition set_sync_file (f : option string) (w : world) : world :=
  mkWorld (w_cwd w) (w_config_dir w) (w_config_file w) (w_ytdl_opts_file w)
          f (w_archive_file w) (w_media w).
Definition set_archive_file (f : option string) (w : world) : world :=
  mkWorld (w_cwd w) (w_config_dir w) (w_config_file w) (w_ytdl_opts_file w)
          (w_sync_file w) f (w_media w).
Definition set_media (m : list string) (w : world) : world :=
  mkWorld (w_cwd w) (w_config_dir w) (w_config_file w) (w_ytdl_opts_file w)
          (w_sync_file w) (w_archive_file w) m.

(* ================================================================== *)
(** ** The monad of the script: state, exceptions, printed lines *)

Definition M (A : Type) : Type := world -> res A * world * list string.

Definition ret {A} (a : A) : M A := fun w => (Ok a, w, []).

Definition bind {A B} (m : M A) (f : A -> M B) : M B :=
  fun w =>
    match m w with
    | (Ok a, w1, o1) =>
        match f a w1 with
        | (r, w2, o2) => (r, w2, app o1 o2)
        end
    | (Raise e, w1, o1) => (Raise e, w1, o1)
    end.

Definition raise {A} (e : exn) : M A := fun w => (Raise e, w, []).
Definition print (s : string) : M unit := fun w => (Ok tt, w, [s]).
Definition get_world : M world := fun w => (Ok w, w, []).
Definition put_world (w' : world) : M unit := fun _ => (Ok tt, w', []).
Definition lift {A} (r : res A) : M A := fun w => (r, w, []).
Definition print_all (l : list string) : M unit := fun w => (Ok tt, w, l).

Declare Scope ysync_scope.
Delimit Scope ysync_scope with ysync.
Notation "x <- m ;; k" := (bind m (fun x => k))
  (at level 61, m at next level, right associativity) : ysync_scope.
Notation "m ;;; k" := (bind m (fun _ => k))
  (at level 61, right associativity) : ysync_scope.
Local Open Scope ysync_scope.
Local Open Scope string_scope.

Definition result {A} (x : res A * world * list string) : res A := fst (fst x).
Definition final {A} (x : res A * world * list string) : world := snd (fst x).
Definition printed {A} (x : res A * world * list string) : list string := snd x.

(* ================================================================== *)
(** ** [load_json], [write_json] *)

(** [load_json(filename, default_val)]: [file] is what [filename] holds,
    [None] when [os.path.isfile] fails; [json_load] decodes it. *)
Definition load_json {D A} (json_load : D -> res A) (file : option D)
    (default_val : A) : res A :=
  match file with
  | None => Ok default_val
  | Some f => json_load f
  end.

(** [write_json(filename, data, pretty)]: what [filename] holds next. *)
Definition write_json {D A} (json_dump : bool -> A -> D) (data : A)
    (pretty : bool) : option D :=
  if pretty then Some (json_dump true data) else Some (json_dump false data).

(** [json.load] on the text of the ledger file: on Python strings, and
    on the strings of the folder model. *)
Definition json_load (text : string) : res udict :=
  match py_loads text with
  | Some d => Ok d
  | None => Raise JSONDecodeError
  end.

Definition json_load_ledger (text : string) : res (dict string) :=
  match json_loads text with
  | Some d => Ok d
  | None => Raise JSONDecodeError
  end.

Definition json_load_doc (doc : dict pyval) : res (dict pyval) := Ok doc.
Definition json_dump_doc (_ : bool) (doc : dict pyval) : dict pyval := doc.

(* ================================================================== *)
(** ** [ArchiveCheckLogger] *)

Definition recorded_suffix : string := " has already been recorded in archive".

(** The group [title] of the pattern matched by [re.match] in [debug],
    on the text after the prefix [download]: the greedy dot-star takes the
    longest run without a newline that [recorded_suffix] follows. *)
Fixpoint match_title (s : string) : option string :=
  match s with
  | EmptyString => None
  | String c s' =>
      match (if Ascii.eqb c nl then None else match_title s') with
      | Some t => Some (String c t)
      | None =>
          match strip_prefix recorded_suffix s with
          | Some _ => Some EmptyString
          | None => None
          end
      end
  end.

Definition recorded_title (msg : string) : option string :=
  match strip_prefix "[download] " msg with
  | Some rest => match_title rest
  | None => None
  end.

(** [ArchiveCheckLogger.debug]: the lines printed and [self.songs] after. *)
Definition debug (quiet : pyval) (msg : string) (songs : dict string)
  : list string * dict string :=
  let out := if negb (truthy quiet) then [("<DEBUG> " ++ msg)%string] else [] in
  match recorded_title msg with
  | Some title => (out, dict_pop title songs)
  | None => (out, songs)
  end.

Definition warning (msg : string) : list string := [("<WARNING> " ++ msg)%string].
Definition error (msg : string) : list string := [("<ERROR> " ++ msg)%string].

(* ================================================================== *)
(** ** The fetcher: what [youtube_dl] hands back *)

Record entry := mkEntry { e_title : string; e_id : string }.

(** A [str] object of the info dictionary that [sync] tests with [is]:
    its text, and whether it is the interned object of that text.  The
    two literals of line 127 are interned constants of the script, so an
    object is the literal exactly when it is the interned string with the
    literal's text; a string computed at run time has the text without
    being that object. *)
Record pystr := mkStr { str_text : string; str_interned : bool }.

Definition literal (s : string) : pystr := mkStr s true.
Definition computed (s : string) : pystr := mkStr s false.

(** The info dictionary returned by [extract_info]; a field is [None]
    when the key is missing.  An entry is [None] when its download failed
    and errors are ignored. *)
Record meta := mkMeta {
  m_type : option pystr;
  m_extractor_key : option pystr;
  m_entries : option (list (option entry));
  m_title : option string
}.

Inductive log_event :=
| LDebug (msg : string)
| LWarning (msg : string)
| LError (msg : string).

(** One run of [extract_info(link, download=True)]: the calls made on the
    logger, the download records and the media files it leaves, and the
    value it returns ([None] for Python's [None]). *)
Record fetch_result := mkFetch {
  fr_log : list log_event;
  fr_archive_file : option string;
  fr_media : list string;
  fr_meta : option meta
}.

(** The logger calls of a fetch, in order. *)
Fixpoint run_logger (quiet : pyval) (log : list log_event) (songs : dict string)
  : list string * dict string :=
  match log with
  | [] => ([], songs)
  | ev :: log' =>
      match ev with
      | LDebug msg =>
          let '(o1, songs1) := debug quiet msg songs in
          let '(o2, songs2) := run_logger quiet log' songs1 in
          (app o1 o2, songs2)
      | LWarning msg =>
          let '(o2, songs2) := run_logger quiet log' songs in
          (app (warning msg) o2, songs2)
      | LError msg =>
          let '(o2, songs2) := run_logger quiet log' songs in
          (app (error msg) o2, songs2)
      end
  end.

(** [self.remove_list] once the fetch is over. *)
Definition working_set (log : list log_event) (songs : dict string)
  : dict string :=
  snd (run_logger PNone log songs).

(* ================================================================== *)
(** ** [YoutubeSync] *)

Definition ytdl_default_opts : dict pyval :=
  [ ("extractaudio", PBool true);
    ("audioformat", PStr "m4a");
    ("format", PStr "m4a");
    ("nocheckcertificate", PBool true);
    ("ignoreerrors", PBool true);
    ("no_warnings", PBool true);
    ("noplaylist", PBool true);
    ("outtmpl", PStr "./%(playlist_title)s/%(title)s.%(ext)s") ].

(** [os.path.join(a, b)] *)
Definition path_join (a b : string) : string :=
  match b with
  | String "/" _ => b
  | _ =>
      match a with
      | EmptyString => b
      | _ =>
          match strip_prefix "/" (skip (String.length a - 1) a) with
          | Some _ => a ++ b
          | None => a ++ "/" ++ b
          end
      end
  end.

(** The fields of the object the methods read or assign; [quiet] is the
    logger's flag and [remove_list] the dictionary it shares with the
    logger. *)
Record YoutubeSync := mkYoutubeSync {
  valid_dir : bool;
  archive_file : string;
  sync_config : dict pyval;
  ytdl_opts : dict pyval;
  sync_archive : dict string;
  remove_list : dict string;
  quiet : pyval
}.

Definition set_sync_config (c : dict pyval) (self : YoutubeSync) :=
  mkYoutubeSync (valid_dir self) (archive_file self) c (ytdl_opts self)
                (sync_archive self) (remove_list self) (quiet self).
Definition set_ytdl_opts (o : dict pyval) (self : YoutubeSync) :=
  mkYoutubeSync (valid_dir self) (archive_file self) (sync_config self) o
                (sync_archive self) (remove_list self) (quiet self).
Definition set_sync_archive (a : dict string) (self : YoutubeSync) :=
  mkYoutubeSync (valid_dir self) (archive_file self) (sync_config self)
                (ytdl_opts self) a (remove_list self) (quiet self).
Definition set_remove_list (r : dict string) (self : YoutubeSync) :=
  mkYoutubeSync (valid_dir self) (archive_file self) (sync_config self)
                (ytdl_opts self) (sync_archive self) r (quiet self).

(** [YoutubeSync.__init__] *)
Definition YoutubeSync_new : M YoutubeSync :=
  w <- get_world ;;
  let config_dir := path_join (w_cwd w) ".sync" in
  sync_config <- lift (load_json json_load_doc (w_config_file w) []) ;;
  ytdl_opts <- lift (load_json json_load_doc (w_ytdl_opts_file w)
                               ytdl_default_opts) ;;
  sync_archive <- lift (load_json json_load_ledger (w_sync_file w) []) ;;
  let quiet := dict_get_default "quiet" PNone ytdl_opts in
  let ytdl_opts :=
    if negb (is_None quiet) then dict_pop "quiet" ytdl_opts else ytdl_opts in
  let quiet :=
    dict_get_default "quiet" (if is_None quiet then PBool false else quiet)
                     sync_config in
  ret (mkYoutubeSync (w_config_dir w) (path_join config_dir "archive.txt")
                     sync_config ytdl_opts sync_archive sync_archive quiet).

(** [os.makedirs(self.config_dir)] *)
Definition makedirs : M unit :=
  w <- get_world ;;
  if w_config_dir w then raise FileExistsError
  else put_world (set_config_dir true w).

(** [YoutubeSync.init] *)
Definition init (playlist_link : string) (self : YoutubeSync) : M YoutubeSync :=
  let self :=
    set_sync_config
      (dict_set "playlist_link" (PStr playlist_link) (sync_config self)) self in
  valid_folder <-
    (if negb (valid_dir self)
     then print "Creating youtube-sync folder..." ;;;
          makedirs ;;;
          ret false
     else ret true) ;;
  w <- get_world ;;
  match w_config_file w with
  | None =>
      print "Creating youtube-sync config file" ;;;
      put_world
        (set_config_file (write_json json_dump_doc (sync_config self) true) w)
  | Some _ => ret tt
  end ;;;
  w <- get_world ;;
  match w_ytdl_opts_file w with
  | None =>
      print "Creating youtube-dl config file" ;;;
      put_world
        (set_ytdl_opts_file (write_json json_dump_doc (ytdl_opts self) true) w)
  | Some _ => ret tt
  end ;;;
  (if negb valid_folder
   then print "Successfully initialized youtube-sync" ;;;
        print "Run 'youtube-sync --sync' to sync this folder"
   else ret tt) ;;;
  ret self.

(** [v is lit] for a string literal [lit] of the script: identity of
    objects, not equality of texts. *)
Definition py_is (v : option pystr) (lit : string) : bool :=
  match v with
  | Some o => str_interned o && String.eqb (str_text o) lit
  | None => false
  end.

(** [v == lit] *)
Definition py_eq (v : option pystr) (lit : string) : bool :=
  match v with
  | Some o => String.eqb (str_text o) lit
  | None => false
  end.

(** The loop [for entry in meta.get("entries")] of [sync]. *)
Fixpoint add_entries (entries : list (option entry)) (sa : dict string)
  : res (dict string) :=
  match entries with
  | [] => Ok sa
  | None :: _ => Raise TypeError
  | Some e :: es => add_entries es (dict_set (e_title e) (e_id e) sa)
  end.

(** The loop over [lines] of [_update_files]: whether it ran to its end,
    the text written back so far and [removed_songs]. *)
Record scan := mkScan {
  sc_ok : bool;
  sc_written : string;
  sc_removed : list string
}.

(** [line.split()[1]], [None] for the [IndexError]. *)
Definition line_id (line : string) : option string :=
  nth_error (split line) 1.

Fixpoint scan_lines (rm_ids rm_titles lines : list string)
    (written : string) (removed_songs : list string) : scan :=
  match lines with
  | [] => mkScan true written removed_songs
  | line :: lines' =>
      match line_id line with
      | None => mkScan false written removed_songs
      | Some song_id =>
          if mem song_id rm_ids then
            let title := nth (index song_id rm_ids) rm_titles EmptyString in
            scan_lines rm_ids rm_titles lines' written
                       (app removed_songs [title])
          else
            scan_lines rm_ids rm_titles lines' (written ++ line) removed_songs
      end
  end.

(** The lines [scan_lines] writes back, and the title it records for a
    line it drops. *)
Definition kept (rm_ids : list string) (line : string) : bool :=
  match line_id line with
  | Some song_id => negb (mem song_id rm_ids)
  | None => false
  end.

Definition dropped_title (rm_ids rm_titles : list string) (line : string)
  : string :=
  match line_id line with
  | Some song_id => nth (index song_id rm_ids) rm_titles EmptyString
  | None => EmptyString
  end.

Fixpoint concat_lines (lines : list string) : string :=
  match lines with
  | [] => EmptyString
  | l :: ls => l ++ concat_lines ls
  end.

Definition pop_all (ks : list string) (d : dict string) : dict string :=
  fold_left (fun d k => dict_pop k d) ks d.

(** The titles [_update_files] removes, given the working set and the
    lines of the download records. *)
Definition removed_titles (ws : dict string) (lines : list string)
  : list string :=
  map (dropped_title (values ws) (keys ws))
      (filter (fun l => negb (kept (values ws) l)) lines).

Fixpoint no_nl (s : string) : bool :=
  match s with
  | EmptyString => true
  | String c s' => negb (Ascii.eqb c nl) && no_nl s'
  end.

Fixpoint no_cr (s : string) : bool :=
  match s with
  | EmptyString => true
  | String c s' => negb (Ascii.eqb c cr) && no_cr s'
  end.

(** Lines as [readlines] yields them: a line ends with its only newline,
    the last one may lack it, and none holds a carriage return. *)
Definition complete_line (l : string) : Prop :=
  exists b, l = b ++ str1 nl /\ no_nl b = true /\ no_cr b = true.

Definition partial_line (l : string) : Prop :=
  l <> EmptyString /\ no_nl l = true /\ no_cr l = true.

Fixpoint lines_ok (ls : list string) : Prop :=
  match ls with
  | [] => True
  | l :: ls' => (complete_line l /\ lines_ok ls') \/ (partial_line l /\ ls' = [])
  end.

Definition remove_path (path : string) (files : list string) : list string :=
  filter (fun p => negb (String.eqb p path)) files.

Section Sync.

(** The collaborators outside the script: [youtube_dl] run with the
    options and the link on the current folder; the [%] operator on a
    template and the mapping with keys [playlist_title], [title], [ext];
    and the matching of a path against a [glob] pattern. *)
Variable fetcher : dict pyval -> pyval -> world -> fetch_result.
Variable str_format : string -> string -> string -> string -> format_result.
Variable fnmatch : string -> string -> bool.

(** [glob.glob(pattern)] *)
Definition glob (pattern : string) : M (list string) :=
  w <- get_world ;;
  ret (filter (fnmatch pattern) (w_media w)).

(** [os.remove(path)] *)
Definition os_remove (path : string) : M unit :=
  w <- get_world ;;
  if mem path (w_media w)
  then put_world (set_media (remove_path path (w_media w)) w)
  else raise FileNotFoundError.

(** The folder once the fetch is over. *)
Definition fetched_world (fr : fetch_result) (w : world) : world :=
  set_media (fr_media fr) (set_archive_file (fr_archive_file fr) w).

(** [ytdl.extract_info(link, download=True)] with [self.check_logger] as
    logger: the fetch updates the download records and the media files,
    and its debug calls prune [self.remove_list]. *)
Definition extract_info (self : YoutubeSync) (link : pyval)
  : M (YoutubeSync * option meta) :=
  w <- get_world ;;
  let fr := fetcher (ytdl_opts self) link w in
  let lg := run_logger (quiet self) (fr_log fr) (remove_list self) in
  print_all (fst lg) ;;;
  put_world (fetched_world fr w) ;;;
  ret (set_remove_list (snd lg) self, fr_meta fr).

(** The second loop of [_update_files]. *)
Fixpoint remove_songs (playlist_title : string) (self : YoutubeSync)
    (removed_songs : list string) : M YoutubeSync :=
  match removed_songs with
  | [] => ret self
  | key :: rest =>
      let self := set_sync_archive (dict_pop key (sync_archive self)) self in
      outtmpl <- match dict_get "outtmpl" (ytdl_opts self) with
                 | Some v => ret v
                 | None => raise KeyError
                 end ;;
      path <- match outtmpl with
              | PStr t =>
                  lift (res_of_format (str_format t playlist_title key "*"))
              | _ => raise TypeError
              end ;;
      found <- glob path ;;
      match found with
      | f :: _ => os_remove f
      | [] => raise IndexError
      end ;;;
      remove_songs playlist_title self rest
  end.

(** [YoutubeSync._update_files] *)
Definition _update_files (playlist_title : string) (self : YoutubeSync)
  : M YoutubeSync :=
  let rm_ids := values (remove_list self) in
  let rm_titles := keys (remove_list self) in
  w <- get_world ;;
  match w_archive_file w with
  | None => raise FileNotFoundError
  | Some text =>
      let sc := scan_lines rm_ids rm_titles (readlines text) EmptyString [] in
      print_all (map (fun t => ("Removing song: " ++ t)%string)
                     (sc_removed sc)) ;;;
      if sc_ok sc then
        put_world (set_archive_file (Some (sc_written sc)) w) ;;;
        self <- remove_songs playlist_title self (sc_removed sc) ;;
        w <- get_world ;;
        put_world
          (set_sync_file (write_json json_dumps (sync_archive self) false) w) ;;;
        ret self
      else
        put_world
          (set_archive_file (Some (overwrite (sc_written sc) text)) w) ;;;
        raise IndexError
  end.

(** The statements of [sync] that follow the playlist test. *)
Definition reconcile (meta : meta) (self : YoutubeSync) : M YoutubeSync :=
  entries <- match m_entries meta with
             | Some es => ret es
             | None => raise TypeError
             end ;;
  sa <- lift (add_entries entries (sync_archive self)) ;;
  let self := set_sync_archive sa self in
  title <- match m_title meta with
           | Some t => ret t
           | None => raise KeyError
           end ;;
  _update_files title self.

(** [YoutubeSync.sync].  The two [is not] tests of line 127 are tests of
    identity with the literals.  The [logger] entry of the options is the
    logger [extract_info] calls; the dictionary handed to the fetcher
    carries the other entries. *)
Definition sync (self : YoutubeSync) : M YoutubeSync :=
  if negb (valid_dir self) then
    print "Cannot sync to an invalid dir" ;;;
    print "Try running 'youtube-sync --init'" ;;;
    ret self
  else if negb (truthy (dict_get_default "playlist_link" PNone
                                         (sync_config self)))
  then raise NoPlaylistLink
  else
    let self :=
      set_ytdl_opts
        (dict_set "download_archive" (PStr (archive_file self))
                  (ytdl_opts self)) self in
    r <- extract_info self
           (dict_get_default "playlist_link" PNone (sync_config self)) ;;
    let self := fst r in
    match snd r with
    | None => raise AttributeError
    | Some meta =>
        if negb (py_is (m_type meta) "playlist")
           && negb (py_is (m_extractor_key meta) "YoutubePlaylist")
        then raise NotYoutubePlaylist
        else reconcile meta self
    end.

(** The fetch [sync] runs: the options carry the path of the download
    records, the link is the configured one. *)
Definition sync_opts (self : YoutubeSync) : dict pyval :=
  dict_set "download_archive" (PStr (archive_file self)) (ytdl_opts self).

Definition sync_link (self : YoutubeSync) : pyval :=
  dict_get_default "playlist_link" PNone (sync_config self).

Definition fetch (self : YoutubeSync) (w : world) : fetch_result :=
  fetcher (sync_opts self) (sync_link self) w.

(** The script body: [--init LINK] and [--sync], in that order, on a
    fresh object. *)
Definition main (playlist_link : option string) (do_sync : bool) : M unit :=
  ytsc <- YoutubeSync_new ;;
  ytsc <- match playlist_link with
          | Some l => init l ytsc
          | None => ret ytsc
          end ;;
  (if do_sync then sync ytsc else ret ytsc) ;;;
  ret tt.

End Sync.

(* ================================================================== *)
(** ** Collaborators for concrete runs

    A formatter for the named conversions [%(key)s], a matcher for the
    wildcard [*], and a fetcher that follows the download records: an
    entry whose id is recorded is reported on the logger and skipped, and
    is left out of the entries of the info dictionary; any other entry is
    downloaded, recorded and listed in the info dictionary.  The
    dictionary carries the literal ['playlist'] under [_type] and a
    string computed from the extractor's name under [extractor_key]. *)

Fixpoint read_name (s : string) : option (string * string) :=
  match s with
  | EmptyString => None
  | String c r =>
      if Ascii.eqb c ")" then Some (EmptyString, r)
      else match read_name r with
           | Some (n, rest) => Some (String c n, rest)
           | None => None
           end
  end.

Fixpoint percent_format_fuel (fuel : nat) (lookup : string -> option string)
    (t : string) : format_result :=
  match fuel with
  | 0 => FormatValueError
  | S fuel' =>
      match t with
      | EmptyString => Formatted EmptyString
      | String "%" (String "(" r) =>
          match read_name r with
          | Some (name, String "s" rest) =>
              match lookup name with
              | Some v =>
                  match percent_format_fuel fuel' lookup rest with
                  | Formatted x => Formatted (v ++ x)
                  | e => e
                  end
              | None => FormatKeyError
              end
          | _ => FormatValueError
          end
      | String "%" (String "%" r) =>
          match percent_format_fuel fuel' lookup r with
          | Formatted x => Formatted (String "%" x)
          | e => e
          end
      | String "%" _ => FormatTypeError
      | String c r =>
          match percent_format_fuel fuel' lookup r with
          | Formatted x => Formatted (String c x)
          | e => e
          end
      end
  end.

Definition percent_format (t playlist_title title ext : string)
  : format_result :=
  percent_format_fuel (S (String.length t))
    (fun name =>
       if String.eqb name "playlist_title" then Some playlist_title
       else if String.eqb name "title" then Some title
       else if String.eqb name "ext" then Some ext
       else None) t.

Fixpoint wild_match (p s : string) : bool :=
  match p with
  | EmptyString => match s with EmptyString => true | _ => false end
  | String c p' =>
      if Ascii.eqb c "*" then
        (fix star (s : string) : bool :=
           wild_match p' s
           || match s with
              | EmptyString => false
              | String d s' => if Ascii.eqb d "/" then false else star s'
              end) s
      else match s with
           | EmptyString => false
           | String d s' => Ascii.eqb c d && wild_match p' s'
           end
  end.

Record playlist := mkPlaylist {
  pl_title : string;
  pl_entries : list entry
}.

Definition recorded (id : string) (text : option string) : bool :=
  match text with
  | None => false
  | Some t =>
      existsb (fun line =>
                 match split line with
                 | [e; i] => String.eqb e "youtube" && String.eqb i id
                 | _ => false
                 end) (readlines t)
  end.

Definition record_line (id : string) : string :=
  "youtube " ++ id ++ str1 nl.

Definition media_path (opts : dict pyval) (pl title : string) : string :=
  match dict_get "outtmpl" opts with
  | Some (PStr t) =>
      match percent_format t pl title "m4a" with
      | Formatted p => p
      | _ => title
      end
  | _ => title
  end.

(** The info dictionary with one more processed entry. *)
Definition with_entry (e : entry) (m : option meta) : option meta :=
  match m with
  | Some m =>
      Some (mkMeta (m_type m) (m_extractor_key m)
              (Some (match m_entries m with
                     | Some es => app es [Some e]
                     | None => [Some e]
                     end))
              (m_title m))
  | None => None
  end.

Fixpoint fetch_entries (opts : dict pyval) (pl : string) (es : list entry)
    (fr : fetch_result) : fetch_result :=
  match es with
  | [] => fr
  | e :: es' =>
      if recorded (e_id e) (fr_archive_file fr) then
        fetch_entries opts pl es'
          (mkFetch
             (app (fr_log fr)
                  [LDebug ("[download] " ++ e_title e ++ recorded_suffix)])
             (fr_archive_file fr) (fr_media fr) (fr_meta fr))
      else
        let p := media_path opts pl (e_title e) in
        fetch_entries opts pl es'
          (mkFetch
             (app (fr_log fr) [LDebug ("[download] Destination: " ++ p)])
             (Some (match fr_archive_file fr with
                    | Some t => t ++ record_line (e_id e)
                    | None => record_line (e_id e)
                    end))
             (if mem p (fr_media fr) then fr_media fr
              else app (fr_media fr) [p])
             (with_entry e (fr_meta fr)))
  end.

Definition playlist_fetcher (remote : playlist)
    (opts : dict pyval) (link : pyval) (w : world) : fetch_result :=
  fetch_entries opts (pl_title remote) (pl_entries remote)
    (mkFetch [] (w_archive_file w) (w_media w)
       (Some (mkMeta (Some (literal "playlist"))
                (Some (computed "YoutubePlaylist"))
                (Some [])
                (Some (pl_title remote))))).


(** One run of the script against [remote]. *)
Definition run (remote : playlist) (playlist_link : option string)
    (do_sync : bool) : M unit :=
  main (playlist_fetcher remote) percent_format wild_match
       playlist_link do_sync.

(** A synchronised folder holding two songs. *)
Definition two_songs : world :=
  mkWorld "/music" true
    (Some [("playlist_link", PStr "https://yt/playlist?list=PL1")])
    (Some ytdl_default_opts)
    (Some (json_dumps false [("Song A", "id1"); ("Song B", "id2")]))
    (Some (record_line "id1" ++ record_line "id2"))
    ["./Mix/Song A.m4a"; "./Mix/Song B.m4a"].

(** A folder in which the tool never ran. *)
Definition empty_folder : world :=
  mkWorld "/music" false None None None None [].

(** The remote playlist once "Song B" left it. *)
Definition mix_A : playlist :=
  mkPlaylist "Mix" [mkEntry "Song A" "id1"].

(** The object [YoutubeSync()] builds in [two_songs]. *)
Definition two_songs_object : YoutubeSync :=
  mkYoutubeSync true "/music/.sync/archive.txt"
    [("playlist_link", PStr "https://yt/playlist?list=PL1")]
    ytdl_default_opts
    [("Song A", "id1"); ("Song B", "id2")]
    [("Song A", "id1"); ("Song B", "id2")]
    (PBool false).

(** [two_songs] with a blank line in the download records. *)
Definition blank_line_records : world :=
  set_archive_file
    (Some (record_line "id1" ++ str1 nl ++ record_line "id2")) two_songs.

(** [two_songs] with download records whose lines end with CR LF. *)
Definition crlf_records : world :=
  set_archive_file
    (Some ("youtube id1" ++ String cr (str1 nl)
           ++ "youtube id2" ++ String cr (str1 nl))) two_songs.

(** The exceptions [reconcile] can end with. *)
Definition update_exn (e : exn) : Prop :=
  e = KeyError \/ e = TypeError \/ e = ValueError \/ e = IndexError
  \/ e = FileNotFoundError.

(** [two_songs] when the record of "Song B" is missing. *)
Definition missing_record : world :=
  set_archive_file (Some (record_line "id1")) two_songs.

(** The remote playlist with a second video titled "Song A". *)
Definition mix_dup : playlist :=
  mkPlaylist "Mix"
    [mkEntry "Song A" "id1"; mkEntry "Song B" "id2"; mkEntry "Song A" "id9"].


(** The remote playlist with both songs. *)
Definition mix_AB : playlist :=
  mkPlaylist "Mix" [mkEntry "Song A" "id1"; mkEntry "Song B" "id2"].


(** A folder synchronised when the playlist held one video, "Song". *)
Definition old_song : world :=
  mkWorld "/music" true
    (Some [("playlist_link", PStr "https://yt/playlist?list=PL1")])
    (Some ytdl_default_opts)
    (Some (json_dumps false [("Song", "id0")]))
    (Some (record_line "id0"))
    ["./Mix/Song.m4a"].

Definition old_song_object : YoutubeSync :=
  mkYoutubeSync true "/music/.sync/archive.txt"
    [("playlist_link", PStr "https://yt/playlist?list=PL1")]
    ytdl_default_opts [("Song", "id0")] [("Song", "id0")] (PBool false).


(** That video is gone; a new one carries its title. *)
Definition mix_new : playlist :=
  mkPlaylist "Mix" [mkEntry "Song" "id3"].

(** [sync] and its fetch against [remote]. *)
Definition sync_run (remote : playlist) (self : YoutubeSync)
  : M YoutubeSync :=
  sync (playlist_fetcher remote) percent_format wild_match self.

Definition fetch_run (remote : playlist) (self : YoutubeSync) (w : world)
  : fetch_result :=
  fetch (playlist_fetcher remote) self w.

(** The ledger a folder holds, as [YoutubeSync.__init__] loads it. *)
Definition ledger (w : world) : res (dict string) :=
  load_json json_load_ledger (w_sync_file w) [].

(** A folder synchronised when the video [id1] was titled "Old title". *)
Definition old_title : world :=
  mkWorld "/music" true
    (Some [("playlist_link", PStr "https://yt/playlist?list=PL1")])
    (Some ytdl_default_opts)
    (Some (json_dumps false [("Old title", "id1")]))
    (Some (record_line "id1"))
    ["./Mix/Old title.m4a"].

Definition old_title_object : YoutubeSync :=
  mkYoutubeSync true "/music/.sync/archive.txt"
    [("playlist_link", PStr "https://yt/playlist?list=PL1")]
    ytdl_default_opts [("Old title", "id1")] [("Old title", "id1")]
    (PBool false).

(** The playlist holds that video under its new title. *)
Definition mix_renamed : playlist :=
  mkPlaylist "Mix" [mkEntry "New title" "id1"].

(** A synchronised folder without any song. *)
Definition no_songs : world :=
  mkWorld "/music" true
    (Some [("playlist_link", PStr "https://yt/playlist?list=PL1")])
    (Some ytdl_default_opts)
    (Some (json_dumps false []))
    (Some EmptyString)
    [].

(** A playlist of one video whose title spans two lines, and [no_songs]
    after one run against it. *)
Definition two_lines : string := "Two" ++ str1 nl ++ "lines".

Definition mix_two_lines : playlist :=
  mkPlaylist "Mix" [mkEntry two_lines "id1"].

Definition two_lines_song : world :=
  mkWorld "/music" true
    (Some [("playlist_link", PStr "https://yt/playlist?list=PL1")])
    (Some ytdl_default_opts)
    (Some (json_dumps false [(two_lines, "id1")]))
    (Some (record_line "id1"))
    ["./Mix/" ++ two_lines ++ ".m4a"].

Definition two_lines_object : YoutubeSync :=
  mkYoutubeSync true "/music/.sync/archive.txt"
    [("playlist_link", PStr "https://yt/playlist?list=PL1")]
    ytdl_default_opts [(two_lines, "id1")] [(two_lines, "id1")] (PBool false).

(** [old_song] after one run against [mix_new]. *)
Definition new_song : world :=
  mkWorld "/music" true
    (Some [("playlist_link", PStr "https://yt/playlist?list=PL1")])
    (Some ytdl_default_opts)
    (Some (json_dumps false []))
    (Some (record_line "id3"))
    [].

Definition new_song_object : YoutubeSync :=
  mkYoutubeSync true "/music/.sync/archive.txt"
    [("playlist_link", PStr "https://yt/playlist?list=PL1")]
    ytdl_default_opts [] [] (PBool false).

(** [all(p(c) for c in s)] *)
Fixpoint str_forall (p : ascii -> bool) (s : string) : bool :=
  match s with
  | EmptyString => true
  | String c s' => p c && str_forall p s'
  end.

(** The characters [json.dump] leaves as they are or escapes into. *)
Definition printable (c : ascii) : bool :=
  Nat.leb 32 (nat_of_ascii c) && Nat.leb (nat_of_ascii c) 126.

Definition not_space (c : ascii) : bool := negb (py_isspace c).

(* ================================================================== *)
(** * Properties *)

(** ** Strings *)

Lemma append_assoc (a b c : string) : (a ++ b) ++ c = a ++ (b ++ c).
Proof. induction a as [|x a IH]; simpl; [reflexivity | now rewrite IH]. Qed.

Lemma append_nil_r (a : string) : a ++ "" = a.
Proof. induction a as [|x a IH]; simpl; [reflexivity | now rewrite IH]. Qed.

Lemma length_append (a b : string) :
  String.length (a ++ b) = String.length a + String.length b.
Proof. induction a as [|x a IH]; simpl; [reflexivity | now rewrite IH]. Qed.

(** ** The JSON codec *)

Lemma hex_val_digit (d : N) : (d < 16)%N -> hex_val (hex_digit d) = Some d.
Proof.
  intros H.
  assert (Hc : (d = 0 \/ d = 1 \/ d = 2 \/ d = 3 \/ d = 4 \/ d = 5 \/ d = 6
               \/ d = 7 \/ d = 8 \/ d = 9 \/ d = 10 \/ d = 11 \/ d = 12
               \/ d = 13 \/ d = 14 \/ d = 15)%N) by lia.
  repeat (destruct Hc as [->|Hc]; [reflexivity|]). subst. reflexivity.
Qed.

Lemma hex4_digits (n : N) :
  (n < 65536)%N ->
  hex4 (hex_digit (n / 4096)) (hex_digit ((n / 256) mod 16))
       (hex_digit ((n / 16) mod 16)) (hex_digit (n mod 16)) = Some n.
Proof.
  intros H. unfold hex4.
  rewrite !hex_val_digit.
  - f_equal.
    pose proof (N.div_mod n 16 ltac:(lia)).
    pose proof (N.div_mod (n / 16) 16 ltac:(lia)).
    pose proof (N.div_mod (n / 256) 16 ltac:(lia)).
    assert ((n / 16 / 16 = n / 256)%N) by (rewrite N.Div0.div_div; reflexivity).
    assert ((n / 256 / 16 = n / 4096)%N) by (rewrite N.Div0.div_div; reflexivity).
    lia.
  - apply N.mod_lt; lia.
  - apply N.mod_lt; lia.
  - apply N.mod_lt; lia.
  - apply N.Div0.div_lt_upper_bound; lia.
Qed.

Lemma lor_shiftl_add (a y k : N) :
  (y < 2 ^ k)%N -> N.lor (N.shiftl a k) y = (N.shiftl a k + y)%N.
Proof.
  intros Hy.
  assert (H0 : N.land (N.shiftl a k) y = 0%N).
  { apply N.bits_inj. intros n. rewrite N.land_spec, N.bits_0.
    destruct (N.lt_ge_cases n k) as [Hn|Hn].
    - now rewrite N.shiftl_spec_low.
    - rewrite <- (N.mod_small y (2 ^ k)) by assumption.
      rewrite N.mod_pow2_bits_high by assumption. apply andb_false_r. }
  rewrite <- N.lxor_lor by assumption.
  symmetry. now apply N.add_nocarry_lxor.
Qed.

Lemma high_half (v : N) :
  (v < 1048576)%N ->
  N.lor 55296 (N.land (N.shiftr v 10) 1023) = (55296 + v / 1024)%N.
Proof.
  intros Hv.
  change 1023%N with (N.ones 10). rewrite N.land_ones, N.shiftr_div_pow2.
  change (2 ^ 10)%N with 1024%N.
  assert (Hq : (v / 1024 < 1024)%N) by (apply N.Div0.div_lt_upper_bound; lia).
  rewrite N.mod_small by assumption.
  change 55296%N with (N.shiftl 54 10).
  rewrite lor_shiftl_add; [reflexivity | exact Hq].
Qed.

Lemma low_half (v : N) :
  N.lor 56320 (N.land v 1023) = (56320 + v mod 1024)%N.
Proof.
  change 1023%N with (N.ones 10). rewrite N.land_ones.
  change (2 ^ 10)%N with 1024%N.
  change 56320%N with (N.shiftl 55 10).
  rewrite lor_shiftl_add; [reflexivity | apply N.mod_lt; lia].
Qed.

Lemma join_halves (v : N) :
  (v < 1048576)%N ->
  join_surrogates (55296 + v / 1024) (56320 + v mod 1024) = (65536 + v)%N.
Proof.
  intros Hv. unfold join_surrogates.
  rewrite (N.add_comm 55296), (N.add_comm 56320), !N.add_sub.
  rewrite lor_shiftl_add by (apply N.mod_lt; lia).
  rewrite N.shiftl_mul_pow2. change (2 ^ 10)%N with 1024%N.
  pose proof (N.div_mod v 1024 ltac:(lia)). lia.
Qed.

Lemma scanstring_u_escape (n : N) (t : string) :
  (n < 65536)%N ->
  (is_high_surrogate n = true -> low_escape_ahead t = false) ->
  scanstring (u_escape n ++ t) = cons_code n (scanstring t).
Proof.
  intros Hn Hahead. unfold u_escape, str1.
  cbn [append scanstring].
  change (Ascii.eqb backslash dquote) with false.
  change (Ascii.eqb backslash backslash) with true.
  change (Ascii.eqb "u" "u") with true. cbv iota.
  rewrite hex4_digits by assumption.
  destruct (is_high_surrogate n); [|reflexivity].
  specialize (Hahead eq_refl).
  destruct t as [|b1 [|b2 [|g1 [|g2 [|g3 [|g4 t]]]]]]; try reflexivity.
  cbn [low_escape_ahead] in Hahead.
  destruct (Ascii.eqb b1 backslash); [|reflexivity].
  destruct (Ascii.eqb b2 "u"); [|reflexivity].
  cbn [andb].
  destruct (hex4 g1 g2 g3 g4) as [uni2|]; [|discriminate].
  now rewrite Hahead.
Qed.

Lemma scanstring_escape_low (c : ascii) (t : string) :
  scanstring (escape_char (N_of_ascii c) ++ t)
  = cons_code (N_of_ascii c) (scanstring t).
Proof. destruct c as [[] [] [] [] [] [] [] []]; reflexivity. Qed.

Lemma low_escape_ahead_low (c : ascii) (t : string) :
  low_escape_ahead (escape_char (N_of_ascii c) ++ t) = false.
Proof. destruct c as [[] [] [] [] [] [] [] []]; reflexivity. Qed.

Lemma escape_char_plane (n : N) :
  (256 <= n < 65536)%N -> escape_char n = u_escape n.
Proof.
  intros H. unfold escape_char.
  repeat match goal with
         | |- context [N.eqb n ?k] =>
             destruct (N.eqb_spec n k); [lia|]
         end.
  destruct (N.leb_spec 32 n); destruct (N.leb_spec n 126); try lia.
  cbn [andb]. destruct (N.ltb_spec n 65536); [reflexivity | lia].
Qed.

Lemma escape_char_pair (n : N) :
  (65536 <= n < 1114112)%N ->
  escape_char n
  = u_escape (55296 + (n - 65536) / 1024) ++ u_escape (56320 + (n - 65536) mod 1024).
Proof.
  intros H. unfold escape_char.
  repeat match goal with
         | |- context [N.eqb n ?k] =>
             destruct (N.eqb_spec n k); [lia|]
         end.
  destruct (N.leb_spec 32 n); destruct (N.leb_spec n 126); try lia.
  cbn [andb]. destruct (N.ltb_spec n 65536); [lia|].
  cbv zeta. rewrite high_half by lia. now rewrite low_half.
Qed.

Lemma low_escape_ahead_u (m : N) (t : string) :
  (m < 65536)%N ->
  low_escape_ahead (u_escape m ++ t) = is_low_surrogate m.
Proof.
  intros Hm. unfold u_escape, str1. cbn [append low_escape_ahead].
  change (Ascii.eqb backslash backslash) with true.
  change (Ascii.eqb "u" "u") with true. cbv iota.
  now rewrite hex4_digits.
Qed.

Lemma scanstring_escape_char (n : N) (t : string) :
  valid_code n ->
  (is_high_surrogate n = true -> low_escape_ahead t = false) ->
  scanstring (escape_char n ++ t) = cons_code n (scanstring t).
Proof.
  unfold valid_code. intros Hn Hahead.
  destruct (N.lt_ge_cases n 256) as [H1|H1].
  - rewrite <- (N_ascii_embedding n H1). apply scanstring_escape_low.
  - destruct (N.lt_ge_cases n 65536) as [H2|H2].
    + rewrite escape_char_plane by lia. now apply scanstring_u_escape.
    + rewrite escape_char_pair by lia. rewrite append_assoc.
      set (v := (n - 65536)%N).
      assert (Hv : (v < 1048576)%N) by (subst v; lia).
      assert (Hq : (v / 1024 < 1024)%N)
        by (apply N.Div0.div_lt_upper_bound; lia).
      assert (Hr : (v mod 1024 < 1024)%N) by (apply N.mod_lt; lia).
      unfold u_escape at 1, str1. cbn [append scanstring].
      change (Ascii.eqb backslash dquote) with false.
      change (Ascii.eqb backslash backslash) with true.
      change (Ascii.eqb "u" "u") with true. cbv iota.
      rewrite hex4_digits by lia.
      set (q := (v / 1024)%N) in *. set (r := (v mod 1024)%N) in *.
      replace (is_high_surrogate (55296 + q)) with true
        by (unfold is_high_surrogate; symmetry; apply andb_true_iff;
            split; apply N.leb_le; lia).
      unfold u_escape, str1. cbn [append].
      change (Ascii.eqb backslash backslash) with true.
      change (Ascii.eqb "u" "u") with true. cbn [andb].
      rewrite hex4_digits by lia.
      replace (is_low_surrogate (56320 + r)) with true
        by (unfold is_low_surrogate; symmetry; apply andb_true_iff;
            split; apply N.leb_le; lia).
      subst q r. rewrite join_halves by assumption.
      replace (65536 + v)%N with n by (subst v; lia). reflexivity.
Qed.

Lemma low_escape_ahead_escape_char (m : N) (t : string) :
  valid_code m ->
  is_low_surrogate m = false ->
  low_escape_ahead (escape_char m ++ t) = false.
Proof.
  unfold valid_code. intros Hm Hlow.
  destruct (N.lt_ge_cases m 256) as [H1|H1].
  - rewrite <- (N_ascii_embedding m H1). apply low_escape_ahead_low.
  - destruct (N.lt_ge_cases m 65536) as [H2|H2].
    + rewrite escape_char_plane by lia. now rewrite low_escape_ahead_u.
    + rewrite escape_char_pair by lia. rewrite append_assoc.
      assert (Hq : ((m - 65536) / 1024 < 1024)%N)
        by (apply N.Div0.div_lt_upper_bound; lia).
      set (q := ((m - 65536) / 1024)%N) in *.
      rewrite low_escape_ahead_u by lia.
      unfold is_low_surrogate. apply andb_false_iff. left.
      apply N.leb_gt. lia.
Qed.

Lemma scanstring_escape (s : ustr) (rest : string) :
  well_formed s ->
  scanstring (escape s ++ String dquote rest) = Some (s, rest).
Proof.
  intros [Hv Hp]. induction s as [|n s IH]; [reflexivity|].
  cbn [escape]. rewrite append_assoc.
  inversion Hv as [|? ? Hn Hs]; subst.
  cbn [no_surrogate_pair] in Hp. apply andb_true_iff in Hp.
  destruct Hp as [Hp1 Hp2].
  rewrite scanstring_escape_char; [now rewrite IH | assumption |].
  intros Hhigh. destruct s as [|m s]; [reflexivity|].
  cbn [escape]. rewrite append_assoc.
  apply low_escape_ahead_escape_char.
  - now inversion Hs.
  - rewrite Hhigh in Hp1. cbn [andb] in Hp1. now apply negb_true_iff in Hp1.
Qed.

Lemma encode_str_app (s : ustr) (rest : string) :
  encode_str s ++ rest = String dquote (escape s ++ String dquote rest).
Proof. unfold encode_str, str1. simpl. now rewrite append_assoc. Qed.

Lemma parse_members_step (fuel : nat) (k v : ustr) (rest : string)
    (acc : udict) :
  well_formed k -> well_formed v ->
  parse_members (S fuel) (encode_str k ++ ": " ++ encode_str v ++ rest) acc =
  match skip_ws rest with
  | String "}" r5 =>
      match skip_ws r5 with
      | EmptyString => Some (udict_set k v acc)
      | _ => None
      end
  | String "," r5 => parse_members fuel (skip_ws r5) (udict_set k v acc)
  | _ => None
  end.
Proof.
  intros Hk Hv.
  rewrite encode_str_app.
  cbn [parse_members].
  replace (Ascii.eqb dquote dquote) with true by reflexivity.
  cbv iota. rewrite scanstring_escape by assumption.
  change (": " ++ encode_str v ++ rest)
    with (String ":" (String " " (encode_str v ++ rest))).
  rewrite encode_str_app.
  change (skip_ws (String ":" ?x)) with (String ":"%char x).
  cbv iota.
  change (skip_ws (String " " (String dquote ?x))) with (String dquote x).
  cbv iota.
  replace (Ascii.eqb dquote dquote) with true by reflexivity.
  cbv iota. rewrite scanstring_escape by assumption. reflexivity.
Qed.

Lemma encode_members_head (isep : string) (d : udict) (rest : string) :
  d <> [] ->
  exists t, encode_members isep d ++ rest = String dquote t.
Proof.
  destruct d as [|[k v] d]; [congruence|]. intros _.
  destruct d; cbn [encode_members]; rewrite !append_assoc, encode_str_app; eauto.
Qed.

Lemma parse_members_encode (pad pad2 : string) :
  pad_ok pad -> pad_ok pad2 ->
  forall (d : udict) (acc : udict) (fuel : nat),
    d <> [] -> List.length d <= fuel -> well_formed_dict d ->
    parse_members fuel (encode_members ("," ++ pad) d ++ pad2 ++ "}") acc =
    Some (fold_left set_pair d acc).
Proof.
  intros Hpad Hpad2.
  induction d as [|[k v] d IH]; intros acc fuel Hne Hfuel Hwf; [congruence|].
  destruct fuel as [|fuel]; [simpl in Hfuel; lia|].
  destruct (Hwf k v (or_introl eq_refl)) as [Hk Hv].
  destruct d as [|kv d].
  - cbn [encode_members]. rewrite !append_assoc, parse_members_step by assumption.
    rewrite Hpad2. reflexivity.
  - remember (kv :: d) as d' eqn:Hd'.
    assert (Hne' : d' <> []) by (subst; discriminate).
    replace (encode_members ("," ++ pad) ((k, v) :: d'))
      with (encode_str k ++ ": " ++ encode_str v ++ ("," ++ pad)
            ++ encode_members ("," ++ pad) d') by (subst; reflexivity).
    rewrite !append_assoc, parse_members_step by assumption.
    change (skip_ws ("," ++ ?x)) with (String ","%char x).
    cbv iota. rewrite Hpad.
    destruct (encode_members_head ("," ++ pad) d' (pad2 ++ "}") Hne') as [t Ht].
    rewrite Ht. change (skip_ws (String dquote t)) with (String dquote t).
    rewrite <- Ht. cbn [fold_left].
    apply IH; [assumption | simpl in Hfuel; lia |].
    intros k0 v0 Hin. apply Hwf. now right.
Qed.

Lemma ustr_eqb_spec (a b : ustr) : reflect (a = b) (ustr_eqb a b).
Proof.
  revert b. induction a as [|x a IH]; intros [|y b]; cbn [ustr_eqb];
    try (constructor; congruence).
  destruct (N.eqb_spec x y) as [->|Hxy]; cbn [andb].
  - destruct (IH b) as [->|Hab]; constructor; congruence.
  - constructor. congruence.
Qed.

Lemma udict_set_fresh (k v : ustr) (d : udict) :
  ~ In k (ukeys d) -> udict_set k v d = (d ++ [(k, v)])%list.
Proof.
  induction d as [|[k' v'] d IH]; intros Hk; [reflexivity|].
  cbn [udict_set]. destruct (ustr_eqb_spec k' k) as [->|Hne].
  - exfalso. apply Hk. now left.
  - cbn [app]. rewrite IH; [reflexivity|]. intros Hin. apply Hk. now right.
Qed.

Lemma dict_set_fresh {V} (k : string) (v : V) (d : dict V) :
  ~ In k (keys d) -> dict_set k v d = (d ++ [(k, v)])%list.
Proof.
  induction d as [|[k' v'] d IH]; intros Hk; [reflexivity|].
  cbn [dict_set]. destruct (String.eqb_spec k' k) as [->|Hne].
  - exfalso. apply Hk. now left.
  - cbn [app]. rewrite IH; [reflexivity|]. intros Hin. apply Hk. now right.
Qed.

Lemma fold_set_pair_nodup (d acc : udict) :
  NoDup (ukeys (acc ++ d)%list) -> fold_left set_pair d acc = (acc ++ d)%list.
Proof.
  revert acc. induction d as [|[k v] d IH]; intros acc Hnd.
  - cbn. now rewrite app_nil_r.
  - cbn [fold_left]. unfold set_pair at 2. cbn [fst snd].
    assert (Hk : ~ In k (ukeys acc)).
    { unfold ukeys in *. rewrite map_app in Hnd. cbn in Hnd.
      apply NoDup_remove_2 in Hnd. intros Hin. apply Hnd.
      apply in_or_app. now left. }
    rewrite udict_set_fresh by assumption.
    rewrite IH; rewrite <- app_assoc; [reflexivity | exact Hnd].
Qed.

Lemma length_encode_members (isep : string) (d : udict) :
  List.length d <= String.length (encode_members isep d).
Proof.
  induction d as [|[k v] d IH]; [simpl; lia|].
  destruct d as [|kv d].
  - cbn [encode_members]. unfold encode_str. simpl. lia.
  - replace (encode_members isep ((k, v) :: kv :: d))
      with (encode_str k ++ ": " ++ encode_str v ++ isep
            ++ encode_members isep (kv :: d)) by reflexivity.
    rewrite !length_append. unfold encode_str at 1. cbn [String.length List.length] in *. lia.
Qed.

Lemma pad_ok_nil : pad_ok "".
Proof. intros s. reflexivity. Qed.
Lemma pad_ok_space : pad_ok " ".
Proof. intros s. reflexivity. Qed.
Lemma pad_ok_indent4 : pad_ok indent4.
Proof. intros s. reflexivity. Qed.
Lemma pad_ok_nl : pad_ok (str1 nl).
Proof. intros s. reflexivity. Qed.

(** [json.loads] undoes [json.dumps] on a dictionary of well-formed
    strings. *)
Theorem py_loads_dumps (pretty : bool) (d : udict) :
  NoDup (ukeys d) -> well_formed_dict d ->
  py_loads (py_dumps pretty d) = Some d.
Proof.
  intros Hnd Hwf. destruct d as [|kv d]; [destruct pretty; reflexivity|].
  remember (kv :: d) as d' eqn:Hd'.
  assert (Hne : d' <> []) by (subst; discriminate).
  assert (Hdump : exists pad0 pad pad2,
             pad_ok pad0 /\ pad_ok pad /\ pad_ok pad2 /\
             py_dumps pretty d' =
             String "{" (pad0 ++ encode_members ("," ++ pad) d' ++ pad2 ++ "}")).
  { subst d'. destruct pretty.
    - exists indent4, indent4, (str1 nl).
      repeat split; auto using pad_ok_indent4, pad_ok_nl.
    - exists "", " ", "".
      repeat split; auto using pad_ok_nil, pad_ok_space. }
  destruct Hdump as (pad0 & pad & pad2 & H0 & H1 & H2 & ->).
  unfold py_loads.
  change (skip_ws (String "{" ?x)) with (String "{"%char x). cbv iota.
  rewrite H0.
  destruct (encode_members_head ("," ++ pad) d' (pad2 ++ "}") Hne) as [t Ht].
  rewrite Ht. change (skip_ws (String dquote t)) with (String dquote t).
  unfold dquote. cbv iota. fold dquote. rewrite <- Ht.
  rewrite (parse_members_encode pad pad2 H1 H2 d' []); auto.
  - now rewrite fold_set_pair_nodup.
  - cbn [String.length]. rewrite !length_append.
    pose proof (length_encode_members ("," ++ pad) d'). lia.
Qed.

(** *** The strings of the folder model *)

Lemma of_code_points_code_points (s : string) :
  of_code_points (code_points s) = Some s.
Proof.
  induction s as [|c s IH]; [reflexivity|].
  cbn [code_points of_code_points]. rewrite IH, ascii_N_embedding.
  pose proof (N_ascii_bounded c) as Hc.
  apply N.ltb_lt in Hc. now rewrite Hc.
Qed.

Lemma of_code_points_inv (u : ustr) (s : string) :
  of_code_points u = Some s -> u = code_points s.
Proof.
  revert s. induction u as [|n u IH]; intros s H; cbn [of_code_points] in H.
  - now injection H as <-.
  - destruct (N.ltb_spec n 256) as [Hn|]; [|discriminate].
    destruct (of_code_points u) as [s'|]; [|discriminate].
    injection H as <-. cbn [code_points].
    now rewrite N_ascii_embedding, (IH s' eq_refl).
Qed.

Lemma code_points_inj (a b : string) : code_points a = code_points b -> a = b.
Proof.
  intros H. apply (f_equal of_code_points) in H.
  rewrite !of_code_points_code_points in H. congruence.
Qed.

Lemma code_points_below (s : string) :
  Forall (fun n => (n < 256)%N) (code_points s).
Proof.
  induction s as [|c s IH]; constructor; [apply N_ascii_bounded | assumption].
Qed.

Lemma code_points_well_formed (s : string) : well_formed (code_points s).
Proof.
  split.
  - eapply Forall_impl; [|apply code_points_below].
    unfold valid_code. intros n Hn. lia.
  - induction s as [|c s IH]; [reflexivity|].
    cbn [code_points no_surrogate_pair]. rewrite IH, andb_true_r.
    destruct (code_points s); [reflexivity|].
    pose proof (N_ascii_bounded c) as Hc.
    unfold is_high_surrogate.
    destruct (N.leb_spec 55296 (N_of_ascii c)); [lia | reflexivity].
Qed.

Lemma ukeys_code_points_dict (d : dict string) :
  ukeys (code_points_dict d) = map code_points (keys d).
Proof. unfold ukeys, keys, code_points_dict. now rewrite !map_map. Qed.

Lemma of_code_points_dict_code_points (d : dict string) :
  of_code_points_dict (code_points_dict d) = Some d.
Proof.
  induction d as [|[k v] d IH]; [reflexivity|].
  cbn [code_points_dict map of_code_points_dict fst snd].
  fold (code_points_dict d). now rewrite !of_code_points_code_points, IH.
Qed.

Lemma of_code_points_dict_inv (u : udict) (d : dict string) :
  of_code_points_dict u = Some d -> u = code_points_dict d.
Proof.
  revert d. induction u as [|[k v] u IH]; intros d H;
    cbn [of_code_points_dict] in H.
  - now injection H as <-.
  - destruct (of_code_points k) as [k'|] eqn:Hk; [|discriminate].
    destruct (of_code_points v) as [v'|] eqn:Hv; [|discriminate].
    destruct (of_code_points_dict u) as [r|]; [|discriminate].
    injection H as <-. cbn [code_points_dict map fst snd].
    fold (code_points_dict r).
    now rewrite (of_code_points_inv _ _ Hk), (of_code_points_inv _ _ Hv),
      (IH r eq_refl).
Qed.

Lemma well_formed_code_points_dict (d : dict string) :
  well_formed_dict (code_points_dict d).
Proof.
  intros k v Hin. unfold code_points_dict in Hin. apply in_map_iff in Hin.
  destruct Hin as ([k' v'] & [= <- <-] & _).
  split; apply code_points_well_formed.
Qed.

Lemma nodup_map_code_points (l : list string) :
  NoDup l -> NoDup (map code_points l).
Proof.
  induction 1 as [|x l Hx Hl IH]; cbn [map]; constructor; [|assumption].
  intros Hin. apply in_map_iff in Hin. destruct Hin as (y & Hy & Hin).
  apply code_points_inj in Hy. now subst.
Qed.

Theorem json_loads_dumps (pretty : bool) (d : dict string) :
  NoDup (keys d) -> json_loads (json_dumps pretty d) = Some d.
Proof.
  intros Hnd. unfold json_loads, json_dumps.
  rewrite py_loads_dumps.
  - apply of_code_points_dict_code_points.
  - rewrite ukeys_code_points_dict.
    now apply nodup_map_code_points.
  - apply well_formed_code_points_dict.
Qed.

(* ================================================================== *)
(** ** Dictionaries *)

Lemma dict_get_set_same {V} (k : string) (v : V) (d : dict V) :
  dict_get k (dict_set k v d) = Some v.
Proof.
  induction d as [|[k' v'] d IH]; cbn [dict_set dict_get].
  - now rewrite String.eqb_refl.
  - destruct (String.eqb k' k) eqn:E; cbn [dict_get]; rewrite E; auto.
Qed.

Lemma dict_get_set_other {V} (k k0 : string) (v : V) (d : dict V) :
  k0 <> k -> dict_get k0 (dict_set k v d) = dict_get k0 d.
Proof.
  intros Hne. induction d as [|[k' v'] d IH]; cbn [dict_set dict_get].
  - destruct (String.eqb_spec k k0); [congruence | reflexivity].
  - destruct (String.eqb_spec k' k) as [->|Hk]; cbn [dict_get].
    + destruct (String.eqb_spec k k0); [congruence | reflexivity].
    + now rewrite IH.
Qed.

Ltac nodup_strings :=
  repeat (constructor; [cbn; intuition discriminate|]); constructor.

(* ================================================================== *)
(** ** The ledger file *)

(** C8, as the code has it: persisting a title -> id mapping with
    [write_json] and loading the file back with [load_json] yields the
    mapping that was persisted, for either setting of [pretty] and
    whatever the default value, when no title and no id holds a high
    surrogate followed at once by a low surrogate.  The strings are
    Python strings, with any code points. *)
Theorem ledger_persist_load_round_trip
    (d default_val : udict) (pretty : bool) (w : world) :
  NoDup (ukeys d) ->
  well_formed_dict d ->
  load_json json_load
    (w_sync_file (set_sync_file (write_json py_dumps d pretty) w))
    default_val = Ok d.
Proof.
  intros Hnd Hwf. unfold write_json, load_json, json_load.
  destruct pretty; cbn [set_sync_file w_sync_file];
    now rewrite py_loads_dumps.
Qed.

(** C8, as stated, fails: the title is the string of the two code points
    U+D83D and U+DE00, a high surrogate and a low surrogate.  [json.dump]
    writes one escape for each and [json.load] reads the two escapes as
    the single code point U+1F600: the mapping loaded has another key. *)
Lemma surrogate_halves_load_as_one_code_point :
  NoDup (ukeys [([55357; 56832]%N, [105; 100; 49]%N)]) /\
  write_json py_dumps [([55357; 56832]%N, [105; 100; 49]%N)] false
    = Some ("{" ++ str1 dquote ++ "\ud83d\ude00" ++ str1 dquote ++ ": "
            ++ str1 dquote ++ "id1" ++ str1 dquote ++ "}") /\
  load_json json_load
    (w_sync_file
       (set_sync_file
          (write_json py_dumps [([55357; 56832]%N, [105; 100; 49]%N)] false)
          empty_folder))
    [] = Ok [([128512]%N, [105; 100; 49]%N)] /\
  [([128512]%N, [105; 100; 49]%N)] <> [([55357; 56832]%N, [105; 100; 49]%N)].
Proof.
  split; [repeat constructor; intros []|].
  split; [reflexivity|].
  split; [vm_compute; reflexivity | discriminate].
Qed.

(** Titles with an accented letter, a currency sign, a code point
    written as a surrogate pair, and a lone surrogate. *)
Lemma ledger_persist_load_round_trip_witness :
  load_json json_load
    (w_sync_file
       (set_sync_file
          (write_json py_dumps
             [([83; 246; 8364; 128512]%N, [105; 100; 49]%N);
              ([55357]%N, [105; 100; 50]%N)] false)
          empty_folder))
    [] = Ok [([83; 246; 8364; 128512]%N, [105; 100; 49]%N);
             ([55357]%N, [105; 100; 50]%N)].
Proof.
  apply (ledger_persist_load_round_trip
           [([83; 246; 8364; 128512]%N, [105; 100; 49]%N);
            ([55357]%N, [105; 100; 50]%N)] [] false empty_folder).
  - repeat (constructor; [cbn; intuition discriminate|]); constructor.
  - intros k v [[= <- <-]|[[= <- <-]|[]]];
      (split; (split; [repeat constructor; unfold valid_code; lia
                      | reflexivity])).
Defined.

(* ================================================================== *)
(** ** [sync]: the two guards *)

Section Guards.

Variable fetcher : dict pyval -> pyval -> world -> fetch_result.
Variable str_format : string -> string -> string -> string -> format_result.
Variable fnmatch : string -> string -> bool.

(** C4, as the code has it: without the configuration folder [sync]
    prints two lines and returns normally; nothing is raised, the fetcher
    is not run and the folder is left as it was. *)
Theorem sync_invalid_dir_prints_and_returns (self : YoutubeSync) (w : world) :
  valid_dir self = false ->
  sync fetcher str_format fnmatch self w =
  (Ok self, w,
   ["Cannot sync to an invalid dir"; "Try running 'youtube-sync --init'"]).
Proof. intros H. unfold sync. rewrite H. reflexivity. Qed.


End Guards.

(** C4, as stated, fails: run with [--sync] in a folder without [.sync],
    the script ends normally; no exception is raised. *)
Lemma sync_without_folder_returns_normally :
  w_config_dir empty_folder = false /\
  result (run mix_A None true empty_folder) = Ok tt /\
  forall e, result (run mix_A None true empty_folder) <> Raise e.
Proof.
  split; [reflexivity|]. split; [reflexivity|].
  intros e. vm_compute. discriminate.
Qed.

Lemma sync_invalid_dir_prints_and_returns_witness :
  exists self,
    result (YoutubeSync_new empty_folder) = Ok self /\
    sync (playlist_fetcher mix_A) percent_format wild_match self empty_folder =
    (Ok self, empty_folder,
     ["Cannot sync to an invalid dir"; "Try running 'youtube-sync --init'"]).
Proof.
  eexists. split; [reflexivity|].
  apply (sync_invalid_dir_prints_and_returns
           (playlist_fetcher mix_A) percent_format wild_match).
  reflexivity.
Defined.


(* ================================================================== *)
(** ** [init] *)

(** C3, as the code has it: on a folder that holds both configuration
    files, [init] sets [playlist_link] in the configuration held by the
    running object only; it prints nothing and leaves the folder, the two
    files and everything else as they were. *)
Theorem init_on_initialized_folder
    (playlist_link : string) (self : YoutubeSync) (w : world) :
  valid_dir self = true ->
  w_config_file w <> None ->
  w_ytdl_opts_file w <> None ->
  exists self',
    init playlist_link self w = (Ok self', w, []) /\
    dict_get "playlist_link" (sync_config self') = Some (PStr playlist_link).
Proof.
  intros Hdir Hc Ho.
  exists (set_sync_config
            (dict_set "playlist_link" (PStr playlist_link) (sync_config self))
            self).
  split.
  - unfold init, bind, get_world, ret. cbn [set_sync_config valid_dir].
    rewrite Hdir. cbn [negb].
    destruct (w_config_file w); [|congruence].
    destruct (w_ytdl_opts_file w); [|congruence].
    reflexivity.
  - cbn [set_sync_config sync_config]. apply dict_get_set_same.
Qed.

(** C3, as stated, fails: a second [--init] with another link ends
    normally and the stored configuration still holds the first link. *)
Lemma init_again_keeps_persisted_link :
  w_config_file two_songs =
    Some [("playlist_link", PStr "https://yt/playlist?list=PL1")] /\
  result (run mix_A (Some "https://yt/playlist?list=PL2") false two_songs)
    = Ok tt /\
  w_config_file
    (final (run mix_A (Some "https://yt/playlist?list=PL2") false two_songs))
    = Some [("playlist_link", PStr "https://yt/playlist?list=PL1")].
Proof. repeat split; vm_compute; reflexivity. Qed.

Lemma init_on_initialized_folder_witness :
  exists self',
    init "https://yt/playlist?list=PL2" two_songs_object two_songs
      = (Ok self', two_songs, []) /\
    dict_get "playlist_link" (sync_config self')
      = Some (PStr "https://yt/playlist?list=PL2").
Proof.
  apply (init_on_initialized_folder "https://yt/playlist?list=PL2"
           two_songs_object two_songs).
  - reflexivity.
  - discriminate.
  - discriminate.
Defined.

(* ================================================================== *)
(** ** The first loop of [_update_files] *)

Lemma scan_lines_ok (ids titles lines : list string) :
  forall (wr : string) (rm : list string),
    (forall l, In l lines -> line_id l <> None) ->
    scan_lines ids titles lines wr rm =
    mkScan true
      (wr ++ concat_lines (filter (kept ids) lines))
      (rm ++ map (dropped_title ids titles)
                 (filter (fun l => negb (kept ids l)) lines))%list.
Proof.
  induction lines as [|l lines IH]; intros wr rm Hall.
  - cbn. now rewrite append_nil_r, app_nil_r.
  - destruct (line_id l) as [i|] eqn:Hi;
      [|exfalso; apply (Hall l); [now left | assumption]].
    assert (Hk : kept ids l = negb (mem i ids)) by (unfold kept; now rewrite Hi).
    assert (Hd : dropped_title ids titles l = nth (index i ids) titles "")
      by (unfold dropped_title; now rewrite Hi).
    cbn [scan_lines filter]. rewrite Hi, Hk.
    destruct (mem i ids) eqn:Hm; cbn [negb map concat_lines];
      rewrite IH by (intros l' Hl'; apply Hall; now right).
    + f_equal. rewrite Hd, <- app_assoc. reflexivity.
    + f_equal. now rewrite append_assoc.
Qed.

Lemma scan_lines_short (ids titles lines : list string) :
  forall (wr : string) (rm : list string),
    (exists l, In l lines /\ line_id l = None) ->
    sc_ok (scan_lines ids titles lines wr rm) = false.
Proof.
  induction lines as [|l lines IH]; intros wr rm [l0 [Hin Hl0]].
  - destruct Hin.
  - cbn [scan_lines]. destruct (line_id l) as [i|] eqn:Hi; [|reflexivity].
    assert (Hrest : exists l1, In l1 lines /\ line_id l1 = None).
    { destruct Hin as [->|Hin]; [congruence | eauto]. }
    destruct (mem i ids); apply IH; assumption.
Qed.

Lemma scan_lines_ok_inv (ids titles lines : list string) :
  forall (wr : string) (rm : list string),
    sc_ok (scan_lines ids titles lines wr rm) = true ->
    forall l, In l lines -> line_id l <> None.
Proof.
  intros wr rm Hok l Hin Hnone.
  rewrite scan_lines_short in Hok; [discriminate | eauto].
Qed.

(* ================================================================== *)
(** ** The second loop of [_update_files] *)

Lemma set_media_same (w : world) : set_media (w_media w) w = w.
Proof. destruct w; reflexivity. Qed.

Lemma incl_remove_path (p : string) (fs : list string) :
  incl (remove_path p fs) fs.
Proof. intros f Hf. unfold remove_path in Hf. now apply filter_In in Hf. Qed.

Lemma not_in_remove_path (p : string) (fs : list string) :
  ~ In p (remove_path p fs).
Proof.
  unfold remove_path. intros Hf. apply filter_In in Hf.
  destruct Hf as [_ Hf]. now rewrite String.eqb_refl in Hf.
Qed.

Lemma bind_fst {A B} (m : M A) (f : A -> M B) (w : world) :
  fst (bind m f w) =
  match fst (m w) with
  | (Ok a, w1) => fst (f a w1)
  | (Raise e, w1) => (Raise e, w1)
  end.
Proof.
  unfold bind. destruct (m w) as [[[a|e] w1] o1]; cbn [fst]; [|reflexivity].
  destruct (f a w1) as [[r w2] o2]. reflexivity.
Qed.

Lemma run_logger_snd (q : pyval) (log : list log_event) :
  forall songs, snd (run_logger q log songs) = working_set log songs.
Proof.
  unfold working_set.
  induction log as [|ev log IH]; intros songs; [reflexivity|].
  destruct ev as [msg|msg|msg]; cbn [run_logger].
  - unfold debug. destruct (recorded_title msg) as [t|];
      specialize (IH (dict_pop t songs)) || specialize (IH songs);
      repeat match goal with
             | |- context [run_logger ?a ?b ?c] =>
                 destruct (run_logger a b c) as [? ?]
             end; cbn [snd] in *; exact IH.
  - specialize (IH songs).
    repeat match goal with
           | |- context [run_logger ?a ?b ?c] =>
               destruct (run_logger a b c) as [? ?]
           end; cbn [snd] in *; exact IH.
  - specialize (IH songs).
    repeat match goal with
           | |- context [run_logger ?a ?b ?c] =>
               destruct (run_logger a b c) as [? ?]
           end; cbn [snd] in *; exact IH.
Qed.

Lemma add_entries_raise (es : list (option entry)) :
  forall sa e, add_entries es sa = Raise e -> e = TypeError.
Proof.
  induction es as [|[en|] es IH]; intros sa e H; cbn in H.
  - discriminate.
  - eauto.
  - congruence.
Qed.

Section Reconciliation.

Variable fetcher : dict pyval -> pyval -> world -> fetch_result.
Variable str_format : string -> string -> string -> string -> format_result.
Variable fnmatch : string -> string -> bool.

Lemma remove_songs_cons (pt key : string) (rs : list string)
    (self : YoutubeSync) (w : world) :
  fst (remove_songs str_format fnmatch pt self (key :: rs) w) =
  match dict_get "outtmpl" (ytdl_opts self) with
  | Some (PStr t) =>
      match str_format t pt key "*" with
      | Formatted p =>
          match filter (fnmatch p) (w_media w) with
          | f :: _ =>
              if mem f (w_media w) then
                fst (remove_songs str_format fnmatch pt
                       (set_sync_archive (dict_pop key (sync_archive self)) self)
                       rs (set_media (remove_path f (w_media w)) w))
              else (Raise FileNotFoundError, w)
          | [] => (Raise IndexError, w)
          end
      | FormatKeyError => (Raise KeyError, w)
      | FormatTypeError => (Raise TypeError, w)
      | FormatValueError => (Raise ValueError, w)
      end
  | Some _ => (Raise TypeError, w)
  | None => (Raise KeyError, w)
  end.
Proof.
  cbn [remove_songs].
  unfold glob, os_remove.
  unfold bind, get_world, ret, raise, lift, put_world.
  cbn [set_sync_archive ytdl_opts].
  destruct (dict_get "outtmpl" (ytdl_opts self)) as [[| | |t]|];
    try reflexivity.
  destruct (str_format t pt key "*") as [p| | |]; try reflexivity.
  cbn [res_of_format].
  destruct (filter (fnmatch p) (w_media w)) as [|f fs]; try reflexivity.
  destruct (mem f (w_media w)); try reflexivity.
  match goal with
  | |- context [remove_songs ?a ?b ?c ?d ?e ?f] =>
      destruct (remove_songs a b c d e f) as [[r w'] o]
  end.
  reflexivity.
Qed.

Lemma remove_songs_frame (pt : string) (rs : list string) :
  forall (self : YoutubeSync) (w : world) (r : res YoutubeSync) (w' : world),
    fst (remove_songs str_format fnmatch pt self rs w) = (r, w') ->
    w' = set_media (w_media w') w /\
    incl (w_media w') (w_media w) /\
    (forall e, r = Raise e -> update_exn e).
Proof.
  unfold update_exn.
  induction rs as [|key rs IH]; intros self w r w' H.
  - cbn in H. injection H as <- <-. rewrite set_media_same.
    repeat split; auto using incl_refl. discriminate.
  - rewrite remove_songs_cons in H.
    repeat match type of H with
           | context [match ?x with _ => _ end] => destruct x eqn:?
           end;
      try (injection H as <- <-; rewrite set_media_same;
           repeat split; auto using incl_refl;
           intros e He; injection He as <-; tauto).
    apply IH in H. destruct H as (Hw & Hincl & He).
    split; [|split]; [| |exact He].
    + rewrite Hw. destruct w; reflexivity.
    + intros f Hf. apply Hincl in Hf. cbn [w_media set_media] in Hf.
      now apply incl_remove_path in Hf.
Qed.

Lemma remove_songs_ok (pt : string) (rs : list string) :
  forall (self self' : YoutubeSync) (w w' : world),
    fst (remove_songs str_format fnmatch pt self rs w) = (Ok self', w') ->
    self' = set_sync_archive (pop_all rs (sync_archive self)) self /\
    forall key, In key rs ->
      exists t p f,
        dict_get "outtmpl" (ytdl_opts self) = Some (PStr t) /\
        str_format t pt key "*" = Formatted p /\
        fnmatch p f = true /\
        In f (w_media w) /\ ~ In f (w_media w').
Proof.
  induction rs as [|key rs IH]; intros self self' w w' H.
  - cbn in H. injection H as <- <-. split; [now destruct self | intros k []].
  - rewrite remove_songs_cons in H.
    destruct (dict_get "outtmpl" (ytdl_opts self)) as [[| | |t]|] eqn:Ht;
      try discriminate.
    destruct (str_format t pt key "*") as [p| | |] eqn:Hp; try discriminate.
    destruct (filter (fnmatch p) (w_media w)) as [|f fs] eqn:Hf;
      try discriminate.
    destruct (mem f (w_media w)) eqn:Hm; try discriminate.
    assert (Hfin : In f (filter (fnmatch p) (w_media w)))
      by (rewrite Hf; now left).
    apply filter_In in Hfin. destruct Hfin as [Hfw Hfp].
    pose proof (remove_songs_frame pt rs _ _ _ _ H) as (_ & Hincl & _).
    apply IH in H. destruct H as [Hself Hkeys]. split.
    + rewrite Hself. reflexivity.
    + intros k [<-|Hk].
      * exists t, p, f. repeat split; auto.
        intros Hin. apply Hincl in Hin. cbn [w_media set_media] in Hin.
        now apply not_in_remove_path in Hin.
      * destruct (Hkeys k Hk) as (t' & p' & f' & H1 & H2 & H3 & H4 & H5).
        cbn [ytdl_opts set_sync_archive] in H1. cbn [w_media set_media] in H4.
        apply incl_remove_path in H4.
        exists t', p', f'. repeat split; try assumption. congruence.
Qed.

Lemma update_files_eq (pt : string) (self : YoutubeSync) (w : world) :
  fst (_update_files str_format fnmatch pt self w) =
  match w_archive_file w with
  | None => (Raise FileNotFoundError, w)
  | Some text =>
      let sc := scan_lines (values (remove_list self)) (keys (remove_list self))
                           (readlines text) EmptyString [] in
      if sc_ok sc then
        match fst (remove_songs str_format fnmatch pt self (sc_removed sc)
                     (set_archive_file (Some (sc_written sc)) w)) with
        | (Ok self', w1) =>
            (Ok self',
             set_sync_file (Some (json_dumps false (sync_archive self'))) w1)
        | (Raise e, w1) => (Raise e, w1)
        end
      else
        (Raise IndexError,
         set_archive_file (Some (overwrite (sc_written sc) text)) w)
  end.
Proof.
  unfold _update_files.
  unfold bind, get_world, ret, raise, put_world, print_all, write_json.
  destruct (w_archive_file w) as [text|]; [|reflexivity].
  cbv zeta.
  destruct (sc_ok (scan_lines _ _ _ _ _)); [|reflexivity].
  match goal with
  | |- context [remove_songs ?a ?b ?c ?d ?rs ?f] =>
      destruct (remove_songs a b c d rs f) as [[[r|ex] w'] o]
  end; reflexivity.
Qed.

Lemma reconcile_eq (m : meta) (self : YoutubeSync) (w : world) :
  fst (reconcile str_format fnmatch m self w) =
  match m_entries m with
  | None => (Raise TypeError, w)
  | Some es =>
      match add_entries es (sync_archive self) with
      | Raise e => (Raise e, w)
      | Ok sa =>
          match m_title m with
          | None => (Raise KeyError, w)
          | Some title =>
              fst (_update_files str_format fnmatch title
                     (set_sync_archive sa self) w)
          end
      end
  end.
Proof.
  unfold reconcile. rewrite bind_fst.
  destruct (m_entries m) as [es|]; [|reflexivity].
  cbn [ret fst]. rewrite bind_fst. unfold lift at 1. cbn [fst].
  destruct (add_entries es (sync_archive self)) as [sa|e]; [|reflexivity].
  rewrite bind_fst.
  destruct (m_title m) as [title|]; reflexivity.
Qed.

Lemma sync_falsy_link (self : YoutubeSync) (w : world) :
  valid_dir self = true ->
  truthy (sync_link self) = false ->
  sync fetcher str_format fnmatch self w = (Raise NoPlaylistLink, w, []).
Proof.
  intros Hdir Hlink. unfold sync. rewrite Hdir. fold (sync_link self).
  now rewrite Hlink.
Qed.

(** The object [sync] hands to [reconcile]. *)
Lemma sync_eq (self : YoutubeSync) (w : world) :
  valid_dir self = true ->
  truthy (sync_link self) = true ->
  fst (sync fetcher str_format fnmatch self w) =
  match fr_meta (fetch fetcher self w) with
  | None => (Raise AttributeError, fetched_world (fetch fetcher self w) w)
  | Some m =>
      if negb (py_is (m_type m) "playlist")
         && negb (py_is (m_extractor_key m) "YoutubePlaylist")
      then (Raise NotYoutubePlaylist, fetched_world (fetch fetcher self w) w)
      else
        fst (reconcile str_format fnmatch m
               (set_remove_list
                  (working_set (fr_log (fetch fetcher self w))
                               (remove_list self))
                  (set_ytdl_opts (sync_opts self) self))
               (fetched_world (fetch fetcher self w) w))
  end.
Proof.
  intros Hdir Hlink. unfold sync. rewrite Hdir.
  fold (sync_link self). rewrite Hlink. cbn [negb].
  fold (sync_opts self). rewrite bind_fst.
  unfold extract_info at 1.
  unfold bind, get_world, print_all, put_world, ret.
  cbn [fst snd set_ytdl_opts ytdl_opts quiet remove_list sync_config].
  fold (sync_link self). fold (fetch fetcher self w). rewrite run_logger_snd.
  destruct (fr_meta (fetch fetcher self w)) as [m|]; [|reflexivity].
  destruct (negb (py_is (m_type m) "playlist")
            && negb (py_is (m_extractor_key m) "YoutubePlaylist"));
    reflexivity.
Qed.

End Reconciliation.

(* ================================================================== *)
(** ** [sync]: the playlist test and the record lines *)

(** An object that is the literal has the literal's text. *)
Lemma py_is_eq (v : option pystr) (lit : string) :
  py_is v lit = true -> py_eq v lit = true.
Proof.
  destruct v as [o|]; cbn [py_is py_eq]; [|discriminate].
  intros H. now apply andb_true_iff in H.
Qed.

Lemma py_eq_false_is (v : option pystr) (lit : string) :
  py_eq v lit = false -> py_is v lit = false.
Proof.
  destruct (py_is v lit) eqn:H; [|reflexivity].
  apply py_is_eq in H. congruence.
Qed.

Lemma line_id_none (line : string) :
  line_id line = None <-> List.length (split line) < 2.
Proof. unfold line_id. rewrite nth_error_None. lia. Qed.

Section Claims.

Variable fetcher : dict pyval -> pyval -> world -> fetch_result.
Variable str_format : string -> string -> string -> string -> format_result.
Variable fnmatch : string -> string -> bool.

Lemma update_files_exn (pt : string) (self : YoutubeSync) (w w' : world)
    (e : exn) :
  fst (_update_files str_format fnmatch pt self w) = (Raise e, w') ->
  update_exn e.
Proof.
  rewrite update_files_eq. unfold update_exn.
  destruct (w_archive_file w) as [text|]; [|intros [= <- _]; tauto].
  cbv zeta. destruct (sc_ok _); [|intros [= <- _]; tauto].
  destruct (fst (remove_songs _ _ _ _ _ _)) as [[self'|e'] w1] eqn:Hrs;
    [discriminate|].
  intros [= <- _].
  apply remove_songs_frame in Hrs. destruct Hrs as (_ & _ & He).
  now apply He.
Qed.

Lemma reconcile_exn (m : meta) (self : YoutubeSync) (w w' : world) (e : exn) :
  fst (reconcile str_format fnmatch m self w) = (Raise e, w') ->
  update_exn e.
Proof.
  rewrite reconcile_eq.
  destruct (m_entries m) as [es|]; [|intros [= <- _]; unfold update_exn; tauto].
  destruct (add_entries es (sync_archive self)) as [sa|e'] eqn:Hadd.
  - destruct (m_title m) as [title|];
      [apply update_files_exn | intros [= <- _]; unfold update_exn; tauto].
  - intros [= <- _]. apply add_entries_raise in Hadd. subst.
    unfold update_exn; tauto.
Qed.

(** X26: once [sync] has fetched the metadata [m] of the configured link,
    it raises [NotYoutubePlaylist] exactly when neither the [_type] of [m]
    is the literal ['playlist'] nor its extractor key is the literal
    ['YoutubePlaylist'], both tested by identity; in the other case the
    error is not raised and [sync] goes on with the reconciliation. *)
Theorem sync_not_playlist_by_identity
    (self : YoutubeSync) (w : world) (m : meta) :
  valid_dir self = true ->
  truthy (sync_link self) = true ->
  fr_meta (fetch fetcher self w) = Some m ->
  (result (sync fetcher str_format fnmatch self w) = Raise NotYoutubePlaylist
   <-> py_is (m_type m) "playlist" = false
       /\ py_is (m_extractor_key m) "YoutubePlaylist" = false)
  /\
  (py_is (m_type m) "playlist" = true \/
   py_is (m_extractor_key m) "YoutubePlaylist" = true ->
   fst (sync fetcher str_format fnmatch self w) =
   fst (reconcile str_format fnmatch m
          (set_remove_list
             (working_set (fr_log (fetch fetcher self w)) (remove_list self))
             (set_ytdl_opts (sync_opts self) self))
          (fetched_world (fetch fetcher self w) w))).
Proof.
  intros Hdir Hlink Hm. unfold result.
  rewrite (sync_eq fetcher str_format fnmatch self w Hdir Hlink), Hm.
  destruct (py_is (m_type m) "playlist") eqn:Ht;
    destruct (py_is (m_extractor_key m) "YoutubePlaylist") eqn:Hk;
    cbn [negb andb].
  1-3: split; [|reflexivity]; split;
    [ intros Hr;
      destruct (fst (reconcile _ _ _ _ _)) as [[s|e] w'] eqn:Hrec;
        cbn [fst] in Hr; [discriminate|];
      apply reconcile_exn in Hrec; injection Hr as ->;
      unfold update_exn in Hrec; intuition discriminate
    | intros [H1 H2]; congruence ].
  split; [cbn [fst]; tauto | intros [H|H]; congruence].
Qed.


(** C10: the rewrite of the download records takes every line to have
    two fields.  When the records left by the fetch hold a line with fewer
    than two fields, such as a blank line, [sync] never completes and the
    ledger file stays as it was before the run; and once [sync] reaches
    the rewrite (link configured, metadata that passes the playlist test
    of line 127 and carries its entries and its title), the exception it
    ends with is the [IndexError] of [line.split()[1]]. *)
Theorem short_record_line_aborts_sync
    (self : YoutubeSync) (w : world) (text : string) :
  valid_dir self = true ->
  fr_archive_file (fetch fetcher self w) = Some text ->
  (exists line, In line (readlines text) /\ List.length (split line) < 2) ->
  (exists e, result (sync fetcher str_format fnmatch self w) = Raise e) /\
  w_sync_file (final (sync fetcher str_format fnmatch self w))
    = w_sync_file w /\
  (forall m es sa title,
      truthy (sync_link self) = true ->
      fr_meta (fetch fetcher self w) = Some m ->
      py_is (m_type m) "playlist" = true \/
      py_is (m_extractor_key m) "YoutubePlaylist" = true ->
      m_entries m = Some es ->
      add_entries es (sync_archive self) = Ok sa ->
      m_title m = Some title ->
      result (sync fetcher str_format fnmatch self w) = Raise IndexError).
Proof.
  intros Hdir Htext [line [Hin Hshort]].
  assert (Hscan : forall ids titles,
             sc_ok (scan_lines ids titles (readlines text) EmptyString [])
             = false).
  { intros ids titles. apply scan_lines_short.
    exists line. split; [assumption | now apply line_id_none]. }
  unfold result, final.
  destruct (truthy (sync_link self)) eqn:Hlink.
  - rewrite (sync_eq fetcher str_format fnmatch self w Hdir Hlink).
    assert (Hupd : forall title self0,
               fst (_update_files str_format fnmatch title self0
                      (fetched_world (fetch fetcher self w) w))
               = (Raise IndexError,
                  set_archive_file
                    (Some (overwrite
                             (sc_written
                                (scan_lines (values (remove_list self0))
                                   (keys (remove_list self0))
                                   (readlines text) EmptyString []))
                             text))
                    (fetched_world (fetch fetcher self w) w))).
    { intros title self0. rewrite update_files_eq.
      cbn [fetched_world w_archive_file set_media set_archive_file].
      rewrite Htext. cbv zeta. now rewrite Hscan. }
    destruct (fr_meta (fetch fetcher self w)) as [m|] eqn:Hm.
    + destruct (negb (py_is (m_type m) "playlist")
                && negb (py_is (m_extractor_key m) "YoutubePlaylist"))
        eqn:Htest.
      * split; [eexists; reflexivity|]. split; [reflexivity|].
        intros m' es sa title _ [= <-] Hpl. exfalso.
        destruct Hpl as [H|H]; rewrite H in Htest;
          cbn in Htest; [|rewrite andb_false_r in Htest]; discriminate.
      * rewrite reconcile_eq.
        cbn [sync_archive set_remove_list set_ytdl_opts].
        destruct (m_entries m) as [es|] eqn:Hes;
          [|split; [eexists; reflexivity|]; split; [reflexivity|];
            intros m' es sa title _ [= <-]; congruence].
        destruct (add_entries es (sync_archive self)) as [sa|e] eqn:Hsa;
          [|split; [eexists; reflexivity|]; split; [reflexivity|];
            intros m' es' sa title _ [= <-]; congruence].
        destruct (m_title m) as [title|] eqn:Htitle;
          [|split; [eexists; reflexivity|]; split; [reflexivity|];
            intros m' es' sa' title _ [= <-]; congruence].
        rewrite Hupd. split; [eexists; reflexivity|].
        split; [reflexivity|]. reflexivity.
    + split; [eexists; reflexivity|]. split; [reflexivity|].
      intros m es sa title _ Hm'. discriminate.
  - rewrite sync_falsy_link by assumption.
    split; [eexists; reflexivity|]. split; [reflexivity|].
    intros m es sa title Ht. discriminate.
Qed.

End Claims.

Lemma two_songs_object_new :
  YoutubeSync_new two_songs = (Ok two_songs_object, two_songs, []).
Proof. vm_compute. reflexivity. Qed.

Lemma sync_not_playlist_by_identity_witness :
  (result (sync (playlist_fetcher mix_A) percent_format wild_match
                two_songs_object two_songs) = Raise NotYoutubePlaylist
   <-> py_is (Some (literal "playlist")) "playlist" = false
       /\ py_is (Some (computed "YoutubePlaylist")) "YoutubePlaylist" = false)
  /\ result (sync (playlist_fetcher mix_A) percent_format wild_match
                  two_songs_object two_songs)
     = Ok (set_sync_archive [("Song A", "id1")]
             (set_remove_list [("Song B", "id2")]
                (set_ytdl_opts
                   (sync_opts two_songs_object) two_songs_object))).
Proof.
  destruct (sync_not_playlist_by_identity (playlist_fetcher mix_A)
              percent_format wild_match two_songs_object two_songs
              (mkMeta (Some (literal "playlist"))
                 (Some (computed "YoutubePlaylist"))
                 (Some []) (Some "Mix")))
    as [Hiff Hgo].
  - reflexivity.
  - reflexivity.
  - vm_compute. reflexivity.
  - split; [exact Hiff|]. unfold result. rewrite Hgo by (left; reflexivity).
    vm_compute. reflexivity.
Defined.

Lemma short_record_line_aborts_sync_witness :
  (exists e, result (sync_run mix_A two_songs_object blank_line_records)
             = Raise e) /\
  w_sync_file (final (sync_run mix_A two_songs_object blank_line_records))
    = w_sync_file blank_line_records /\
  result (sync_run mix_A two_songs_object blank_line_records)
    = Raise IndexError.
Proof.
  destruct (short_record_line_aborts_sync (playlist_fetcher mix_A)
              percent_format wild_match two_songs_object blank_line_records
              (record_line "id1" ++ str1 nl ++ record_line "id2"))
    as (Habort & Hfile & Hindex).
  - reflexivity.
  - vm_compute. reflexivity.
  - exists (str1 nl). split; [vm_compute; tauto | vm_compute; lia].
  - split; [exact Habort|]. split; [exact Hfile|].
    apply (Hindex
             (mkMeta (Some (literal "playlist"))
                (Some (computed "YoutubePlaylist"))
                (Some []) (Some "Mix"))
             []
             [("Song A", "id1"); ("Song B", "id2")] "Mix").
    + reflexivity.
    + vm_compute. reflexivity.
    + left. reflexivity.
    + reflexivity.
    + reflexivity.
    + reflexivity.
Defined.

(* ================================================================== *)
(** ** More on dictionaries *)

Lemma dict_get_none {V} (k : string) (d : dict V) :
  dict_get k d = None <-> ~ In k (keys d).
Proof.
  induction d as [|[k' v'] d IH]; cbn [dict_get keys map fst In].
  - tauto.
  - destruct (String.eqb_spec k' k) as [->|Hne].
    + split; [discriminate | tauto].
    + rewrite IH. unfold keys. tauto.
Qed.

Lemma dict_get_in_values {V} (k : string) (v : V) (d : dict V) :
  dict_get k d = Some v -> In v (values d).
Proof.
  induction d as [|[k' v'] d IH]; cbn [dict_get values map snd In];
    [discriminate|].
  destruct (String.eqb k' k); [intros [= ->]; now left | right; auto].
Qed.

Lemma dict_get_pop_other {V} (k k0 : string) (d : dict V) :
  k0 <> k -> dict_get k0 (dict_pop k d) = dict_get k0 d.
Proof.
  intros Hne. induction d as [|[k' v'] d IH]; [reflexivity|].
  cbn [dict_pop]. destruct (String.eqb_spec k' k) as [->|Hk].
  - cbn [dict_get]. destruct (String.eqb_spec k k0); [congruence|reflexivity].
  - cbn [dict_get]. now rewrite IH.
Qed.

Lemma keys_pop_incl {V} (k : string) (d : dict V) :
  incl (keys (dict_pop k d)) (keys d).
Proof.
  induction d as [|[k' v'] d IH]; [apply incl_refl|].
  cbn [dict_pop]. destruct (String.eqb k' k).
  - apply incl_tl, incl_refl.
  - cbn [keys map fst]. intros x [<-|Hx]; [now left | right; now apply IH].
Qed.

Lemma nodup_pop {V} (k : string) (d : dict V) :
  NoDup (keys d) -> NoDup (keys (dict_pop k d)).
Proof.
  induction d as [|[k' v'] d IH]; intros Hnd; [assumption|].
  cbn [keys map fst] in Hnd. inversion Hnd as [|? ? Hnot Hrest]; subst.
  cbn [dict_pop]. destruct (String.eqb k' k); [assumption|].
  cbn [keys map fst]. constructor; [|now apply IH].
  intros Hin. apply Hnot. now apply (keys_pop_incl k d).
Qed.

Lemma dict_get_pop_same {V} (k : string) (d : dict V) :
  NoDup (keys d) -> dict_get k (dict_pop k d) = None.
Proof.
  induction d as [|[k' v'] d IH]; intros Hnd; [reflexivity|].
  cbn [keys map fst] in Hnd. inversion Hnd as [|? ? Hnot Hrest]; subst.
  cbn [dict_pop]. destruct (String.eqb_spec k' k) as [->|Hk].
  - now apply dict_get_none.
  - cbn [dict_get]. destruct (String.eqb_spec k' k); [congruence|].
    now apply IH.
Qed.

Lemma keys_set {V} (k : string) (v : V) (d : dict V) :
  keys (dict_set k v d) = if mem k (keys d) then keys d else (keys d ++ [k])%list.
Proof.
  induction d as [|[k' v'] d IH]; [reflexivity|].
  cbn [dict_set keys map fst mem existsb].
  rewrite (String.eqb_sym k k').
  destruct (String.eqb k' k); cbn [orb keys map fst]; [reflexivity|].
  unfold keys, mem in IH. rewrite IH.
  destruct (existsb (String.eqb k) (map fst d)); reflexivity.
Qed.

Lemma mem_in (x : string) (l : list string) : mem x l = true <-> In x l.
Proof.
  unfold mem. rewrite existsb_exists. split.
  - intros [y [Hy Heq]]. apply String.eqb_eq in Heq. now subst.
  - intros Hx. exists x. split; [assumption | apply String.eqb_refl].
Qed.

Lemma mem_not_in (x : string) (l : list string) : mem x l = false <-> ~ In x l.
Proof. rewrite <- mem_in. destruct (mem x l); split; congruence. Qed.

Lemma nodup_set {V} (k : string) (v : V) (d : dict V) :
  NoDup (keys d) -> NoDup (keys (dict_set k v d)).
Proof.
  intros Hnd. rewrite keys_set. destruct (mem k (keys d)) eqn:Hm; [assumption|].
  apply mem_not_in in Hm. apply NoDup_app; [assumption | nodup_strings |].
  intros x Hx [<-|[]]. contradiction.
Qed.

Lemma dict_set_same_value {V} (k : string) (v : V) (d : dict V) :
  dict_get k d = Some v -> dict_set k v d = d.
Proof.
  induction d as [|[k' v'] d IH]; cbn [dict_get dict_set]; [discriminate|].
  destruct (String.eqb k' k); [intros [= ->]; reflexivity|].
  intros H. now rewrite IH.
Qed.

Lemma pop_all_nodup (ks : list string) :
  forall d, NoDup (keys d) -> NoDup (keys (pop_all ks d)).
Proof.
  unfold pop_all. induction ks as [|k ks IH]; intros d Hnd; [assumption|].
  cbn [fold_left]. apply IH. now apply nodup_pop.
Qed.


Lemma pop_all_keys_incl (ks : list string) :
  forall d, incl (keys (pop_all ks d)) (keys d).
Proof.
  unfold pop_all. induction ks as [|k ks IH]; intros d; [apply incl_refl|].
  cbn [fold_left]. eapply incl_tran; [apply IH | apply keys_pop_incl].
Qed.

Lemma pop_all_get_popped (T : string) (ks : list string) :
  forall d, NoDup (keys d) -> In T ks -> dict_get T (pop_all ks d) = None.
Proof.
  induction ks as [|k ks IH]; intros d Hnd Hin; [destruct Hin|].
  change (pop_all (k :: ks) d) with (pop_all ks (dict_pop k d)).
  destruct (String.eqb_spec k T) as [->|Hne].
  - apply dict_get_none. intros Hk.
    apply (pop_all_keys_incl ks) in Hk.
    apply (dict_get_none T (dict_pop T d)); [|exact Hk].
    now apply dict_get_pop_same.
  - destruct Hin as [->|Hin]; [congruence|].
    apply IH; [now apply nodup_pop | assumption].
Qed.

(* ================================================================== *)
(** ** The entries loop *)

Lemma add_entries_nodup (es : list (option entry)) :
  forall sa sa', NoDup (keys sa) -> add_entries es sa = Ok sa' ->
                 NoDup (keys sa').
Proof.
  induction es as [|[e|] es IH]; intros sa sa' Hnd H; cbn in H.
  - now injection H as <-.
  - eapply IH; [|exact H]. now apply nodup_set.
  - discriminate.
Qed.




Lemma add_entries_fixed (es : list (option entry)) (sa sa' : dict string) :
  (forall e, In (Some e) es -> dict_get (e_title e) sa = Some (e_id e)) ->
  add_entries es sa = Ok sa' ->
  sa' = sa.
Proof.
  induction es as [|[e|] es IH]; intros Hall H; cbn in H.
  - now injection H as <-.
  - rewrite dict_set_same_value in H by (apply Hall; now left).
    apply IH; [|assumption]. intros e' He'. apply Hall. now right.
  - discriminate.
Qed.


(* ================================================================== *)
(** ** What a completed [sync] did *)

Lemma index_lt (x : string) (l : list string) :
  mem x l = true -> index x l < List.length l.
Proof.
  induction l as [|y l IH]; cbn [mem existsb index List.length];
    [discriminate|].
  rewrite (String.eqb_sym x y).
  destruct (String.eqb y x); cbn [orb]; [lia|].
  intros H. apply IH in H. lia.
Qed.

(** The titles [scan_lines] records are titles of the working set. *)
Lemma dropped_title_in (ws : dict string) (line : string) :
  line_id line <> None ->
  kept (values ws) line = false ->
  In (dropped_title (values ws) (keys ws) line) (keys ws).
Proof.
  unfold kept, dropped_title. destruct (line_id line) as [i|]; [|congruence].
  intros _ Hk. apply negb_false_iff in Hk. apply index_lt in Hk.
  apply nth_In. unfold keys. unfold values in Hk.
  rewrite length_map in *. assumption.
Qed.

Lemma removed_titles_in_working_set (ws : dict string) (lines : list string) :
  (forall l, In l lines -> line_id l <> None) ->
  incl (removed_titles ws lines) (keys ws).
Proof.
  intros Hall t Ht. unfold removed_titles in Ht. apply in_map_iff in Ht.
  destruct Ht as [l [<- Hl]]. apply filter_In in Hl. destruct Hl as [Hl Hk].
  apply dropped_title_in; [auto | now apply negb_true_iff in Hk].
Qed.

Section Completed.

Variable fetcher : dict pyval -> pyval -> world -> fetch_result.
Variable str_format : string -> string -> string -> string -> format_result.
Variable fnmatch : string -> string -> bool.

Lemma sync_ok_inv (self self' : YoutubeSync) (w w' : world) :
  valid_dir self = true ->
  fst (sync fetcher str_format fnmatch self w) = (Ok self', w') ->
  exists m es sa title text,
    fr_meta (fetch fetcher self w) = Some m /\
    m_entries m = Some es /\
    add_entries es (sync_archive self) = Ok sa /\
    m_title m = Some title /\
    fr_archive_file (fetch fetcher self w) = Some text /\
    (forall l, In l (readlines text) -> line_id l <> None) /\
    let ws := working_set (fr_log (fetch fetcher self w)) (remove_list self) in
    let rs := removed_titles ws (readlines text) in
    sync_archive self' = pop_all rs sa /\
    w_sync_file w' = Some (json_dumps false (pop_all rs sa)) /\
    w_archive_file w' =
      Some (concat_lines (filter (kept (values ws)) (readlines text))) /\
    incl (w_media w') (fr_media (fetch fetcher self w)) /\
    forall key, In key rs ->
      exists t p f,
        dict_get "outtmpl" (sync_opts self) = Some (PStr t) /\
        str_format t title key "*" = Formatted p /\
        fnmatch p f = true /\
        In f (fr_media (fetch fetcher self w)) /\ ~ In f (w_media w').
Proof.
  intros Hdir H.
  destruct (truthy (sync_link self)) eqn:Hlink;
    [|rewrite sync_falsy_link in H by assumption; discriminate].
  rewrite (sync_eq fetcher str_format fnmatch self w Hdir Hlink) in H.
  destruct (fr_meta (fetch fetcher self w)) as [m|] eqn:Hm; [|discriminate].
  destruct (negb _ && negb _); [discriminate|].
  rewrite reconcile_eq in H.
  destruct (m_entries m) as [es|] eqn:Hes; [|discriminate].
  cbn [sync_archive set_remove_list set_ytdl_opts] in H.
  destruct (add_entries es (sync_archive self)) as [sa|] eqn:Hsa;
    [|discriminate].
  destruct (m_title m) as [title|] eqn:Htitle; [|discriminate].
  rewrite update_files_eq in H.
  cbn [fetched_world w_archive_file set_media set_archive_file] in H.
  destruct (fr_archive_file (fetch fetcher self w)) as [text|] eqn:Htext;
    [|discriminate].
  cbv zeta in H.
  cbn [remove_list set_sync_archive set_remove_list] in H.
  destruct (sc_ok _) eqn:Hok in H; [|discriminate].
  pose proof (scan_lines_ok_inv _ _ _ _ _ Hok) as Hall.
  rewrite (scan_lines_ok _ _ _ _ _ Hall) in H.
  cbn [sc_removed sc_written app] in H.
  change (String.append EmptyString ?x) with x in H.
  destruct (fst (remove_songs _ _ _ _ _ _)) as [[self1|e1] w1] eqn:Hrs in H;
    [|discriminate].
  injection H as <- <-.
  pose proof (remove_songs_frame _ _ _ _ _ _ _ _ Hrs) as (Hw1 & Hincl & _).
  apply remove_songs_ok in Hrs. destruct Hrs as [Hself1 Hkeys].
  exists m, es, sa, title, text.
  repeat (split; [assumption || reflexivity|]).
  cbv zeta. fold (removed_titles
                    (working_set (fr_log (fetch fetcher self w))
                                 (remove_list self)) (readlines text)) in *.
  subst self1. cbn [sync_archive set_sync_archive] in *.
  split; [reflexivity|].
  split; [reflexivity|].
  split; [rewrite Hw1; reflexivity|].
  split; [exact Hincl|].
  intros key Hkey. destruct (Hkeys key Hkey) as (t & p & f & H1 & H2 & H3 & H4 & H5).
  exists t, p, f. repeat split; assumption.
Qed.

End Completed.

(* ================================================================== *)
(** ** Lines of a text file *)

Lemma concat_split_lines (t : string) : concat_lines (split_lines t) = t.
Proof.
  induction t as [|c t IH]; [reflexivity|].
  cbn [split_lines]. destruct (Ascii.eqb c nl).
  - cbn [concat_lines]. now rewrite IH.
  - destruct (split_lines t) as [|l ls]; cbn [concat_lines] in *.
    + now rewrite <- IH.
    + now rewrite <- IH.
Qed.

(** Written back, the lines make up the text as it was read. *)
Lemma concat_readlines (t : string) :
  concat_lines (readlines t) = universal_newlines t.
Proof. apply concat_split_lines. Qed.

Lemma no_cr_append (a b : string) :
  no_cr (a ++ b) = no_cr a && no_cr b.
Proof.
  induction a as [|c a IH]; [reflexivity|].
  cbn [append no_cr]. now rewrite IH, andb_assoc.
Qed.

Lemma universal_newlines_length (n : nat) :
  forall t, String.length t <= n -> no_cr (universal_newlines t) = true.
Proof.
  induction n as [|n IH]; intros t Hn.
  - destruct t; [reflexivity | cbn in Hn; lia].
  - destruct t as [|c t]; [reflexivity|].
    cbn [String.length] in Hn. cbn [universal_newlines].
    destruct (Ascii.eqb c cr) eqn:Hc.
    + cbn [no_cr]. change (Ascii.eqb nl cr) with false. cbn [negb andb].
      destruct t as [|c' t]; [reflexivity|].
      cbn [String.length] in Hn.
      destruct (Ascii.eqb c' nl); apply IH; cbn [String.length]; lia.
    + cbn [no_cr]. rewrite Hc. cbn [negb andb]. apply IH. lia.
Qed.

Lemma no_cr_universal_newlines (t : string) :
  no_cr (universal_newlines t) = true.
Proof. now apply (universal_newlines_length (String.length t)). Qed.

(** A text without carriage return is read as it is. *)
Lemma universal_newlines_plain (t : string) :
  no_cr t = true -> universal_newlines t = t.
Proof.
  induction t as [|c t IH]; [reflexivity|].
  cbn [no_cr universal_newlines]. intros H. apply andb_true_iff in H.
  destruct H as [Hc Ht]. apply negb_true_iff in Hc. rewrite Hc.
  now rewrite IH.
Qed.

Lemma readlines_plain (t : string) :
  no_cr t = true -> readlines t = split_lines t.
Proof. intros H. unfold readlines. now rewrite universal_newlines_plain. Qed.

Lemma split_lines_ok (t : string) :
  no_cr t = true -> lines_ok (split_lines t).
Proof.
  induction t as [|c t IH]; [intros _; exact I|].
  cbn [no_cr]. intros H. apply andb_true_iff in H. destruct H as [Hr Ht].
  specialize (IH Ht).
  cbn [split_lines]. destruct (Ascii.eqb_spec c nl) as [->|Hc].
  - left. split; [|assumption]. exists EmptyString. now repeat split.
  - assert (Hcb : negb (Ascii.eqb c nl) = true)
      by (apply negb_true_iff; now apply Ascii.eqb_neq).
    destruct (split_lines t) as [|l ls].
    + right. split; [|reflexivity]. split; [discriminate|].
      cbn [no_nl no_cr str1]. now rewrite Hcb, Hr.
    + destruct IH as [[[b [-> [Hb Hb']]] Hls] | [[Hne [Hl Hl']] ->]].
      * left. split; [|assumption]. exists (String c b).
        split; [reflexivity|]. cbn [no_nl no_cr]. now rewrite Hcb, Hb, Hr, Hb'.
      * right. split; [|reflexivity]. split; [discriminate|].
        cbn [no_nl no_cr]. now rewrite Hcb, Hl, Hr, Hl'.
Qed.

Lemma readlines_ok (t : string) : lines_ok (readlines t).
Proof. apply split_lines_ok, no_cr_universal_newlines. Qed.

Lemma lines_ok_filter (f : string -> bool) (ls : list string) :
  lines_ok ls -> lines_ok (filter f ls).
Proof.
  induction ls as [|l ls IH]; intros Hok; [exact I|].
  destruct Hok as [[Hl Hls] | [Hl ->]]; cbn [filter]; destruct (f l);
    cbn [lines_ok]; auto.
Qed.

Lemma split_lines_complete (b rest : string) :
  no_nl b = true ->
  split_lines ((b ++ str1 nl) ++ rest) = (b ++ str1 nl) :: split_lines rest.
Proof.
  induction b as [|c b IH]; intros Hb.
  - reflexivity.
  - cbn [no_nl] in Hb. apply andb_true_iff in Hb. destruct Hb as [Hc Hb].
    apply negb_true_iff in Hc.
    change ((String c b ++ str1 nl) ++ rest)
      with (String c ((b ++ str1 nl) ++ rest)).
    cbn [split_lines]. rewrite Hc, (IH Hb). reflexivity.
Qed.

Lemma split_lines_partial (l : string) :
  l <> EmptyString -> no_nl l = true -> split_lines l = [l].
Proof.
  induction l as [|c l IH]; intros Hne Hl; [congruence|].
  cbn [no_nl] in Hl. apply andb_true_iff in Hl. destruct Hl as [Hc Hl].
  apply negb_true_iff in Hc. cbn [split_lines]. rewrite Hc.
  destruct l as [|c' l]; [reflexivity|].
  rewrite IH by (discriminate || assumption). reflexivity.
Qed.

Lemma split_lines_concat (ls : list string) :
  lines_ok ls -> split_lines (concat_lines ls) = ls.
Proof.
  induction ls as [|l ls IH]; intros Hok; [reflexivity|].
  destruct Hok as [[[b [-> [Hb _]]] Hls] | [[Hne [Hl _]] ->]];
    cbn [concat_lines].
  - rewrite split_lines_complete by assumption. now rewrite IH.
  - rewrite append_nil_r. now apply split_lines_partial.
Qed.

Lemma no_cr_concat_lines (ls : list string) :
  lines_ok ls -> no_cr (concat_lines ls) = true.
Proof.
  induction ls as [|l ls IH]; intros Hok; [reflexivity|].
  cbn [concat_lines]. rewrite no_cr_append.
  destruct Hok as [[[b [-> [_ Hb]]] Hls] | [[Hne [_ Hl]] ->]].
  - rewrite no_cr_append, Hb, (IH Hls). reflexivity.
  - now rewrite Hl.
Qed.

(** Lines written back are read again as they were written. *)
Lemma readlines_concat (ls : list string) :
  lines_ok ls -> readlines (concat_lines ls) = ls.
Proof.
  intros Hok. rewrite readlines_plain by now apply no_cr_concat_lines.
  now apply split_lines_concat.
Qed.

(** The rewritten download records hold the lines that were kept. *)
Lemma readlines_kept (ids : list string) (text : string) :
  readlines (concat_lines (filter (kept ids) (readlines text)))
  = filter (kept ids) (readlines text).
Proof. apply readlines_concat, lines_ok_filter, readlines_ok. Qed.

(* ================================================================== *)
(** ** Reconciliation *)

Lemma ledger_written (d : dict string) (w : world) :
  NoDup (keys d) ->
  w_sync_file w = Some (json_dumps false d) ->
  ledger w = Ok d.
Proof.
  intros Hnd Hw. unfold ledger, load_json, json_load_ledger.
  now rewrite Hw, json_loads_dumps.
Qed.

Section Reconciled.

Variable fetcher : dict pyval -> pyval -> world -> fetch_result.
Variable str_format : string -> string -> string -> string -> format_result.
Variable fnmatch : string -> string -> bool.

(** C1, as the code has it: take a title left in the working set after
    the fetch, with id [x], such that [x] is the id field of some line of
    the download records and the title is the first one of the working
    set that carries [x].  When [sync] completes, the title is absent from
    the persisted ledger, no line of the rewritten download records has
    [x] as id field, and a file matching the title's pattern (the output
    template filled with the playlist title, the title and [*]) that was
    there after the fetch is gone. *)
Theorem removed_title_is_purged
    (self self' : YoutubeSync) (w w' : world) (T x : string) :
  valid_dir self = true ->
  NoDup (keys (sync_archive self)) ->
  fst (sync fetcher str_format fnmatch self w) = (Ok self', w') ->
  dict_get T (working_set (fr_log (fetch fetcher self w)) (remove_list self))
    = Some x ->
  nth (index x
         (values (working_set (fr_log (fetch fetcher self w))
                              (remove_list self))))
      (keys (working_set (fr_log (fetch fetcher self w)) (remove_list self)))
      EmptyString = T ->
  (exists text line,
      fr_archive_file (fetch fetcher self w) = Some text /\
      In line (readlines text) /\ line_id line = Some x) ->
  (exists d, ledger w' = Ok d /\ dict_get T d = None) /\
  (exists text',
      w_archive_file w' = Some text' /\
      forall line, In line (readlines text') -> line_id line <> Some x) /\
  (exists m title t p f,
      fr_meta (fetch fetcher self w) = Some m /\
      m_title m = Some title /\
      dict_get "outtmpl" (sync_opts self) = Some (PStr t) /\
      str_format t title T "*" = Formatted p /\
      fnmatch p f = true /\
      In f (fr_media (fetch fetcher self w)) /\
      ~ In f (w_media w')).
Proof.
  intros Hdir Hnd Hsync Hget Hfirst (text0 & line & Htext0 & Hline & Hid).
  destruct (sync_ok_inv _ _ _ _ _ _ _ Hdir Hsync)
    as (m & es & sa & title & text & Hm & Hes & Hsa & Htitle & Htext & Hall
        & Hrest).
  cbv zeta in Hrest.
  destruct Hrest as (_ & Hfile & Harch & _ & Hkeys).
  assert (text0 = text) by congruence. subst text0.
  set (ws := working_set (fr_log (fetch fetcher self w)) (remove_list self))
    in *.
  assert (Hmem : mem x (values ws) = true)
    by (apply mem_in; eapply dict_get_in_values; eassumption).
  assert (Hrm : In T (removed_titles ws (readlines text))).
  { unfold removed_titles. apply in_map_iff. exists line. split.
    - unfold dropped_title. now rewrite Hid.
    - apply filter_In. split; [assumption|].
      unfold kept. rewrite Hid, Hmem. reflexivity. }
  assert (Hnd' : NoDup (keys sa)) by (eapply add_entries_nodup; eassumption).
  split; [|split].
  - exists (pop_all (removed_titles ws (readlines text)) sa). split.
    + apply ledger_written; [now apply pop_all_nodup | assumption].
    + now apply pop_all_get_popped.
  - eexists. split; [exact Harch|].
    intros l Hl. rewrite readlines_kept in Hl. apply filter_In in Hl.
    destruct Hl as [_ Hk]. unfold kept in Hk. intros Hlx.
    rewrite Hlx, Hmem in Hk. discriminate.
  - destruct (Hkeys T Hrm) as (t & p & f & H1 & H2 & H3 & H4 & H5).
    exists m, title, t, p, f. repeat split; assumption.
Qed.



End Reconciled.

(* ================================================================== *)
(** ** Reconciliation on concrete folders *)

Lemma old_song_object_new :
  YoutubeSync_new old_song = (Ok old_song_object, old_song, []).
Proof. vm_compute. reflexivity. Qed.

(** C1, as stated, fails: "Song B" is in the ledger at the start and in
    the working set after the fetch, but no line of the download records
    carries its id; [sync] completes, the ledger still holds the title and
    its file is still there. *)
Lemma unrecorded_title_survives_sync :
  YoutubeSync_new missing_record = (Ok two_songs_object, missing_record, []) /\
  dict_get "Song B" (sync_archive two_songs_object) = Some "id2" /\
  dict_get "Song B"
    (working_set (fr_log (fetch_run mix_A two_songs_object missing_record))
                 (remove_list two_songs_object)) = Some "id2" /\
  (exists self',
      result (sync_run mix_A two_songs_object missing_record) = Ok self') /\
  ledger (final (sync_run mix_A two_songs_object missing_record))
    = Ok [("Song A", "id1"); ("Song B", "id2")] /\
  In "./Mix/Song B.m4a"
     (w_media (final (sync_run mix_A two_songs_object missing_record))).
Proof.
  split; [vm_compute; reflexivity|].
  split; [reflexivity|].
  split; [vm_compute; reflexivity|].
  split; [eexists; vm_compute; reflexivity|].
  split; [vm_compute; reflexivity|].
  vm_compute. auto.
Qed.

Lemma removed_title_is_purged_witness :
  (exists d,
      ledger (final (sync_run mix_A two_songs_object two_songs)) = Ok d /\
      dict_get "Song B" d = None) /\
  (exists text',
      w_archive_file (final (sync_run mix_A two_songs_object two_songs))
        = Some text' /\
      forall line, In line (readlines text') -> line_id line <> Some "id2") /\
  (exists m title t p f,
      fr_meta (fetch_run mix_A two_songs_object two_songs) = Some m /\
      m_title m = Some title /\
      dict_get "outtmpl" (sync_opts two_songs_object) = Some (PStr t) /\
      percent_format t title "Song B" "*" = Formatted p /\
      wild_match p f = true /\
      In f (fr_media (fetch_run mix_A two_songs_object two_songs)) /\
      ~ In f (w_media (final (sync_run mix_A two_songs_object two_songs)))).
Proof.
  eapply (removed_title_is_purged (playlist_fetcher mix_A) percent_format
            wild_match two_songs_object _ two_songs _ "Song B" "id2").
  - reflexivity.
  - nodup_strings.
  - vm_compute. reflexivity.
  - vm_compute. reflexivity.
  - vm_compute. reflexivity.
  - exists (record_line "id1" ++ record_line "id2"), (record_line "id2").
    split; [vm_compute; reflexivity|].
    split; [vm_compute; auto | vm_compute; reflexivity].
Defined.





(* ================================================================== *)
(** ** A run that finds nothing to do *)

Lemma ukeys_udict_set (k v : ustr) (d : udict) :
  ukeys (udict_set k v d)
  = if existsb (ustr_eqb k) (ukeys d) then ukeys d
    else (ukeys d ++ [k])%list.
Proof.
  induction d as [|[k' v'] d IH]; [reflexivity|].
  cbn [udict_set ukeys map fst existsb].
  destruct (ustr_eqb_spec k' k) as [->|Hne].
  - destruct (ustr_eqb_spec k k); [reflexivity | congruence].
  - destruct (ustr_eqb_spec k k'); [congruence|].
    cbn [map fst orb]. fold (ukeys (udict_set k v d)). rewrite IH.
    fold (ukeys d). now destruct (existsb (ustr_eqb k) (ukeys d)).
Qed.

Lemma nodup_udict_set (k v : ustr) (d : udict) :
  NoDup (ukeys d) -> NoDup (ukeys (udict_set k v d)).
Proof.
  intros Hnd. rewrite ukeys_udict_set.
  destruct (existsb (ustr_eqb k) (ukeys d)) eqn:He; [assumption|].
  apply NoDup_app; [assumption | repeat constructor; intros [] |].
  intros x Hx [<-|[]].
  assert (existsb (ustr_eqb k) (ukeys d) = true); [|congruence].
  apply existsb_exists. exists k. split; [assumption|].
  now destruct (ustr_eqb_spec k k).
Qed.

Lemma parse_members_nodup (fuel : nat) :
  forall (s : string) (acc d : udict),
    NoDup (ukeys acc) -> parse_members fuel s acc = Some d -> NoDup (ukeys d).
Proof.
  induction fuel as [|fuel IH]; intros s acc d Hnd H; [discriminate|].
  cbn [parse_members] in H.
  repeat match type of H with
         | context [match ?x with _ => _ end] =>
             destruct x eqn:?; try discriminate
         end.
  - injection H as <-. now apply nodup_udict_set.
  - eapply IH; [|exact H]. now apply nodup_udict_set.
Qed.

Lemma py_loads_nodup (s : string) (d : udict) :
  py_loads s = Some d -> NoDup (ukeys d).
Proof.
  unfold py_loads. intros H.
  repeat match type of H with
         | context [match ?x with _ => _ end] =>
             destruct x eqn:?; try discriminate
         end;
    try (injection H as <-; constructor);
    (apply parse_members_nodup in H; [exact H | constructor]).
Qed.

Lemma nodup_map_inv {A B} (f : A -> B) (l : list A) :
  NoDup (map f l) -> NoDup l.
Proof.
  induction l as [|x l IH]; cbn [map]; intros H; [constructor|].
  inversion H as [|? ? Hx Hl]; subst. constructor; [|now apply IH].
  intros Hin. apply Hx. now apply in_map.
Qed.

Lemma json_loads_nodup (s : string) (d : dict string) :
  json_loads s = Some d -> NoDup (keys d).
Proof.
  unfold json_loads. destruct (py_loads s) as [u|] eqn:Hu; [|discriminate].
  intros Hd. apply py_loads_nodup in Hu.
  apply of_code_points_dict_inv in Hd. subst u.
  rewrite ukeys_code_points_dict in Hu. eapply nodup_map_inv; eassumption.
Qed.

Lemma ledger_nodup (w : world) (d : dict string) :
  ledger w = Ok d -> NoDup (keys d).
Proof.
  unfold ledger, load_json, json_load_ledger.
  destruct (w_sync_file w) as [text|]; [|intros [= <-]; constructor].
  destruct (json_loads text) as [d'|] eqn:Hd; [|discriminate].
  intros [= <-]. eapply json_loads_nodup; eassumption.
Qed.

Lemma skip_append (a b : string) : skip (String.length a) (a ++ b) = b.
Proof. induction a as [|c a IH]; [reflexivity | exact IH]. Qed.

Lemma concat_lines_app (l1 l2 : list string) :
  concat_lines (l1 ++ l2)%list = concat_lines l1 ++ concat_lines l2.
Proof.
  induction l1 as [|l l1 IH]; [reflexivity|].
  cbn [app concat_lines]. now rewrite IH, append_assoc.
Qed.

(** When no line carries an id to remove, the first loop copies the
    lines it reads. *)
Lemma scan_lines_unmatched (ids titles lines : list string) :
  (forall l x, In l lines -> line_id l = Some x -> ~ In x ids) ->
  forall (wr : string) (rm : list string),
    exists l1 l2,
      lines = (l1 ++ l2)%list /\
      sc_written (scan_lines ids titles lines wr rm) = wr ++ concat_lines l1 /\
      sc_removed (scan_lines ids titles lines wr rm) = rm /\
      (sc_ok (scan_lines ids titles lines wr rm) = true -> l2 = []).
Proof.
  induction lines as [|l lines IH]; intros Hno wr rm.
  - exists [], []. cbn. rewrite append_nil_r. auto.
  - cbn [scan_lines]. destruct (line_id l) as [i|] eqn:Hi.
    + assert (Hm : mem i ids = false)
        by (apply mem_not_in; apply (Hno l i); [now left | assumption]).
      rewrite Hm.
      destruct (IH (fun l0 x H => Hno l0 x (or_intror H)) (wr ++ l) rm)
        as (l1 & l2 & Hl & Hw & Hr & Hok).
      exists (l :: l1), l2. cbn [app concat_lines].
      split; [now rewrite Hl|]. split; [now rewrite Hw, append_assoc|].
      split; assumption.
    + exists [], (l :: lines). cbn. rewrite append_nil_r.
      repeat split; auto. discriminate.
Qed.

Lemma fetched_world_same (fr : fetch_result) (w : world) :
  fr_archive_file fr = w_archive_file w ->
  fr_media fr = w_media w ->
  fetched_world fr w = w.
Proof. unfold fetched_world. intros -> ->. now destruct w. Qed.

Section Idle.

Variable fetcher : dict pyval -> pyval -> world -> fetch_result.
Variable str_format : string -> string -> string -> string -> format_result.
Variable fnmatch : string -> string -> bool.

(** When no line of the download records carries an id of the working
    set, [_update_files] leaves the media files as they are, and the
    download records too when they hold no carriage return: it rewrites
    the ledger file, or stops before that. *)
Lemma update_files_idle (pt : string) (self : YoutubeSync) (w : world) :
  (forall text line x,
      w_archive_file w = Some text ->
      In line (readlines text) ->
      line_id line = Some x ->
      ~ In x (values (remove_list self))) ->
  (forall text, w_archive_file w = Some text -> no_cr text = true) ->
  let x := fst (_update_files str_format fnmatch pt self w) in
  w_archive_file (snd x) = w_archive_file w /\
  w_media (snd x) = w_media w /\
  (w_sync_file (snd x) = w_sync_file w \/
   w_sync_file (snd x) = Some (json_dumps false (sync_archive self))).
Proof.
  intros Hno Hplain x. subst x. rewrite update_files_eq.
  destruct (w_archive_file w) as [text|] eqn:Htext; [|cbn; auto].
  specialize (Hplain text eq_refl).
  pose proof (concat_readlines text) as Hcat.
  rewrite (universal_newlines_plain _ Hplain) in Hcat.
  cbv zeta.
  destruct (scan_lines_unmatched (values (remove_list self))
              (keys (remove_list self)) (readlines text)
              (fun l x => Hno text l x eq_refl) EmptyString [])
    as (l1 & l2 & Hl & Hw & Hr & Hok).
  change (String.append EmptyString ?x) with x in Hw.
  destruct (sc_ok _) eqn:Hs.
  - rewrite Hr. cbn [remove_songs ret fst snd].
    cbn [w_archive_file w_media w_sync_file set_sync_file set_archive_file].
    rewrite Hw. specialize (Hok eq_refl). subst l2.
    rewrite app_nil_r in Hl. rewrite <- Hl, Hcat. auto.
  - cbn [fst snd w_archive_file w_media w_sync_file set_archive_file].
    rewrite Hw. repeat split; auto.
    assert (Ht : text = concat_lines l1 ++ concat_lines l2)
      by (rewrite <- Hcat, Hl; apply concat_lines_app).
    unfold overwrite. rewrite Ht, skip_append. reflexivity.
Qed.

(** One run that finds nothing to do, on download records without
    carriage return. *)
Lemma sync_idle (self : YoutubeSync) (w : world) :
  valid_dir self = true ->
  ledger w = Ok (sync_archive self) ->
  (forall text, w_archive_file w = Some text -> no_cr text = true) ->
  fr_archive_file (fetch fetcher self w) = w_archive_file w ->
  fr_media (fetch fetcher self w) = w_media w ->
  (forall text line x,
      w_archive_file w = Some text ->
      In line (readlines text) ->
      line_id line = Some x ->
      ~ In x (values (working_set (fr_log (fetch fetcher self w))
                                  (remove_list self)))) ->
  (forall m es e,
      fr_meta (fetch fetcher self w) = Some m ->
      m_entries m = Some es ->
      In (Some e) es ->
      dict_get (e_title e) (sync_archive self) = Some (e_id e)) ->
  ledger (final (sync fetcher str_format fnmatch self w)) = ledger w /\
  w_archive_file (final (sync fetcher str_format fnmatch self w))
    = w_archive_file w /\
  w_media (final (sync fetcher str_format fnmatch self w)) = w_media w.
Proof.
  intros Hdir Hledger Hplain Harch Hmedia Hws Hentries.
  pose proof (ledger_nodup _ _ Hledger) as Hnd.
  unfold final.
  destruct (truthy (sync_link self)) eqn:Hlink;
    [|rewrite sync_falsy_link by assumption; cbn; auto].
  rewrite (sync_eq fetcher str_format fnmatch self w Hdir Hlink).
  rewrite (fetched_world_same _ _ Harch Hmedia).
  destruct (fr_meta (fetch fetcher self w)) as [m|] eqn:Hm; [|cbn; auto].
  destruct (negb _ && negb _); [cbn; auto|].
  rewrite reconcile_eq.
  destruct (m_entries m) as [es|] eqn:Hes; [|cbn; auto].
  cbn [sync_archive set_remove_list set_ytdl_opts].
  destruct (add_entries es (sync_archive self)) as [sa|] eqn:Hsa;
    [|cbn; auto].
  destruct (m_title m) as [title|]; [|cbn; auto].
  apply add_entries_fixed in Hsa; [|intros e He; eapply Hentries; eauto].
  subst sa.
  match goal with
  | |- context [_update_files _ _ ?pt ?s ?w0] =>
      pose proof (update_files_idle pt s w0) as Hidle
  end.
  cbn [remove_list set_sync_archive set_remove_list] in Hidle.
  specialize (Hidle Hws Hplain). cbv zeta in Hidle.
  destruct Hidle as (Ha & Hmd & Hs).
  repeat split; try assumption.
  destruct Hs as [Hs|Hs].
  - unfold ledger. now rewrite Hs.
  - rewrite Hledger. apply ledger_written; [|exact Hs].
    cbn [sync_archive set_sync_archive set_remove_list set_ytdl_opts].
    assumption.
Qed.

(** The download records a completed [sync] leaves hold no carriage
    return. *)
Lemma completed_sync_records_plain (self self' : YoutubeSync) (w w' : world) :
  valid_dir self = true ->
  fst (sync fetcher str_format fnmatch self w) = (Ok self', w') ->
  forall text, w_archive_file w' = Some text -> no_cr text = true.
Proof.
  intros Hdir Hsync text Htext.
  destruct (sync_ok_inv _ _ _ _ _ _ _ Hdir Hsync)
    as (m & es & sa & title & text0 & _ & _ & _ & _ & _ & _ & Hrest).
  cbv zeta in Hrest. destruct Hrest as (_ & _ & Harch & _).
  rewrite Harch in Htext. injection Htext as <-.
  apply no_cr_concat_lines, lines_ok_filter, readlines_ok.
Qed.

(** C2, as the code has it: two runs in a row.  The first run completes
    and leaves the folder [w]; the second run starts from the ledger of
    [w].  When the fetch of the second run downloads nothing new (it
    leaves the download records and the media files untouched, and every
    entry its metadata lists is in the ledger under its title with its
    id) and every recorded id is out of the working set (no line of the
    download records carries the id of a title left in the working
    set), the second run leaves the ledger mapping, the download records
    and the media files as they were. *)
Theorem second_sync_with_nothing_new_is_idle
    (first first' self : YoutubeSync) (w0 w : world) :
  valid_dir first = true ->
  fst (sync fetcher str_format fnmatch first w0) = (Ok first', w) ->
  valid_dir self = true ->
  ledger w = Ok (sync_archive self) ->
  fr_archive_file (fetch fetcher self w) = w_archive_file w ->
  fr_media (fetch fetcher self w) = w_media w ->
  (forall text line x,
      w_archive_file w = Some text ->
      In line (readlines text) ->
      line_id line = Some x ->
      ~ In x (values (working_set (fr_log (fetch fetcher self w))
                                  (remove_list self)))) ->
  (forall m es e,
      fr_meta (fetch fetcher self w) = Some m ->
      m_entries m = Some es ->
      In (Some e) es ->
      dict_get (e_title e) (sync_archive self) = Some (e_id e)) ->
  ledger (final (sync fetcher str_format fnmatch self w)) = ledger w /\
  w_archive_file (final (sync fetcher str_format fnmatch self w))
    = w_archive_file w /\
  w_media (final (sync fetcher str_format fnmatch self w)) = w_media w.
Proof.
  intros Hdir0 Hfirst Hdir Hledger Harch Hmedia Hws Hentries.
  apply sync_idle; try assumption.
  exact (completed_sync_records_plain first first' w0 w Hdir0 Hfirst).
Qed.

End Idle.

Lemma new_song_object_new :
  YoutubeSync_new new_song = (Ok new_song_object, new_song, []).
Proof. vm_compute. reflexivity. Qed.

Lemma old_song_run :
  run mix_new None true old_song
  = (Ok tt, new_song,
     ["<DEBUG> [download] Destination: ./Mix/Song.m4a";
      "Removing song: Song"]).
Proof. vm_compute. reflexivity. Qed.

Lemma old_title_object_new :
  YoutubeSync_new old_title = (Ok old_title_object, old_title, []).
Proof. vm_compute. reflexivity. Qed.

(** C2, as stated, fails, in two ways.

    The playlist holds one video, [id1], now titled "New title"; the
    folder was synchronised when it was titled "Old title".  The first
    run finds the video recorded, and removes the old title with its
    record and its file.  The second run, the playlist being the same,
    finds no record of the video and downloads it: the ledger, the
    download records and the media files, all empty before the second
    run, hold the video after it.

    The playlist holds one video whose title spans two lines.  The first
    run downloads it.  The fetch of the second run reports it as already
    recorded and downloads nothing, but the pattern of the logger does
    not match a message with a newline in the title: the title stays in
    the working set and the second run removes it, with its record and
    its file. *)
Lemma second_sync_changes_the_folder :
  (run mix_renamed None true old_title
     = (Ok tt, no_songs,
        ["<DEBUG> [download] New title has already been recorded in archive";
         "Removing song: Old title"]) /\
   result (run mix_renamed None true no_songs) = Ok tt /\
   (ledger no_songs = Ok [] /\
    ledger (final (run mix_renamed None true no_songs))
      = Ok [("New title", "id1")]) /\
   (w_archive_file no_songs = Some EmptyString /\
    w_archive_file (final (run mix_renamed None true no_songs))
      = Some (record_line "id1")) /\
   (w_media no_songs = [] /\
    w_media (final (run mix_renamed None true no_songs))
      = ["./Mix/New title.m4a"]))
  /\
  (result (run mix_two_lines None true no_songs) = Ok tt /\
   final (run mix_two_lines None true no_songs) = two_lines_song /\
   YoutubeSync_new two_lines_song
     = (Ok two_lines_object, two_lines_song, []) /\
   fetch_run mix_two_lines two_lines_object two_lines_song
     = mkFetch
         [LDebug ("[download] " ++ two_lines ++ recorded_suffix)]
         (w_archive_file two_lines_song) (w_media two_lines_song)
         (Some (mkMeta (Some (literal "playlist"))
                  (Some (computed "YoutubePlaylist"))
                  (Some []) (Some "Mix"))) /\
   result (run mix_two_lines None true two_lines_song) = Ok tt /\
   (ledger two_lines_song = Ok [(two_lines, "id1")] /\
    ledger (final (run mix_two_lines None true two_lines_song)) = Ok []) /\
   (w_archive_file two_lines_song = Some (record_line "id1") /\
    w_archive_file (final (run mix_two_lines None true two_lines_song))
      = Some EmptyString) /\
   (w_media two_lines_song = ["./Mix/" ++ two_lines ++ ".m4a"] /\
    w_media (final (run mix_two_lines None true two_lines_song)) = [])).
Proof. repeat split; vm_compute; reflexivity. Qed.

(** "Song B" has no record: it stays in the working set and in the
    ledger, run after run. *)
Lemma second_sync_with_nothing_new_is_idle_witness :
  ledger (final (sync_run mix_A two_songs_object missing_record))
    = ledger missing_record /\
  w_archive_file (final (sync_run mix_A two_songs_object missing_record))
    = w_archive_file missing_record /\
  w_media (final (sync_run mix_A two_songs_object missing_record))
    = w_media missing_record.
Proof.
  eapply (second_sync_with_nothing_new_is_idle (playlist_fetcher mix_A)
            percent_format wild_match two_songs_object _ two_songs_object
            missing_record missing_record).
  - reflexivity.
  - vm_compute. reflexivity.
  - reflexivity.
  - vm_compute. reflexivity.
  - vm_compute. reflexivity.
  - vm_compute. reflexivity.
  - intros text line x Htext Hline Hx.
    injection Htext as <-. vm_compute in Hline.
    destruct Hline as [<-|[]]. vm_compute in Hx. injection Hx as <-.
    vm_compute. intros [H|[]]. discriminate.
  - intros m es e Hm Hes He.
    assert (Hm' : fr_meta (fetch (playlist_fetcher mix_A) two_songs_object
                                 missing_record)
                  = Some (mkMeta (Some (literal "playlist"))
                            (Some (computed "YoutubePlaylist"))
                            (Some []) (Some "Mix")))
      by (vm_compute; reflexivity).
    rewrite Hm' in Hm. injection Hm as <-. cbn in Hes. injection Hes as <-.
    destruct He.
Defined.

(* ================================================================== *)
(** ** The logger and the working set *)

Lemma match_title_message (T : string) :
  no_nl T = true -> match_title (T ++ recorded_suffix) = Some T.
Proof.
  induction T as [|c T IH]; intros Hnl; [vm_compute; reflexivity|].
  cbn [no_nl] in Hnl. apply andb_true_iff in Hnl. destruct Hnl as [Hc Hnl].
  apply negb_true_iff in Hc.
  change (String c T ++ recorded_suffix) with (String c (T ++ recorded_suffix)).
  cbn [match_title]. rewrite Hc, (IH Hnl). reflexivity.
Qed.

(** The message the fetcher logs for a recorded entry names its title. *)
Lemma recorded_title_message (T : string) :
  no_nl T = true ->
  recorded_title ("[download] " ++ T ++ recorded_suffix) = Some T.
Proof. intros Hnl. unfold recorded_title. cbn. now apply match_title_message. Qed.

Lemma dict_get_pop_none {V} (k T : string) (d : dict V) :
  dict_get T d = None -> dict_get T (dict_pop k d) = None.
Proof.
  rewrite !dict_get_none. intros Hnot Hin. apply Hnot.
  now apply (keys_pop_incl k d).
Qed.

Lemma working_set_nodup (log : list log_event) :
  forall songs, NoDup (keys songs) -> NoDup (keys (working_set log songs)).
Proof.
  unfold working_set.
  induction log as [|ev log IH]; intros songs Hnd; [assumption|].
  rewrite run_logger_snd. unfold working_set.
  destruct ev as [msg|msg|msg]; cbn [run_logger].
  - unfold debug. destruct (recorded_title msg) as [t|];
      match goal with
      | |- context [run_logger ?a ?b ?c] =>
          pose proof (IH c) as IH'; destruct (run_logger a b c) as [? ?]
      end; cbn [snd] in *; apply IH'; auto using nodup_pop.
  - match goal with
    | |- context [run_logger ?a ?b ?c] =>
        pose proof (IH c) as IH'; destruct (run_logger a b c) as [? ?]
    end; cbn [snd] in *; now apply IH'.
  - match goal with
    | |- context [run_logger ?a ?b ?c] =>
        pose proof (IH c) as IH'; destruct (run_logger a b c) as [? ?]
    end; cbn [snd] in *; now apply IH'.
Qed.

Lemma working_set_cons_debug (msg : string) (log : list log_event)
    (songs : dict string) :
  working_set (LDebug msg :: log) songs =
  working_set log (match recorded_title msg with
                   | Some t => dict_pop t songs
                   | None => songs
                   end).
Proof.
  unfold working_set. cbn [run_logger]. unfold debug.
  destruct (recorded_title msg) as [t|];
    match goal with
    | |- context [run_logger ?a ?b ?c] => destruct (run_logger a b c) as [? ?]
    end; reflexivity.
Qed.

Lemma working_set_cons_other (ev : log_event) (log : list log_event)
    (songs : dict string) :
  (forall msg, ev <> LDebug msg) ->
  working_set (ev :: log) songs = working_set log songs.
Proof.
  unfold working_set. intros Hev. destruct ev as [msg|msg|msg];
    [now contradiction (Hev msg)| |]; cbn [run_logger];
    match goal with
    | |- context [run_logger ?a ?b ?c] => destruct (run_logger a b c) as [? ?]
    end; reflexivity.
Qed.

Lemma working_set_keeps_none (T : string) (log : list log_event) :
  forall songs, dict_get T songs = None ->
                dict_get T (working_set log songs) = None.
Proof.
  induction log as [|ev log IH]; intros songs Hnone; [assumption|].
  destruct ev as [msg|msg|msg].
  - rewrite working_set_cons_debug. apply IH.
    destruct (recorded_title msg); [now apply dict_get_pop_none | assumption].
  - rewrite working_set_cons_other by discriminate. now apply IH.
  - rewrite working_set_cons_other by discriminate. now apply IH.
Qed.

(** X3: a title the fetcher reported as already recorded, in a message
    naming it, is out of the working set once the fetch is over, whatever
    else was logged before or after; the title holds no newline. *)
Lemma reported_title_leaves_working_set (T : string) (log : list log_event) :
  forall songs,
    NoDup (keys songs) ->
    no_nl T = true ->
    In (LDebug ("[download] " ++ T ++ recorded_suffix)) log ->
    dict_get T (working_set log songs) = None.
Proof.
  induction log as [|ev log IH]; intros songs Hnd Hnl Hin; [destruct Hin|].
  destruct Hin as [->|Hin].
  - rewrite working_set_cons_debug, recorded_title_message by assumption.
    apply working_set_keeps_none. now apply dict_get_pop_same.
  - destruct ev as [msg|msg|msg].
    + rewrite working_set_cons_debug. apply IH; try assumption.
      destruct (recorded_title msg); auto using nodup_pop.
    + rewrite working_set_cons_other by discriminate. now apply IH.
    + rewrite working_set_cons_other by discriminate. now apply IH.
Qed.

(* ================================================================== *)
(** ** The objects the script builds *)

(** X5: [YoutubeSync()] reads the folder without changing it and prints
    nothing; [valid_dir] tells whether [.sync] exists, the ledger it loads
    is the one of the ledger file, without repeated title, and the
    working set starts as its copy. *)
Lemma YoutubeSync_new_ok (w w' : world) (self : YoutubeSync)
    (out : list string) :
  YoutubeSync_new w = (Ok self, w', out) ->
  w' = w /\ out = [] /\
  valid_dir self = w_config_dir w /\
  ledger w = Ok (sync_archive self) /\
  NoDup (keys (sync_archive self)) /\
  remove_list self = sync_archive self.
Proof.
  unfold YoutubeSync_new, bind, get_world, lift, ret, load_json, json_load_doc.
  intros H.
  assert (Hl : exists d, ledger w = Ok d /\
                         self = mkYoutubeSync (w_config_dir w)
                                  (archive_file self) (sync_config self)
                                  (ytdl_opts self) d d (quiet self)
                         /\ w' = w /\ out = []).
  { unfold ledger, load_json.
    destruct (w_config_file w); destruct (w_ytdl_opts_file w);
      destruct (w_sync_file w) as [text|];
      try destruct (json_load_ledger text) as [led|];
      cbv beta iota zeta in H; cbn [app] in H; try discriminate;
      injection H as <- <- <-; eexists; repeat split. }
  destruct Hl as (d & Hd & Hself & -> & ->).
  rewrite Hself. cbn [valid_dir sync_archive remove_list].
  repeat split; auto. eapply ledger_nodup; eassumption.
Qed.

(** X9: [init] leaves the ledger, the working set and [valid_dir] of
    the object as they are, also when it has just created [.sync], and
    does not write the ledger file. *)
Lemma init_keeps_ledger (link : string) (self self' : YoutubeSync)
    (w w' : world) (out : list string) :
  init link self w = (Ok self', w', out) ->
  sync_archive self' = sync_archive self /\
  remove_list self' = remove_list self /\
  valid_dir self' = valid_dir self /\
  w_sync_file w' = w_sync_file w.
Proof.
  unfold init, makedirs.
  unfold bind, get_world, put_world, print, ret, raise, write_json.
  cbn [set_sync_config valid_dir sync_config ytdl_opts].
  intros H.
  destruct (valid_dir self) eqn:Hv; cbn [negb] in H;
    [|destruct (w_config_dir w); [discriminate|]];
    cbn [w_config_file set_config_dir] in H;
    destruct (w_config_file w);
    cbn [w_ytdl_opts_file set_config_file set_config_dir] in H;
    destruct (w_ytdl_opts_file w);
    injection H as <- <- _; repeat split; exact Hv.
Qed.

(* ================================================================== *)
(** * Further properties of the script *)

(** ** The logger *)

Lemma strip_prefix_some (p s r : string) :
  strip_prefix p s = Some r -> s = p ++ r.
Proof.
  revert s. induction p as [|a p IH]; intros s H; cbn in H.
  - now injection H as ->.
  - destruct s as [|b s]; [discriminate|].
    destruct (Ascii.eqb_spec a b) as [->|]; [|discriminate].
    cbn. f_equal. now apply IH.
Qed.

Lemma match_title_sound (s t : string) :
  match_title s = Some t ->
  no_nl t = true /\ exists rest, s = t ++ recorded_suffix ++ rest.
Proof.
  revert t. induction s as [|c s IH]; intros t H; [discriminate|].
  cbn [match_title] in H.
  destruct (Ascii.eqb c nl) eqn:Hc.
  - destruct (strip_prefix recorded_suffix (String c s)) as [r|] eqn:Hr;
      [|discriminate].
    injection H as <-. split; [reflexivity|].
    apply strip_prefix_some in Hr. exists r. exact Hr.
  - destruct (match_title s) as [t'|] eqn:Ht'.
    + injection H as <-. destruct (IH t' eq_refl) as [Hnl [rest ->]].
      split; [cbn [no_nl]; now rewrite Hc, Hnl | exists rest; reflexivity].
    + destruct (strip_prefix recorded_suffix (String c s)) as [r|] eqn:Hr;
        [|discriminate].
      injection H as <-. split; [reflexivity|].
      apply strip_prefix_some in Hr. exists r. exact Hr.
Qed.

(** X1: [debug] takes a title out of a message only when the message is
    the prefix [download], the title, the phrase of [recorded_suffix] and
    any rest, and the title it takes holds no newline. *)
Theorem recorded_title_sound (msg t : string) :
  recorded_title msg = Some t ->
  no_nl t = true /\
  exists rest, msg = "[download] " ++ t ++ recorded_suffix ++ rest.
Proof.
  unfold recorded_title. intros H.
  destruct (strip_prefix "[download] " msg) as [r|] eqn:Hr; [|discriminate].
  apply strip_prefix_some in Hr. apply match_title_sound in H.
  destruct H as [Hnl [rest ->]]. split; [assumption|].
  exists rest. exact Hr.
Qed.

Lemma recorded_title_sound_witness :
  no_nl "Song A" = true /\
  exists rest,
    "[download] Song A has already been recorded in archive"
    = "[download] " ++ "Song A" ++ recorded_suffix ++ rest.
Proof.
  apply (recorded_title_sound
           "[download] Song A has already been recorded in archive" "Song A").
  reflexivity.
Defined.

Lemma dict_get_pop_some {V} (k T : string) (v : V) (d : dict V) :
  NoDup (keys d) ->
  dict_get T (dict_pop k d) = Some v -> dict_get T d = Some v.
Proof.
  intros Hnd H. destruct (String.eqb_spec T k) as [->|Hne].
  - rewrite dict_get_pop_same in H by assumption. discriminate.
  - now rewrite dict_get_pop_other in H.
Qed.

(** X2: the logger only prunes: a title left in the working set after
    the fetch was a candidate before it, with the same id. *)
Theorem working_set_only_shrinks (log : list log_event) :
  forall (songs : dict string) (T x : string),
    NoDup (keys songs) ->
    dict_get T (working_set log songs) = Some x ->
    dict_get T songs = Some x.
Proof.
  induction log as [|ev log IH]; intros songs T x Hnd H; [assumption|].
  destruct ev as [msg|msg|msg].
  - rewrite working_set_cons_debug in H.
    destruct (recorded_title msg) as [t|]; [|now apply IH].
    apply IH in H; [|now apply nodup_pop].
    eapply dict_get_pop_some; eassumption.
  - rewrite working_set_cons_other in H by discriminate. now apply IH.
  - rewrite working_set_cons_other in H by discriminate. now apply IH.
Qed.

Lemma working_set_only_shrinks_witness :
  dict_get "Song B" [("Song A", "id1"); ("Song B", "id2")] = Some "id2".
Proof.
  apply (working_set_only_shrinks
           [LDebug "[download] Song A has already been recorded in archive"]
           [("Song A", "id1"); ("Song B", "id2")] "Song B" "id2").
  - nodup_strings.
  - reflexivity.
Defined.

Lemma reported_title_leaves_working_set_witness :
  dict_get "Song A"
    (working_set
       [LDebug "[download] Destination: ./Mix/Song C.m4a";
        LDebug ("[download] " ++ "Song A" ++ recorded_suffix)]
       [("Song A", "id1"); ("Song B", "id2")]) = None.
Proof.
  apply (reported_title_leaves_working_set "Song A").
  - nodup_strings.
  - reflexivity.
  - right. left. reflexivity.
Defined.

(* ================================================================== *)
(** ** [YoutubeSync.__init__] *)

Lemma YoutubeSync_new_ok_witness :
  two_songs = two_songs /\ @nil string = [] /\
  valid_dir two_songs_object = w_config_dir two_songs /\
  ledger two_songs = Ok (sync_archive two_songs_object) /\
  NoDup (keys (sync_archive two_songs_object)) /\
  remove_list two_songs_object = sync_archive two_songs_object.
Proof.
  apply (YoutubeSync_new_ok two_songs two_songs two_songs_object []).
  vm_compute. reflexivity.
Defined.

Lemma YoutubeSync_new_fields (w w' : world) (self : YoutubeSync)
    (out : list string) (cfg opts : dict pyval) :
  w_config_file w = Some cfg ->
  w_ytdl_opts_file w = Some opts ->
  YoutubeSync_new w = (Ok self, w', out) ->
  sync_config self = cfg /\
  ytdl_opts self =
    (if negb (is_None (dict_get_default "quiet" PNone opts))
     then dict_pop "quiet" opts else opts) /\
  quiet self =
    dict_get_default "quiet"
      (if is_None (dict_get_default "quiet" PNone opts)
       then PBool false else dict_get_default "quiet" PNone opts) cfg.
Proof.
  intros Hc Ho.
  unfold YoutubeSync_new, bind, get_world, lift, ret, load_json, json_load_doc.
  rewrite Hc, Ho.
  destruct (w_sync_file w) as [text|];
    try destruct (json_load_ledger text) as [led|];
    cbv beta iota zeta; try discriminate;
    intros [= <- _ _]; repeat split.
Qed.

(** X6: how [quiet] is settled when both configuration files exist.  A
    [quiet] entry of the sync configuration wins; otherwise a [quiet]
    entry of the fetcher options that is not null is taken; otherwise the
    flag is [False].  A [quiet] entry of the fetcher options that is not
    null is taken out of the options kept for the fetcher. *)
Theorem quiet_precedence (w w' : world) (self : YoutubeSync)
    (out : list string) (cfg opts : dict pyval) :
  w_config_file w = Some cfg ->
  w_ytdl_opts_file w = Some opts ->
  NoDup (keys opts) ->
  YoutubeSync_new w = (Ok self, w', out) ->
  (forall v, dict_get "quiet" cfg = Some v -> quiet self = v) /\
  (forall v, dict_get "quiet" cfg = None ->
             dict_get "quiet" opts = Some v -> v <> PNone ->
             quiet self = v) /\
  (dict_get "quiet" cfg = None ->
   dict_get "quiet" opts = None \/ dict_get "quiet" opts = Some PNone ->
   quiet self = PBool false) /\
  (forall v, dict_get "quiet" opts = Some v -> v <> PNone ->
             dict_get "quiet" (ytdl_opts self) = None) /\
  (forall k, k <> "quiet" ->
             dict_get k (ytdl_opts self) = dict_get k opts).
Proof.
  intros Hc Ho Hnd Hnew.
  destruct (YoutubeSync_new_fields _ _ _ _ _ _ Hc Ho Hnew) as (_ & Hopts & Hq).
  rewrite Hq, Hopts. unfold dict_get_default.
  repeat split.
  - intros v ->. reflexivity.
  - intros v -> -> Hv. destruct v; [congruence| | |]; reflexivity.
  - intros -> [-> | ->]; reflexivity.
  - intros v -> Hv. destruct v; [congruence| | |]; cbn [is_None negb];
      now apply dict_get_pop_same.
  - intros k Hk. destruct (dict_get "quiet" opts) as [[| | |]|];
      cbn [is_None negb]; try reflexivity;
      now apply dict_get_pop_other.
Qed.

Lemma quiet_precedence_witness :
  (forall v, dict_get "quiet" [("playlist_link", PStr "L")] = Some v ->
             quiet (mkYoutubeSync true "/music/.sync/archive.txt"
                      [("playlist_link", PStr "L")]
                      [("format", PStr "m4a")] [] [] (PBool true)) = v) /\
  (forall v, dict_get "quiet" [("playlist_link", PStr "L")] = None ->
             dict_get "quiet" [("quiet", PBool true); ("format", PStr "m4a")]
               = Some v -> v <> PNone ->
             quiet (mkYoutubeSync true "/music/.sync/archive.txt"
                      [("playlist_link", PStr "L")]
                      [("format", PStr "m4a")] [] [] (PBool true)) = v) /\
  (dict_get "quiet" [("playlist_link", PStr "L")] = None ->
   dict_get "quiet" [("quiet", PBool true); ("format", PStr "m4a")] = None \/
   dict_get "quiet" [("quiet", PBool true); ("format", PStr "m4a")]
     = Some PNone ->
   quiet (mkYoutubeSync true "/music/.sync/archive.txt"
            [("playlist_link", PStr "L")]
            [("format", PStr "m4a")] [] [] (PBool true)) = PBool false) /\
  (forall v, dict_get "quiet" [("quiet", PBool true); ("format", PStr "m4a")]
               = Some v -> v <> PNone ->
             dict_get "quiet"
               (ytdl_opts (mkYoutubeSync true "/music/.sync/archive.txt"
                             [("playlist_link", PStr "L")]
                             [("format", PStr "m4a")] [] [] (PBool true)))
             = None) /\
  (forall k, k <> "quiet" ->
             dict_get k
               (ytdl_opts (mkYoutubeSync true "/music/.sync/archive.txt"
                             [("playlist_link", PStr "L")]
                             [("format", PStr "m4a")] [] [] (PBool true)))
             = dict_get k [("quiet", PBool true); ("format", PStr "m4a")]).
Proof.
  apply (quiet_precedence
           (mkWorld "/music" true (Some [("playlist_link", PStr "L")])
              (Some [("quiet", PBool true); ("format", PStr "m4a")])
              None None [])
           (mkWorld "/music" true (Some [("playlist_link", PStr "L")])
              (Some [("quiet", PBool true); ("format", PStr "m4a")])
              None None [])
           (mkYoutubeSync true "/music/.sync/archive.txt"
              [("playlist_link", PStr "L")]
              [("format", PStr "m4a")] [] [] (PBool true))
           []
           [("playlist_link", PStr "L")]
           [("quiet", PBool true); ("format", PStr "m4a")]).
  - reflexivity.
  - reflexivity.
  - nodup_strings.
  - vm_compute. reflexivity.
Defined.

(* ================================================================== *)
(** ** [init] *)

Section InitExtras.

Variable fetcher : dict pyval -> pyval -> world -> fetch_result.
Variable str_format : string -> string -> string -> string -> format_result.
Variable fnmatch : string -> string -> bool.

(** X7: in a folder without [.sync], [init] creates the folder, writes
    the sync configuration with the link and the fetcher options of the
    object into the two files, and prints five lines; the ledger, the
    download records and the media files are not touched. *)
Theorem init_fresh_folder (link : string) (self : YoutubeSync) (w : world) :
  valid_dir self = false ->
  w_config_dir w = false ->
  w_config_file w = None ->
  w_ytdl_opts_file w = None ->
  init link self w =
  (Ok (set_sync_config
         (dict_set "playlist_link" (PStr link) (sync_config self)) self),
   mkWorld (w_cwd w) true
     (Some (dict_set "playlist_link" (PStr link) (sync_config self)))
     (Some (ytdl_opts self))
     (w_sync_file w) (w_archive_file w) (w_media w),
   ["Creating youtube-sync folder...";
    "Creating youtube-sync config file";
    "Creating youtube-dl config file";
    "Successfully initialized youtube-sync";
    "Run 'youtube-sync --sync' to sync this folder"]).
Proof.
  intros Hv Hd Hc Ho. unfold init, makedirs.
  unfold bind, get_world, put_world, print, ret, raise, write_json.
  cbn [set_sync_config valid_dir sync_config ytdl_opts].
  rewrite Hv. cbn [negb]. cbv beta. rewrite Hd.
  cbn [w_config_file set_config_dir].
  rewrite Hc. cbn [w_ytdl_opts_file set_config_file set_config_dir].
  rewrite Ho. reflexivity.
Qed.

(** X8: whatever the folder held, once [init] returns on an object whose
    [valid_dir] tells whether [.sync] exists, the folder is initialised:
    [.sync] exists and so do the two configuration files; a sync
    configuration written by this call holds the link; the ledger, the
    download records and the media files are as before. *)
Theorem init_initializes (link : string) (self self' : YoutubeSync)
    (w w' : world) (out : list string) :
  valid_dir self = w_config_dir w ->
  init link self w = (Ok self', w', out) ->
  w_config_dir w' = true /\
  (exists c, w_config_file w' = Some c /\
             (w_config_file w = None ->
              dict_get "playlist_link" c = Some (PStr link))) /\
  w_ytdl_opts_file w' <> None /\
  w_sync_file w' = w_sync_file w /\
  w_archive_file w' = w_archive_file w /\
  w_media w' = w_media w.
Proof.
  intros Hv. unfold init, makedirs.
  unfold bind, get_world, put_world, print, ret, raise, write_json.
  cbn [set_sync_config valid_dir sync_config ytdl_opts].
  rewrite Hv. intros H. cbv beta in H.
  destruct (w_config_dir w) eqn:Hd; cbn [negb] in H; cbv beta iota in H;
    rewrite ?Hd in H;
    cbn [w_config_file set_config_dir] in H;
    destruct (w_config_file w) as [c|] eqn:Hc;
    cbn [w_ytdl_opts_file set_config_file set_config_dir] in H;
    destruct (w_ytdl_opts_file w) as [o|] eqn:Ho;
    injection H as _ <- _;
    cbn [w_config_dir w_config_file w_ytdl_opts_file w_sync_file
         w_archive_file w_media set_config_dir set_config_file
         set_ytdl_opts_file];
    rewrite ?Hd, ?Hc, ?Ho;
    (split; [reflexivity|]);
    (split; [eexists; split; [reflexivity|];
             intros Hn; try discriminate; apply dict_get_set_same|]);
    (split; [discriminate|]); repeat split.
Qed.

(** X10: the link given to [init] is the one a [sync] of the same object
    fetches, and when it is not empty that [sync] never raises
    [NoPlaylistLink], whatever the stored configuration says. *)
Theorem init_link_reaches_sync (link : string) (self self' : YoutubeSync)
    (w w' : world) (out : list string) :
  init link self w = (Ok self', w', out) ->
  link <> EmptyString ->
  sync_link self' = PStr link /\
  forall w2,
    result (sync fetcher str_format fnmatch self' w2) <> Raise NoPlaylistLink.
Proof.
  intros Hinit Hne.
  assert (Hself : self' =
            set_sync_config
              (dict_set "playlist_link" (PStr link) (sync_config self)) self).
  { revert Hinit. unfold init, makedirs.
    unfold bind, get_world, put_world, print, ret, raise, write_json.
    cbn [set_sync_config valid_dir sync_config ytdl_opts].
    destruct (valid_dir self); cbn [negb];
      [|destruct (w_config_dir w); [discriminate|]];
      cbn [w_config_file set_config_dir];
      destruct (w_config_file w);
      cbn [w_ytdl_opts_file set_config_file set_config_dir];
      destruct (w_ytdl_opts_file w);
      intros [= <- _ _]; reflexivity. }
  assert (Hlink : sync_link self' = PStr link).
  { subst self'. unfold sync_link, dict_get_default.
    cbn [sync_config set_sync_config]. now rewrite dict_get_set_same. }
  split; [assumption|]. intros w2 Hr. unfold result in Hr.
  assert (Ht : truthy (sync_link self') = true).
  { rewrite Hlink. cbn. apply negb_true_iff. now apply String.eqb_neq. }
  destruct (valid_dir self') eqn:Hdir.
  - rewrite (sync_eq fetcher str_format fnmatch self' w2 Hdir Ht) in Hr.
    destruct (fr_meta (fetch fetcher self' w2)) as [m|]; [|discriminate].
    destruct (negb _ && negb _); [discriminate|].
    destruct (fst (reconcile _ _ _ _ _)) as [[s|e] w3] eqn:Hrec;
      [discriminate|].
    apply reconcile_exn in Hrec. cbn [fst] in Hr. injection Hr as ->.
    unfold update_exn in Hrec. intuition discriminate.
  - unfold sync in Hr. rewrite Hdir in Hr. discriminate.
Qed.

(** X11: [--init LINK --sync] in a folder without [.sync] and without
    files of the tool initialises the folder and then declines to sync:
    [valid_dir] was computed before [init] created the folder.  The run
    ends normally, the fetcher is not run, and the folder is left as
    [--init LINK] alone leaves it. *)
Theorem init_then_sync_fresh_folder (link : string) (w : world) :
  w_config_dir w = false ->
  w_config_file w = None ->
  w_ytdl_opts_file w = None ->
  w_sync_file w = None ->
  main fetcher str_format fnmatch (Some link) true w =
  (Ok tt,
   mkWorld (w_cwd w) true
     (Some [("playlist_link", PStr link)])
     (Some ytdl_default_opts)
     (w_sync_file w) (w_archive_file w) (w_media w),
   ["Creating youtube-sync folder...";
    "Creating youtube-sync config file";
    "Creating youtube-dl config file";
    "Successfully initialized youtube-sync";
    "Run 'youtube-sync --sync' to sync this folder";
    "Cannot sync to an invalid dir";
    "Try running 'youtube-sync --init'"]) /\
  fst (main fetcher str_format fnmatch (Some link) true w)
  = fst (main fetcher str_format fnmatch (Some link) false w).
Proof.
  intros Hd Hc Ho Hs. destruct w as [cwd dir cfg opts sf af md].
  cbn in Hd, Hc, Ho, Hs. subst. split; reflexivity.
Qed.

End InitExtras.

Lemma init_fresh_folder_witness :
  init "https://yt/playlist?list=PL1"
       (mkYoutubeSync false "/music/.sync/archive.txt" [] ytdl_default_opts
                      [] [] (PBool false))
       empty_folder =
  (Ok (mkYoutubeSync false "/music/.sync/archive.txt"
         [("playlist_link", PStr "https://yt/playlist?list=PL1")]
         ytdl_default_opts [] [] (PBool false)),
   mkWorld "/music" true
     (Some [("playlist_link", PStr "https://yt/playlist?list=PL1")])
     (Some ytdl_default_opts) None None [],
   ["Creating youtube-sync folder...";
    "Creating youtube-sync config file";
    "Creating youtube-dl config file";
    "Successfully initialized youtube-sync";
    "Run 'youtube-sync --sync' to sync this folder"]).
Proof.
  apply (init_fresh_folder "https://yt/playlist?list=PL1"
           (mkYoutubeSync false "/music/.sync/archive.txt" []
              ytdl_default_opts [] [] (PBool false))
           empty_folder); reflexivity.
Defined.

Lemma init_initializes_witness :
  w_config_dir (mkWorld "/music" true
     (Some [("playlist_link", PStr "https://yt/playlist?list=PL1")])
     (Some ytdl_default_opts) None None []) = true /\
  (exists c,
      w_config_file (mkWorld "/music" true
        (Some [("playlist_link", PStr "https://yt/playlist?list=PL1")])
        (Some ytdl_default_opts) None None []) = Some c /\
      (w_config_file empty_folder = None ->
       dict_get "playlist_link" c
       = Some (PStr "https://yt/playlist?list=PL1"))) /\
  w_ytdl_opts_file (mkWorld "/music" true
     (Some [("playlist_link", PStr "https://yt/playlist?list=PL1")])
     (Some ytdl_default_opts) None None []) <> None /\
  w_sync_file (mkWorld "/music" true
     (Some [("playlist_link", PStr "https://yt/playlist?list=PL1")])
     (Some ytdl_default_opts) None None []) = w_sync_file empty_folder /\
  w_archive_file (mkWorld "/music" true
     (Some [("playlist_link", PStr "https://yt/playlist?list=PL1")])
     (Some ytdl_default_opts) None None []) = w_archive_file empty_folder /\
  w_media (mkWorld "/music" true
     (Some [("playlist_link", PStr "https://yt/playlist?list=PL1")])
     (Some ytdl_default_opts) None None []) = w_media empty_folder.
Proof.
  eapply (init_initializes "https://yt/playlist?list=PL1"
            (mkYoutubeSync false "/music/.sync/archive.txt" []
               ytdl_default_opts [] [] (PBool false))
            _ empty_folder).
  - reflexivity.
  - vm_compute. reflexivity.
Defined.

Lemma init_link_reaches_sync_witness :
  sync_link (set_sync_config
               [("playlist_link", PStr "https://yt/playlist?list=PL2")]
               two_songs_object)
  = PStr "https://yt/playlist?list=PL2" /\
  forall w2,
    result (sync (playlist_fetcher mix_A) percent_format wild_match
              (set_sync_config
                 [("playlist_link", PStr "https://yt/playlist?list=PL2")]
                 two_songs_object) w2) <> Raise NoPlaylistLink.
Proof.
  eapply (init_link_reaches_sync (playlist_fetcher mix_A) percent_format
            wild_match "https://yt/playlist?list=PL2" two_songs_object
            _ two_songs).
  - vm_compute. reflexivity.
  - discriminate.
Defined.

Lemma init_then_sync_fresh_folder_witness :
  result (run mix_A (Some "https://yt/playlist?list=PL1") true empty_folder)
    = Ok tt /\
  w_media (final (run mix_A (Some "https://yt/playlist?list=PL1") true
                      empty_folder)) = [].
Proof.
  destruct (init_then_sync_fresh_folder (playlist_fetcher mix_A)
              percent_format wild_match "https://yt/playlist?list=PL1"
              empty_folder) as [Heq _]; try reflexivity.
  unfold run. rewrite Heq. split; reflexivity.
Defined.

(* ================================================================== *)
(** ** [sync] and [_update_files]: what they leave alone *)

Section SyncExtras.

Variable fetcher : dict pyval -> pyval -> world -> fetch_result.
Variable str_format : string -> string -> string -> string -> format_result.
Variable fnmatch : string -> string -> bool.

(** The parts of the folder [_update_files] leaves alone. *)
Lemma update_files_shape (pt : string) (self : YoutubeSync) (w : world) :
  w_cwd (snd (fst (_update_files str_format fnmatch pt self w))) = w_cwd w /\
  w_config_dir (snd (fst (_update_files str_format fnmatch pt self w)))
    = w_config_dir w /\
  w_config_file (snd (fst (_update_files str_format fnmatch pt self w)))
    = w_config_file w /\
  w_ytdl_opts_file (snd (fst (_update_files str_format fnmatch pt self w)))
    = w_ytdl_opts_file w /\
  incl (w_media (snd (fst (_update_files str_format fnmatch pt self w))))
       (w_media w) /\
  (forall e,
      fst (fst (_update_files str_format fnmatch pt self w)) = Raise e ->
      w_sync_file (snd (fst (_update_files str_format fnmatch pt self w)))
      = w_sync_file w).
Proof.
  rewrite update_files_eq.
  destruct (w_archive_file w) as [text|];
    [|cbn; repeat split; auto using incl_refl].
  cbv zeta. destruct (sc_ok _);
    [|cbn; repeat split; auto using incl_refl].
  destruct (fst (remove_songs _ _ _ _ _ _)) as [[s1|e1] w1] eqn:Hrs;
    apply remove_songs_frame in Hrs; destruct Hrs as (Hw1 & Hincl & _);
    rewrite Hw1; cbn; repeat split; auto; discriminate.
Qed.

Lemma sync_shape (self : YoutubeSync) (w : world) :
  valid_dir self = true ->
  truthy (sync_link self) = true ->
  w_cwd (final (sync fetcher str_format fnmatch self w)) = w_cwd w /\
  w_config_dir (final (sync fetcher str_format fnmatch self w))
    = w_config_dir w /\
  w_config_file (final (sync fetcher str_format fnmatch self w))
    = w_config_file w /\
  w_ytdl_opts_file (final (sync fetcher str_format fnmatch self w))
    = w_ytdl_opts_file w /\
  incl (w_media (final (sync fetcher str_format fnmatch self w)))
       (fr_media (fetch fetcher self w)) /\
  (forall e,
      result (sync fetcher str_format fnmatch self w) = Raise e ->
      w_sync_file (final (sync fetcher str_format fnmatch self w))
      = w_sync_file w).
Proof.
  intros Hdir Hlink. unfold final, result.
  rewrite (sync_eq fetcher str_format fnmatch self w Hdir Hlink).
  destruct (fr_meta (fetch fetcher self w)) as [m|];
    [|cbn; repeat split; auto using incl_refl].
  destruct (negb _ && negb _); [cbn; repeat split; auto using incl_refl|].
  rewrite reconcile_eq.
  destruct (m_entries m) as [es|];
    [|cbn; repeat split; auto using incl_refl].
  destruct (add_entries es _) as [sa|e];
    [|cbn; repeat split; auto using incl_refl].
  destruct (m_title m) as [title|];
    [|cbn; repeat split; auto using incl_refl].
  match goal with
  | |- context [_update_files _ _ ?pt ?s ?w0] =>
      pose proof (update_files_shape pt s w0) as H
  end.
  cbn [fetched_world w_cwd w_config_dir w_config_file w_ytdl_opts_file
       w_sync_file w_media set_media set_archive_file] in H.
  exact H.
Qed.

(** X13: [sync] never writes the two configuration files and never
    creates or removes [.sync]: after any run, completed or not, they are
    as before. *)
Theorem sync_keeps_configuration (self : YoutubeSync) (w : world) :
  w_cwd (final (sync fetcher str_format fnmatch self w)) = w_cwd w /\
  w_config_dir (final (sync fetcher str_format fnmatch self w))
    = w_config_dir w /\
  w_config_file (final (sync fetcher str_format fnmatch self w))
    = w_config_file w /\
  w_ytdl_opts_file (final (sync fetcher str_format fnmatch self w))
    = w_ytdl_opts_file w.
Proof.
  destruct (valid_dir self) eqn:Hdir;
    [|unfold sync; rewrite Hdir; cbn; auto].
  destruct (truthy (sync_link self)) eqn:Hlink;
    [|rewrite sync_falsy_link by assumption; cbn; auto].
  destruct (sync_shape self w Hdir Hlink) as (H1 & H2 & H3 & H4 & _).
  auto.
Qed.

(** X14: the ledger file is written only by a [sync] that completes: when
    [sync] ends with an exception, whichever it is, the file is as it was
    before the run. *)
Theorem failed_sync_keeps_ledger_file (self : YoutubeSync) (w : world)
    (e : exn) :
  result (sync fetcher str_format fnmatch self w) = Raise e ->
  w_sync_file (final (sync fetcher str_format fnmatch self w))
  = w_sync_file w.
Proof.
  intros Hr. destruct (valid_dir self) eqn:Hdir;
    [|unfold sync; rewrite Hdir; reflexivity].
  destruct (truthy (sync_link self)) eqn:Hlink;
    [|rewrite sync_falsy_link by assumption; reflexivity].
  destruct (sync_shape self w Hdir Hlink) as (_ & _ & _ & _ & _ & H).
  now apply (H e).
Qed.

(** X15: [sync] creates no file of its own: once the fetch is over it only
    deletes, so every media file present after a run that got to the
    fetch is one the fetch left. *)
Theorem sync_only_deletes_media (self : YoutubeSync) (w : world) :
  valid_dir self = true ->
  truthy (sync_link self) = true ->
  incl (w_media (final (sync fetcher str_format fnmatch self w)))
       (fr_media (fetch fetcher self w)).
Proof.
  intros Hdir Hlink.
  destruct (sync_shape self w Hdir Hlink) as (_ & _ & _ & _ & H & _).
  exact H.
Qed.

End SyncExtras.

Lemma failed_sync_keeps_ledger_file_witness :
  w_sync_file (final (sync_run mix_A two_songs_object blank_line_records))
  = w_sync_file blank_line_records.
Proof.
  apply (failed_sync_keeps_ledger_file (playlist_fetcher mix_A)
           percent_format wild_match two_songs_object blank_line_records
           IndexError).
  vm_compute. reflexivity.
Defined.

Lemma sync_only_deletes_media_witness :
  incl (w_media (final (sync_run mix_A two_songs_object two_songs)))
       (fr_media (fetch_run mix_A two_songs_object two_songs)).
Proof.
  apply (sync_only_deletes_media (playlist_fetcher mix_A) percent_format
           wild_match two_songs_object two_songs); reflexivity.
Defined.

(* ================================================================== *)
(** ** [sync]: failures after the fetch *)

Section SyncFailures.

Variable fetcher : dict pyval -> pyval -> world -> fetch_result.
Variable str_format : string -> string -> string -> string -> format_result.
Variable fnmatch : string -> string -> bool.

(** X16: the playlist test comes after the download.  When the metadata
    is not that of a playlist (its [_type] is not the text [playlist] and
    its extractor key is not the text [YoutubePlaylist]), [sync] ends
    with [NotYoutubePlaylist] in a folder that already holds what the
    fetch recorded and downloaded; the ledger file is not written. *)
Theorem not_playlist_is_found_after_download
    (self : YoutubeSync) (w : world) (m : meta) :
  valid_dir self = true ->
  truthy (sync_link self) = true ->
  fr_meta (fetch fetcher self w) = Some m ->
  py_eq (m_type m) "playlist" = false ->
  py_eq (m_extractor_key m) "YoutubePlaylist" = false ->
  fst (sync fetcher str_format fnmatch self w)
  = (Raise NotYoutubePlaylist,
     mkWorld (w_cwd w) (w_config_dir w) (w_config_file w) (w_ytdl_opts_file w)
       (w_sync_file w)
       (fr_archive_file (fetch fetcher self w))
       (fr_media (fetch fetcher self w))).
Proof.
  intros Hdir Hlink Hm Ht Hk.
  rewrite (sync_eq fetcher str_format fnmatch self w Hdir Hlink), Hm.
  apply py_eq_false_is in Ht. apply py_eq_false_is in Hk. rewrite Ht, Hk.
  reflexivity.
Qed.

(** X17: what [sync] does with metadata it cannot use.  When the fetch
    hands back [None], [sync] ends with [AttributeError]; when the
    metadata passes the playlist test of line 127 (its [_type] or its
    extractor key is the literal object) and has no [entries], or one of
    its entries is [None], with [TypeError]; when it has no [title], with
    [KeyError].  In each case the folder is as the fetch left it. *)
Theorem sync_unusable_metadata (self : YoutubeSync) (w : world) :
  valid_dir self = true ->
  truthy (sync_link self) = true ->
  (fr_meta (fetch fetcher self w) = None ->
   fst (sync fetcher str_format fnmatch self w)
   = (Raise AttributeError, fetched_world (fetch fetcher self w) w)) /\
  (forall m,
      fr_meta (fetch fetcher self w) = Some m ->
      py_is (m_type m) "playlist" = true \/
      py_is (m_extractor_key m) "YoutubePlaylist" = true ->
      (m_entries m = None ->
       fst (sync fetcher str_format fnmatch self w)
       = (Raise TypeError, fetched_world (fetch fetcher self w) w)) /\
      (forall es, m_entries m = Some es -> In None es ->
       fst (sync fetcher str_format fnmatch self w)
       = (Raise TypeError, fetched_world (fetch fetcher self w) w)) /\
      (forall es, m_entries m = Some es -> ~ In None es ->
       m_title m = None ->
       fst (sync fetcher str_format fnmatch self w)
       = (Raise KeyError, fetched_world (fetch fetcher self w) w))).
Proof.
  intros Hdir Hlink.
  rewrite (sync_eq fetcher str_format fnmatch self w Hdir Hlink).
  split; [intros ->; reflexivity|].
  intros m Hm Hpl. rewrite Hm.
  assert (Htest : negb (py_is (m_type m) "playlist")
                  && negb (py_is (m_extractor_key m) "YoutubePlaylist")
                  = false).
  { destruct Hpl as [H|H]; rewrite H; cbn; auto using andb_false_r. }
  rewrite Htest, reconcile_eq.
  cbn [sync_archive set_remove_list set_ytdl_opts].
  split; [intros ->; reflexivity|]. split.
  - intros es -> Hnone.
    assert (Hadd : forall sa, add_entries es sa = Raise TypeError).
    { clear - Hnone. induction es as [|[e|] es IH]; intros sa.
      - destruct Hnone.
      - cbn. apply IH. destruct Hnone as [H|H]; [discriminate | assumption].
      - reflexivity. }
    now rewrite Hadd.
  - intros es -> Hsome ->.
    assert (Hadd : forall sa, exists sa', add_entries es sa = Ok sa').
    { clear - Hsome. induction es as [|[e|] es IH]; intros sa.
      - eexists; reflexivity.
      - cbn. apply IH. intros H. apply Hsome. now right.
      - exfalso. apply Hsome. now left. }
    destruct (Hadd (sync_archive self)) as [sa' ->]. reflexivity.
Qed.

(** X18: when no download records exist once the fetch is over (nothing
    was ever downloaded), a [sync] whose metadata passes the playlist
    test of line 127 and carries its entries and its title ends with
    [FileNotFoundError] at the opening of the records; the ledger file is
    not written. *)
Theorem sync_without_records_file
    (self : YoutubeSync) (w : world) (m : meta) (es : list (option entry))
    (title : string) :
  valid_dir self = true ->
  truthy (sync_link self) = true ->
  fr_meta (fetch fetcher self w) = Some m ->
  py_is (m_type m) "playlist" = true \/
  py_is (m_extractor_key m) "YoutubePlaylist" = true ->
  m_entries m = Some es ->
  ~ In None es ->
  m_title m = Some title ->
  fr_archive_file (fetch fetcher self w) = None ->
  fst (sync fetcher str_format fnmatch self w)
  = (Raise FileNotFoundError,
     mkWorld (w_cwd w) (w_config_dir w) (w_config_file w) (w_ytdl_opts_file w)
       (w_sync_file w) None (fr_media (fetch fetcher self w))).
Proof.
  intros Hdir Hlink Hm Hpl Hes Hsome Htitle Harch.
  rewrite (sync_eq fetcher str_format fnmatch self w Hdir Hlink), Hm.
  assert (Htest : negb (py_is (m_type m) "playlist")
                  && negb (py_is (m_extractor_key m) "YoutubePlaylist")
                  = false).
  { destruct Hpl as [H|H]; rewrite H; cbn; auto using andb_false_r. }
  rewrite Htest, reconcile_eq, Hes.
  cbn [sync_archive set_remove_list set_ytdl_opts].
  assert (Hadd : forall sa, exists sa', add_entries es sa = Ok sa').
  { clear - Hsome. induction es as [|[e|] es IH]; intros sa.
    - eexists; reflexivity.
    - cbn. apply IH. intros H. apply Hsome. now right.
    - exfalso. apply Hsome. now left. }
  destruct (Hadd (sync_archive self)) as [sa' ->]. rewrite Htitle.
  rewrite update_files_eq.
  cbn [fetched_world w_archive_file set_media set_archive_file].
  rewrite Harch. unfold fetched_world, set_media, set_archive_file.
  cbn [w_cwd w_config_dir w_config_file w_ytdl_opts_file w_sync_file
       w_archive_file w_media].
  rewrite Harch. reflexivity.
Qed.

End SyncFailures.

(** A single video instead of a playlist. *)
Lemma not_playlist_is_found_after_download_witness :
  fst (sync (fun _ _ w =>
               mkFetch [] (Some (record_line "id7"))
                 (app (w_media w) ["./NA/Clip.m4a"])
                 (Some (mkMeta (Some (literal "video"))
                          (Some (computed "Youtube")) None (Some "Clip"))))
            percent_format wild_match two_songs_object two_songs)
  = (Raise NotYoutubePlaylist,
     mkWorld "/music" true
       (Some [("playlist_link", PStr "https://yt/playlist?list=PL1")])
       (Some ytdl_default_opts)
       (Some (json_dumps false [("Song A", "id1"); ("Song B", "id2")]))
       (Some (record_line "id7"))
       ["./Mix/Song A.m4a"; "./Mix/Song B.m4a"; "./NA/Clip.m4a"]).
Proof.
  apply (not_playlist_is_found_after_download
           (fun _ _ w =>
              mkFetch [] (Some (record_line "id7"))
                (app (w_media w) ["./NA/Clip.m4a"])
                (Some (mkMeta (Some (literal "video"))
                         (Some (computed "Youtube")) None (Some "Clip"))))
           percent_format wild_match two_songs_object two_songs
           (mkMeta (Some (literal "video")) (Some (computed "Youtube")) None
              (Some "Clip")));
    reflexivity.
Defined.

Lemma sync_unusable_metadata_witness :
  fst (sync (fun _ _ w => mkFetch [] (w_archive_file w) (w_media w) None)
            percent_format wild_match two_songs_object two_songs)
  = (Raise AttributeError, two_songs) /\
  fst (sync (fun _ _ w =>
               mkFetch [] (w_archive_file w) (w_media w)
                 (Some (mkMeta (Some (literal "playlist")) None
                          (Some [None]) None)))
            percent_format wild_match two_songs_object two_songs)
  = (Raise TypeError, two_songs) /\
  fst (sync (fun _ _ w =>
               mkFetch [] (w_archive_file w) (w_media w)
                 (Some (mkMeta (Some (literal "playlist")) None
                          (Some []) None)))
            percent_format wild_match two_songs_object two_songs)
  = (Raise KeyError, two_songs).
Proof.
  split; [|split].
  - apply (proj1 (sync_unusable_metadata
                    (fun _ _ w =>
                       mkFetch [] (w_archive_file w) (w_media w) None)
                    percent_format wild_match two_songs_object two_songs
                    eq_refl eq_refl)).
    reflexivity.
  - apply (proj1 (proj2 (proj2 (sync_unusable_metadata
                    (fun _ _ w =>
                       mkFetch [] (w_archive_file w) (w_media w)
                         (Some (mkMeta (Some (literal "playlist")) None
                                  (Some [None]) None)))
                    percent_format wild_match two_songs_object two_songs
                    eq_refl eq_refl)
                  (mkMeta (Some (literal "playlist")) None (Some [None]) None)
                  eq_refl (or_introl eq_refl)))
             [None] eq_refl).
    now left.
  - apply (proj2 (proj2 (proj2 (sync_unusable_metadata
                    (fun _ _ w =>
                       mkFetch [] (w_archive_file w) (w_media w)
                         (Some (mkMeta (Some (literal "playlist")) None
                                  (Some []) None)))
                    percent_format wild_match two_songs_object two_songs
                    eq_refl eq_refl)
                  (mkMeta (Some (literal "playlist")) None (Some []) None)
                  eq_refl (or_introl eq_refl)))
             [] eq_refl).
    + intros [].
    + reflexivity.
Defined.

(** The first run against an empty playlist. *)
Lemma sync_without_records_file_witness :
  fst (sync (playlist_fetcher (mkPlaylist "Mix" []))
            percent_format wild_match
            (mkYoutubeSync true "/music/.sync/archive.txt"
               [("playlist_link", PStr "https://yt/playlist?list=PL1")]
               ytdl_default_opts [] [] (PBool false))
            (mkWorld "/music" true
               (Some [("playlist_link", PStr "https://yt/playlist?list=PL1")])
               (Some ytdl_default_opts) None None []))
  = (Raise FileNotFoundError,
     mkWorld "/music" true
       (Some [("playlist_link", PStr "https://yt/playlist?list=PL1")])
       (Some ytdl_default_opts) None None []).
Proof.
  apply (sync_without_records_file (playlist_fetcher (mkPlaylist "Mix" []))
           percent_format wild_match
           (mkYoutubeSync true "/music/.sync/archive.txt"
              [("playlist_link", PStr "https://yt/playlist?list=PL1")]
              ytdl_default_opts [] [] (PBool false))
           (mkWorld "/music" true
              (Some [("playlist_link", PStr "https://yt/playlist?list=PL1")])
              (Some ytdl_default_opts) None None [])
           (mkMeta (Some (literal "playlist"))
              (Some (computed "YoutubePlaylist")) (Some []) (Some "Mix"))
           [] "Mix"); try reflexivity.
  - left. reflexivity.
  - intros [].
Defined.

(* ================================================================== *)
(** ** [sync]: what a completed run leaves *)

Lemma add_entries_get_inv (T i : string) (es : list (option entry)) :
  forall sa sa',
    add_entries es sa = Ok sa' ->
    dict_get T sa' = Some i ->
    dict_get T sa = Some i \/
    exists e, In (Some e) es /\ e_title e = T /\ e_id e = i.
Proof.
  induction es as [|[e|] es IH]; intros sa sa' H Hget; cbn in H.
  - injection H as <-. now left.
  - destruct (IH _ _ H Hget) as [Hset | [e' [He' Heq]]].
    + destruct (String.eqb_spec (e_title e) T) as [Ht|Hne].
      * right. exists e. split; [now left|]. split; [assumption|].
        rewrite <- Ht, dict_get_set_same in Hset. congruence.
      * left. rewrite dict_get_set_other in Hset by congruence. assumption.
    + right. exists e'. split; [now right | assumption].
  - discriminate.
Qed.

Lemma pop_all_get_some (T i : string) (ks : list string) :
  forall d, NoDup (keys d) ->
            dict_get T (pop_all ks d) = Some i -> dict_get T d = Some i.
Proof.
  induction ks as [|k ks IH]; intros d Hnd H; [assumption|].
  change (pop_all (k :: ks) d) with (pop_all ks (dict_pop k d)) in H.
  apply IH in H; [|now apply nodup_pop].
  eapply dict_get_pop_some; eassumption.
Qed.

Lemma filter_all (f : string -> bool) (l : list string) :
  (forall x, In x l -> f x = true) -> filter f l = l.
Proof.
  induction l as [|x l IH]; intros H; [reflexivity|].
  cbn. rewrite (H x (or_introl eq_refl)), IH; [reflexivity|].
  intros y Hy. apply H. now right.
Qed.

Lemma filter_none (f : string -> bool) (l : list string) :
  (forall x, In x l -> f x = false) -> filter f l = [].
Proof.
  induction l as [|x l IH]; intros H; [reflexivity|].
  cbn. rewrite (H x (or_introl eq_refl)). apply IH.
  intros y Hy. apply H. now right.
Qed.

Lemma str_forall_append (p : ascii -> bool) (a b : string) :
  str_forall p (a ++ b) = str_forall p a && str_forall p b.
Proof.
  induction a as [|c a IH]; [reflexivity|].
  cbn [append str_forall]. now rewrite IH, andb_assoc.
Qed.

Lemma hex_digit_printable (n : N) : printable (hex_digit n) = true.
Proof.
  destruct n as [|p]; [reflexivity|].
  do 5 (try (destruct p as [p|p|]; try reflexivity)).
Qed.

Lemma u_escape_printable (n : N) :
  str_forall printable (u_escape n) = true.
Proof.
  unfold u_escape, str1. cbn [str_forall].
  now rewrite !hex_digit_printable.
Qed.

Lemma ascii_of_N_printable (n : N) :
  (32 <= n)%N -> (n <= 126)%N -> printable (ascii_of_N n) = true.
Proof.
  intros H1 H2.
  assert (Hn : (n < 256)%N) by lia.
  rewrite <- (N_ascii_embedding n Hn) in H1, H2.
  apply N.leb_le in H1. apply N.leb_le in H2.
  destruct (ascii_of_N n) as [[] [] [] [] [] [] [] []];
    solve [reflexivity | discriminate H1 | discriminate H2].
Qed.

Lemma escape_char_printable (n : N) :
  str_forall printable (escape_char n) = true.
Proof.
  unfold escape_char.
  repeat match goal with
         | |- context [N.eqb n ?k] => destruct (N.eqb n k); [reflexivity|]
         end.
  destruct (N.leb_spec 32 n); cbn [andb];
    [destruct (N.leb_spec n 126)|].
  - cbn [str1 str_forall]. now rewrite ascii_of_N_printable.
  - destruct (N.ltb n 65536); [apply u_escape_printable|].
    cbv zeta. now rewrite str_forall_append, !u_escape_printable.
  - destruct (N.ltb n 65536); [apply u_escape_printable|].
    cbv zeta. now rewrite str_forall_append, !u_escape_printable.
Qed.

Lemma escape_printable (s : ustr) : str_forall printable (escape s) = true.
Proof.
  induction s as [|c s IH]; [reflexivity|].
  cbn [escape]. now rewrite str_forall_append, escape_char_printable, IH.
Qed.

Lemma encode_str_printable (s : ustr) :
  str_forall printable (encode_str s) = true.
Proof.
  unfold encode_str. cbn [str_forall].
  now rewrite str_forall_append, escape_printable.
Qed.

Lemma encode_members_printable (d : udict) :
  str_forall printable (encode_members ", " d) = true.
Proof.
  induction d as [|[k v] d IH]; [reflexivity|].
  destruct d as [|kv d].
  - cbn [encode_members].
    now rewrite !str_forall_append, !encode_str_printable.
  - replace (encode_members ", " ((k, v) :: kv :: d))
      with (encode_str k ++ ": " ++ encode_str v ++ ", "
            ++ encode_members ", " (kv :: d)) by reflexivity.
    now rewrite !str_forall_append, !encode_str_printable, IH.
Qed.

(** X21: the text [write_json] produces without indentation, as line 157
    asks for the ledger, is plain ASCII on one line: every character of
    it is a printable ASCII character, whatever code points the titles
    and ids hold. *)
Theorem written_ledger_is_ascii (d : udict) :
  exists text,
    write_json py_dumps d false = Some text /\
    str_forall printable text = true.
Proof.
  eexists. split; [reflexivity|].
  destruct d as [|kv d]; [reflexivity|].
  unfold py_dumps. cbn [append str_forall].
  now rewrite str_forall_append, encode_members_printable.
Qed.

Section Completed2.

Variable fetcher : dict pyval -> pyval -> world -> fetch_result.
Variable str_format : string -> string -> string -> string -> format_result.
Variable fnmatch : string -> string -> bool.

(** X19: the download records after a [sync] that completes are the
    lines the fetch left, in their order, less the lines whose second
    field is an id of the working set. *)
Theorem completed_sync_records
    (self self' : YoutubeSync) (w w' : world) :
  valid_dir self = true ->
  fst (sync fetcher str_format fnmatch self w) = (Ok self', w') ->
  exists text text',
    fr_archive_file (fetch fetcher self w) = Some text /\
    w_archive_file w' = Some text' /\
    readlines text' =
    filter (kept (values (working_set (fr_log (fetch fetcher self w))
                                      (remove_list self))))
           (readlines text).
Proof.
  intros Hdir Hsync.
  destruct (sync_ok_inv _ _ _ _ _ _ _ Hdir Hsync)
    as (m & es & sa & title & text & _ & _ & _ & _ & Htext & _ & Hrest).
  cbv zeta in Hrest. destruct Hrest as (_ & _ & Harch & _).
  exists text. eexists. split; [assumption|]. split; [exact Harch|].
  apply readlines_kept.
Qed.

(** X20: [sync] invents no ledger entry: after a run that completes,
    every title the persisted ledger maps to an id was mapped to that id
    by the ledger at the start, or is the title of an entry of the
    snapshot with that id. *)
Theorem completed_sync_ledger_sound
    (self self' : YoutubeSync) (w w' : world) (d : dict string)
    (T i : string) :
  valid_dir self = true ->
  NoDup (keys (sync_archive self)) ->
  fst (sync fetcher str_format fnmatch self w) = (Ok self', w') ->
  ledger w' = Ok d ->
  dict_get T d = Some i ->
  dict_get T (sync_archive self) = Some i \/
  exists m es e,
    fr_meta (fetch fetcher self w) = Some m /\
    m_entries m = Some es /\
    In (Some e) es /\ e_title e = T /\ e_id e = i.
Proof.
  intros Hdir Hnd Hsync Hled Hget.
  destruct (sync_ok_inv _ _ _ _ _ _ _ Hdir Hsync)
    as (m & es & sa & title & text & Hm & Hes & Hsa & _ & _ & _ & Hrest).
  cbv zeta in Hrest. destruct Hrest as (_ & Hfile & _).
  assert (Hnd' : NoDup (keys sa)) by (eapply add_entries_nodup; eassumption).
  rewrite (ledger_written _ _ (pop_all_nodup _ _ Hnd') Hfile) in Hled.
  injection Hled as <-.
  apply pop_all_get_some in Hget; [|assumption].
  destruct (add_entries_get_inv _ _ _ _ _ Hsa Hget) as [H | [e He]].
  - now left.
  - right. exists m, es, e. tauto.
Qed.

End Completed2.

(** Records with CR LF line endings: the line kept is written back with
    a newline. *)
Lemma completed_sync_records_witness :
  w_archive_file (final (sync_run mix_A two_songs_object crlf_records))
    = Some (record_line "id1") /\
  exists text text',
    fr_archive_file (fetch_run mix_A two_songs_object crlf_records)
      = Some text /\
    w_archive_file (final (sync_run mix_A two_songs_object crlf_records))
      = Some text' /\
    readlines text' =
    filter (kept (values
                    (working_set
                       (fr_log (fetch_run mix_A two_songs_object crlf_records))
                       (remove_list two_songs_object))))
           (readlines text).
Proof.
  split; [vm_compute; reflexivity|].
  eapply (completed_sync_records (playlist_fetcher mix_A) percent_format
            wild_match two_songs_object _ crlf_records).
  - reflexivity.
  - vm_compute. reflexivity.
Defined.

Lemma completed_sync_ledger_sound_witness :
  dict_get "Song A" (sync_archive two_songs_object) = Some "id9" \/
  exists m es e,
    fr_meta (fetch_run mix_dup two_songs_object two_songs) = Some m /\
    m_entries m = Some es /\
    In (Some e) es /\ e_title e = "Song A" /\ e_id e = "id9".
Proof.
  eapply (completed_sync_ledger_sound (playlist_fetcher mix_dup)
            percent_format wild_match two_songs_object _ two_songs _
            [("Song A", "id9"); ("Song B", "id2")] "Song A" "id9").
  - reflexivity.
  - nodup_strings.
  - vm_compute. reflexivity.
  - vm_compute. reflexivity.
  - reflexivity.
Defined.

(* ================================================================== *)
(** ** [_update_files]: removals *)

Section Removals.

Variable fetcher : dict pyval -> pyval -> world -> fetch_result.
Variable str_format : string -> string -> string -> string -> format_result.
Variable fnmatch : string -> string -> bool.

Lemma update_files_scanned (pt : string) (self : YoutubeSync) (w : world)
    (text : string) :
  w_archive_file w = Some text ->
  (forall l, In l (readlines text) -> line_id l <> None) ->
  fst (_update_files str_format fnmatch pt self w) =
  match fst (remove_songs str_format fnmatch pt self
               (removed_titles (remove_list self) (readlines text))
               (set_archive_file
                  (Some (concat_lines
                           (filter (kept (values (remove_list self)))
                                   (readlines text)))) w)) with
  | (Ok self', w1) =>
      (Ok self', set_sync_file (Some (json_dumps false (sync_archive self'))) w1)
  | (Raise e, w1) => (Raise e, w1)
  end.
Proof.
  intros Htext Hall. rewrite update_files_eq, Htext. cbv zeta.
  rewrite (scan_lines_ok _ _ _ _ _ Hall). cbn [sc_ok sc_removed sc_written app].
  reflexivity.
Qed.

Lemma sync_ok_reaches (self self' : YoutubeSync) (w w' : world) :
  valid_dir self = true ->
  fst (sync fetcher str_format fnmatch self w) = (Ok self', w') ->
  exists m es sa title text,
    fr_meta (fetch fetcher self w) = Some m /\
    m_entries m = Some es /\
    add_entries es (sync_archive self) = Ok sa /\
    m_title m = Some title /\
    fr_archive_file (fetch fetcher self w) = Some text /\
    (forall l, In l (readlines text) -> line_id l <> None) /\
    fst (sync fetcher str_format fnmatch self w) =
    fst (_update_files str_format fnmatch title
           (set_sync_archive sa
              (set_remove_list
                 (working_set (fr_log (fetch fetcher self w))
                              (remove_list self))
                 (set_ytdl_opts (sync_opts self) self)))
           (fetched_world (fetch fetcher self w) w)).
Proof.
  intros Hdir H.
  destruct (sync_ok_inv _ _ _ _ _ _ _ Hdir H)
    as (m & es & sa & title & text & Hm & Hes & Hsa & Htitle & Htext & Hall
        & _).
  exists m, es, sa, title, text. repeat (split; [assumption|]).
  destruct (truthy (sync_link self)) eqn:Hlink;
    [|rewrite sync_falsy_link in H by assumption; discriminate].
  rewrite (sync_eq fetcher str_format fnmatch self w Hdir Hlink) in *.
  rewrite Hm in *.
  destruct (negb _ && negb _); [discriminate|].
  rewrite reconcile_eq, Hes.
  cbn [sync_archive set_remove_list set_ytdl_opts].
  now rewrite Hsa, Htitle.
Qed.

(** X22: when no line of the download records carries an id of the
    working set, a [sync] that completes removes nothing: the download
    records hold the lines the fetch left, each written back with a
    newline as its line ending, the media files are as the fetch left
    them, and the persisted ledger is the ledger at the start with the
    entries of the snapshot written over it. *)
Theorem sync_without_matching_record
    (self self' : YoutubeSync) (w w' : world) :
  valid_dir self = true ->
  NoDup (keys (sync_archive self)) ->
  fst (sync fetcher str_format fnmatch self w) = (Ok self', w') ->
  (forall text line x,
      fr_archive_file (fetch fetcher self w) = Some text ->
      In line (readlines text) ->
      line_id line = Some x ->
      ~ In x (values (working_set (fr_log (fetch fetcher self w))
                                  (remove_list self)))) ->
  (exists text,
      fr_archive_file (fetch fetcher self w) = Some text /\
      w_archive_file w' = Some (universal_newlines text)) /\
  w_media w' = fr_media (fetch fetcher self w) /\
  exists m es sa,
    fr_meta (fetch fetcher self w) = Some m /\
    m_entries m = Some es /\
    add_entries es (sync_archive self) = Ok sa /\
    ledger w' = Ok sa.
Proof.
  intros Hdir Hnd Hsync Hno.
  destruct (sync_ok_reaches _ _ _ _ Hdir Hsync)
    as (m & es & sa & title & text & Hm & Hes & Hsa & Htitle & Htext & Hall
        & Heq).
  rewrite Heq in Hsync.
  rewrite (update_files_scanned _ _ _ text) in Hsync;
    [|cbn [fetched_world w_archive_file set_media set_archive_file];
      assumption | assumption].
  cbn [remove_list set_sync_archive set_remove_list] in Hsync.
  set (ws := working_set (fr_log (fetch fetcher self w)) (remove_list self))
    in *.
  assert (Hkept : forall l, In l (readlines text) -> kept (values ws) l = true).
  { intros l Hl. unfold kept. destruct (line_id l) as [x|] eqn:Hx.
    - apply negb_true_iff, mem_not_in. eapply Hno; eassumption.
    - now contradiction (Hall l Hl). }
  assert (Hrm : removed_titles ws (readlines text) = []).
  { unfold removed_titles. rewrite filter_none; [reflexivity|].
    intros l Hl. now rewrite Hkept. }
  rewrite Hrm, (filter_all _ _ Hkept), concat_readlines in Hsync.
  cbn [remove_songs ret fst] in Hsync. injection Hsync as <- <-.
  cbn [w_archive_file w_media set_sync_file set_archive_file fetched_world
       set_media sync_archive set_sync_archive].
  split; [now exists text|]. split; [reflexivity|].
  exists m, es, sa. repeat (split; [assumption|]).
  apply ledger_written; [eapply add_entries_nodup; eassumption | reflexivity].
Qed.

(** X23: when the first title to remove has no media file matching its
    pattern, [_update_files] ends with [IndexError] after it has rewritten
    the download records: the records have lost the lines of the removed
    ids while the ledger file still holds their titles. *)
Theorem update_files_missing_media
    (pt : string) (self : YoutubeSync) (w : world)
    (text T t p : string) (rest : list string) :
  w_archive_file w = Some text ->
  (forall l, In l (readlines text) -> line_id l <> None) ->
  removed_titles (remove_list self) (readlines text) = T :: rest ->
  dict_get "outtmpl" (ytdl_opts self) = Some (PStr t) ->
  str_format t pt T "*" = Formatted p ->
  filter (fnmatch p) (w_media w) = [] ->
  fst (_update_files str_format fnmatch pt self w) =
  (Raise IndexError,
   set_archive_file
     (Some (concat_lines
              (filter (kept (values (remove_list self))) (readlines text))))
     w).
Proof.
  intros Htext Hall Hrm Ht Hp Hf.
  rewrite (update_files_scanned _ _ _ text Htext Hall), Hrm.
  rewrite remove_songs_cons. rewrite Ht, Hp.
  cbn [w_media set_archive_file]. rewrite Hf. reflexivity.
Qed.

Lemma remove_songs_spares (pt : string) (f : string) (rs : list string) :
  forall (self self' : YoutubeSync) (w w' : world),
    fst (remove_songs str_format fnmatch pt self rs w) = (Ok self', w') ->
    (forall key t p,
        In key rs ->
        dict_get "outtmpl" (ytdl_opts self) = Some (PStr t) ->
        str_format t pt key "*" = Formatted p ->
        fnmatch p f = false) ->
    In f (w_media w) ->
    In f (w_media w').
Proof.
  induction rs as [|key rs IH]; intros self self' w w' H Hno Hin.
  - cbn in H. now injection H as _ <-.
  - rewrite remove_songs_cons in H.
    destruct (dict_get "outtmpl" (ytdl_opts self)) as [[| | |t]|] eqn:Ht;
      try discriminate.
    destruct (str_format t pt key "*") as [p| | |] eqn:Hp; try discriminate.
    destruct (filter (fnmatch p) (w_media w)) as [|f0 fs] eqn:Hf;
      try discriminate.
    destruct (mem f0 (w_media w)) eqn:Hm; try discriminate.
    assert (Hf0 : fnmatch p f0 = true).
    { assert (Hin0 : In f0 (filter (fnmatch p) (w_media w)))
        by (rewrite Hf; now left).
      now apply filter_In in Hin0. }
    apply (IH _ _ _ _ H).
    + intros k t' p' Hk Ht' Hp'. cbn [ytdl_opts set_sync_archive] in Ht'.
      apply (Hno k t' p'); [now right | congruence | assumption].
    + cbn [w_media set_media]. unfold remove_path. apply filter_In.
      split; [assumption|]. apply negb_true_iff, String.eqb_neq.
      intros ->. rewrite (Hno key t p) in Hf0; [discriminate|now left| |];
        congruence.
Qed.

(** X24: a completed [sync] deletes only files matching the pattern of a
    candidate: a media file present after the fetch that matches the
    pattern of no title of the working set is still there after the
    run. *)
Theorem sync_spares_unmatched_media
    (self self' : YoutubeSync) (w w' : world) (f : string) :
  valid_dir self = true ->
  fst (sync fetcher str_format fnmatch self w) = (Ok self', w') ->
  In f (fr_media (fetch fetcher self w)) ->
  (forall m title t key p,
      fr_meta (fetch fetcher self w) = Some m ->
      m_title m = Some title ->
      dict_get "outtmpl" (sync_opts self) = Some (PStr t) ->
      In key (keys (working_set (fr_log (fetch fetcher self w))
                                (remove_list self))) ->
      str_format t title key "*" = Formatted p ->
      fnmatch p f = false) ->
  In f (w_media w').
Proof.
  intros Hdir Hsync Hin Hno.
  destruct (sync_ok_reaches _ _ _ _ Hdir Hsync)
    as (m & es & sa & title & text & Hm & Hes & Hsa & Htitle & Htext & Hall
        & Heq).
  rewrite Heq in Hsync.
  rewrite (update_files_scanned _ _ _ text) in Hsync;
    [|cbn [fetched_world w_archive_file set_media set_archive_file];
      assumption | assumption].
  cbn [remove_list set_sync_archive set_remove_list] in Hsync.
  destruct (fst (remove_songs _ _ _ _ _ _)) as [[s1|e1] w1] eqn:Hrs;
    [|discriminate].
  injection Hsync as _ <-. cbn [w_media set_sync_file].
  apply (remove_songs_spares _ f _ _ _ _ _ Hrs).
  - intros key t p Hkey Ht Hp.
    cbn [ytdl_opts set_sync_archive set_remove_list set_ytdl_opts] in Ht.
    apply (Hno m title t key p); try assumption.
    now apply (removed_titles_in_working_set _ _ Hall).
  - exact Hin.
Qed.

End Removals.

(** The first run in a folder: the working set is empty. *)
Lemma sync_without_matching_record_witness :
  (exists text,
      fr_archive_file (fetch_run mix_AB new_song_object new_song)
        = Some text /\
      w_archive_file (final (sync_run mix_AB new_song_object new_song))
        = Some (universal_newlines text)) /\
  w_media (final (sync_run mix_AB new_song_object new_song))
    = fr_media (fetch_run mix_AB new_song_object new_song) /\
  exists m es sa,
    fr_meta (fetch_run mix_AB new_song_object new_song) = Some m /\
    m_entries m = Some es /\
    add_entries es (sync_archive new_song_object) = Ok sa /\
    ledger (final (sync_run mix_AB new_song_object new_song)) = Ok sa.
Proof.
  eapply (sync_without_matching_record (playlist_fetcher mix_AB)
            percent_format wild_match new_song_object _ new_song).
  - reflexivity.
  - constructor.
  - vm_compute. reflexivity.
  - intros text line x _ _ _ Hx.
    assert (Hws : working_set
                    (fr_log (fetch (playlist_fetcher mix_AB) new_song_object
                                   new_song))
                    (remove_list new_song_object) = [])
      by (vm_compute; reflexivity).
    rewrite Hws in Hx. destruct Hx.
Defined.

(** "Song B" left the playlist and its file was deleted by hand; the
    records have CR LF line endings. *)
Lemma update_files_missing_media_witness :
  fst (_update_files percent_format wild_match "Mix"
         (set_remove_list [("Song B", "id2")] two_songs_object)
         (set_media ["./Mix/Song A.m4a"] crlf_records))
  = (Raise IndexError,
     set_archive_file (Some (record_line "id1"))
       (set_media ["./Mix/Song A.m4a"] crlf_records)).
Proof.
  apply (update_files_missing_media percent_format wild_match "Mix"
           (set_remove_list [("Song B", "id2")] two_songs_object)
           (set_media ["./Mix/Song A.m4a"] crlf_records)
           ("youtube id1" ++ String cr (str1 nl)
            ++ "youtube id2" ++ String cr (str1 nl))
           "Song B" "./%(playlist_title)s/%(title)s.%(ext)s"
           "./Mix/Song B.*" []).
  - reflexivity.
  - intros l Hl. vm_compute in Hl.
    destruct Hl as [<-|[<-|[]]]; vm_compute; discriminate.
  - vm_compute. reflexivity.
  - reflexivity.
  - vm_compute. reflexivity.
  - vm_compute. reflexivity.
Defined.

Lemma sync_spares_unmatched_media_witness :
  In "./Mix/Song A.m4a"
     (w_media (final (sync_run mix_A two_songs_object two_songs))).
Proof.
  eapply (sync_spares_unmatched_media (playlist_fetcher mix_A) percent_format
            wild_match two_songs_object _ two_songs _ "./Mix/Song A.m4a").
  - reflexivity.
  - vm_compute. reflexivity.
  - vm_compute. auto.
  - intros m title t key p Hm Htitle Ht Hkey Hp.
    assert (Hm' : fr_meta (fetch (playlist_fetcher mix_A) two_songs_object
                                 two_songs)
                  = Some (mkMeta (Some (literal "playlist"))
                            (Some (computed "YoutubePlaylist"))
                            (Some []) (Some "Mix")))
      by (vm_compute; reflexivity).
    rewrite Hm' in Hm. injection Hm as <-. cbn in Htitle.
    injection Htitle as <-.
    assert (Ht' : dict_get "outtmpl" (sync_opts two_songs_object)
                  = Some (PStr "./%(playlist_title)s/%(title)s.%(ext)s"))
      by (vm_compute; reflexivity).
    rewrite Ht' in Ht. injection Ht as <-.
    assert (Hws : keys (working_set
                          (fr_log (fetch (playlist_fetcher mix_A)
                                         two_songs_object two_songs))
                          (remove_list two_songs_object)) = ["Song B"])
      by (vm_compute; reflexivity).
    rewrite Hws in Hkey. destruct Hkey as [<-|[]].
    vm_compute in Hp. injection Hp as <-. vm_compute. reflexivity.
Defined.

(* ================================================================== *)
(** ** [line.split()[1]] *)

Lemma split_cons_field (x y : ascii) (r : string) :
  py_isspace x = false ->
  py_isspace y = false ->
  split (String x (String y r)) =
  match split (String y r) with
  | f :: fs => String x f :: fs
  | [] => [str1 x]
  end.
Proof.
  intros Hx Hy.
  change (split (String x (String y r)))
    with (if py_isspace x then split (String y r)
          else if py_isspace y then str1 x :: split (String y r)
               else match split (String y r) with
                    | f :: fs => String x f :: fs
                    | [] => [str1 x]
                    end).
  now rewrite Hx, Hy.
Qed.

Lemma split_field (a rest : string) :
  a <> EmptyString ->
  str_forall not_space a = true ->
  (rest = EmptyString \/
   exists c r, rest = String c r /\ py_isspace c = true) ->
  split (a ++ rest) = a :: split rest.
Proof.
  induction a as [|x a IH]; intros Hne Hns Hrest; [congruence|].
  cbn [str_forall] in Hns. apply andb_true_iff in Hns.
  destruct Hns as [Hx Ha]. unfold not_space in Hx.
  apply negb_true_iff in Hx.
  destruct a as [|y a].
  - destruct Hrest as [-> | (c & r & -> & Hc)].
    + change ((if py_isspace x then split EmptyString else [str1 x])
              = String x EmptyString :: split EmptyString).
      now rewrite Hx.
    + change ((if py_isspace x then split (String c r)
               else if py_isspace c then str1 x :: split (String c r)
                    else match split (String c r) with
                         | f :: fs => String x f :: fs
                         | [] => [str1 x]
                         end)
              = String x EmptyString :: split (String c r)).
      now rewrite Hx, Hc.
  - assert (Hy : py_isspace y = false).
    { cbn [str_forall] in Ha. apply andb_true_iff in Ha.
      destruct Ha as [Hy _]. now apply negb_true_iff in Hy. }
    change (String x (String y a) ++ rest)
      with (String x (String y (a ++ rest))).
    rewrite split_cons_field by assumption.
    change (String y (a ++ rest)) with (String y a ++ rest).
    rewrite IH by (discriminate || assumption). reflexivity.
Qed.

(** X25: on a record line made of two fields without spaces, separated by
    one space and closed by a newline, the id [_update_files] reads is
    the second field. *)
Theorem line_id_of_record (extractor id : string) :
  extractor <> EmptyString ->
  id <> EmptyString ->
  str_forall not_space extractor = true ->
  str_forall not_space id = true ->
  line_id (extractor ++ " " ++ id ++ str1 nl) = Some id.
Proof.
  intros He Hi Hes His. unfold line_id.
  rewrite split_field; [|assumption|assumption|
    right; exists " "%char, (id ++ str1 nl); split; reflexivity].
  change (split (" " ++ id ++ str1 nl)) with (split (id ++ str1 nl)).
  rewrite split_field; [reflexivity|assumption|assumption|
    right; exists nl, EmptyString; split; reflexivity].
Qed.

Lemma line_id_of_record_witness :
  line_id ("youtube" ++ " " ++ "dQw4w9WgXcQ" ++ str1 nl) = Some "dQw4w9WgXcQ".
Proof.
  apply (line_id_of_record "youtube" "dQw4w9WgXcQ");
    reflexivity || discriminate.
Defined.

(* ================================================================== *)
(** ** What the logger prints *)

(** X4: the lines the logger prints for the calls of a fetch.  A
    warning or an error is always printed, with its tag; a debug message
    is printed, with its tag, exactly when [quiet] is false.  The flag
    has no say in what is pruned. *)
Theorem logger_output (q : pyval) (log : list log_event) :
  forall songs,
    fst (run_logger q log songs) =
    flat_map (fun ev =>
                match ev with
                | LDebug msg =>
                    if truthy q then [] else [("<DEBUG> " ++ msg)%string]
                | LWarning msg => [("<WARNING> " ++ msg)%string]
                | LError msg => [("<ERROR> " ++ msg)%string]
                end) log /\
    forall q', snd (run_logger q log songs) = snd (run_logger q' log songs).
Proof.
  induction log as [|ev log IH]; intros songs; [split; reflexivity|].
  split.
  - destruct ev as [msg|msg|msg]; cbn [run_logger flat_map].
    + unfold debug. destruct (recorded_title msg) as [t|];
        match goal with
        | |- context [run_logger ?a ?b ?c] =>
            destruct (IH c) as [IH1 _]; destruct (run_logger a b c) as [o s]
        end; cbn [fst] in *; rewrite IH1; destruct (truthy q); reflexivity.
    + destruct (IH songs) as [IH1 _].
      destruct (run_logger q log songs) as [o s]. cbn [fst] in *.
      now rewrite IH1.
    + destruct (IH songs) as [IH1 _].
      destruct (run_logger q log songs) as [o s]. cbn [fst] in *.
      now rewrite IH1.
  - intros q'. now rewrite !run_logger_snd.
Qed.

Lemma init_keeps_ledger_witness :
  sync_archive (set_sync_config
                  [("playlist_link", PStr "https://yt/playlist?list=PL2")]
                  two_songs_object) = sync_archive two_songs_object /\
  remove_list (set_sync_config
                 [("playlist_link", PStr "https://yt/playlist?list=PL2")]
                 two_songs_object) = remove_list two_songs_object /\
  valid_dir (set_sync_config
               [("playlist_link", PStr "https://yt/playlist?list=PL2")]
               two_songs_object) = valid_dir two_songs_object /\
  w_sync_file two_songs = w_sync_file two_songs.
Proof.
  apply (init_keeps_ledger "https://yt/playlist?list=PL2" two_songs_object
           (set_sync_config
              [("playlist_link", PStr "https://yt/playlist?list=PL2")]
              two_songs_object)
           two_songs two_songs []).
  vm_compute. reflexivity.
Defined.

(* ================================================================== *)
(** ** From [--init] to the next run *)

Section NextRun.

Variable fetcher : dict pyval -> pyval -> world -> fetch_result.
Variable str_format : string -> string -> string -> string -> format_result.
Variable fnmatch : string -> string -> bool.

(** X12: what [--init LINK] persists in a folder without [.sync] and
    without files of the tool is what the next run loads: the object the
    next run builds in the folder left by [--init LINK] has [valid_dir]
    set, the link as configured link, the default fetcher options, an
    empty ledger and working set, and [quiet] off. *)
Theorem init_then_new_process (link : string) (w : world) :
  w_config_dir w = false ->
  w_config_file w = None ->
  w_ytdl_opts_file w = None ->
  w_sync_file w = None ->
  exists self,
    YoutubeSync_new
      (final (main fetcher str_format fnmatch (Some link) false w))
    = (Ok self,
       final (main fetcher str_format fnmatch (Some link) false w), []) /\
    valid_dir self = true /\
    sync_link self = PStr link /\
    ytdl_opts self = ytdl_default_opts /\
    sync_archive self = [] /\
    remove_list self = [] /\
    quiet self = PBool false.
Proof.
  intros Hd Hc Ho Hs. destruct w as [cwd dir cfg opts sf af md].
  cbn in Hd, Hc, Ho, Hs. subst.
  eexists. split; [reflexivity|]. repeat split.
Qed.

End NextRun.

Lemma init_then_new_process_witness :
  exists self,
    YoutubeSync_new
      (final (run mix_A (Some "https://yt/playlist?list=PL1") false
                  empty_folder))
    = (Ok self,
       final (run mix_A (Some "https://yt/playlist?list=PL1") false
                  empty_folder), []) /\
    valid_dir self = true /\
    sync_link self = PStr "https://yt/playlist?list=PL1" /\
    ytdl_opts self = ytdl_default_opts /\
    sync_archive self = [] /\
    remove_list self = [] /\
    quiet self = PBool false.
Proof.
  apply (init_then_new_process (playlist_fetcher mix_A) percent_format
           wild_match "https://yt/playlist?list=PL1" empty_folder);
    reflexivity.
Defined.
